(** * MedLink: the connection, like, saved-post and sharing logic of
      [server/storage.ts] and [server/routes.ts], embedded in Rocq.

    The relational store is a record of tables; a table is the list of its
    rows in insertion order together with the [serial] sequence that feeds
    its primary key.  Storage methods are computations in a small
    state-and-exception monad over that record; route handlers run such a
    computation inside the [try { ... } catch (err) { handleErrors(err, res) }]
    wrapper every handler of [routes.ts] has. *)

From Stdlib Require Import ZArith List Ascii String Bool Lia.
Import ListNotations.

Local Open Scope Z_scope.
Local Open Scope list_scope.

(* ================================================================= *)
(** ** Rows (server/db/schema.ts) *)

(** [connections.status]: [text("status", { enum: ['pending','accepted','rejected'] })]. *)
Inductive ConnectionStatus : Type :=
| pending
| accepted
| rejected.

Definition status_eqb (a b : ConnectionStatus) : bool :=
  match a, b with
  | pending, pending | accepted, accepted | rejected, rejected => true
  | _, _ => false
  end.

Definition status_text (s : ConnectionStatus) : string :=
  match s with
  | pending => "pending"
  | accepted => "accepted"
  | rejected => "rejected"
  end.

Record User : Type := mkUser {
  u_id : Z;
  u_username : string;
  u_name : string;
  u_role : string
}.

Record Connection : Type := mkConnection {
  c_id : Z;
  c_userId : Z;            (* initiator *)
  c_connectedUserId : Z;   (* recipient *)
  c_status : ConnectionStatus;
  c_createdAt : Z;
  c_updatedAt : Z
}.

Record Like : Type := mkLike {
  l_id : Z;
  l_postId : Z;
  l_userId : Z;
  l_createdAt : Z
}.

(** What [createLike] resolves to: [Like | { error?: string;
    alreadyExists?: boolean }].  An absent [error] is the empty string, an
    absent [alreadyExists] is [false] (both are only tested for truth). *)
Inductive LikeResult : Type :=
| LikeRow (row : Like)
| LikeFailure (error : string) (alreadyExists : bool).

Record SavedPost : Type := mkSavedPost {
  sp_id : Z;
  sp_postId : Z;
  sp_userId : Z
}.

Record DocumentSharing : Type := mkDocumentSharing {
  ds_id : Z;
  ds_documentId : Z;
  ds_userId : Z;
  ds_createdAt : Z
}.

(** The store.  Of [posts] and [documents] only the primary keys matter
    here: the tables below refer to them through foreign keys. *)
Record Db : Type := mkDb {
  users : list User;
  posts : list Z;
  documents : list Z;
  connections : list Connection;
  connections_seq : Z;
  likes : list Like;
  likes_seq : Z;
  savedPosts : list SavedPost;
  savedPosts_seq : Z;
  documentSharing : list DocumentSharing;
  documentSharing_seq : Z
}.

Definition set_connections (rows : list Connection) (seq : Z) (db : Db) : Db :=
  mkDb (users db) (posts db) (documents db) rows seq
       (likes db) (likes_seq db) (savedPosts db) (savedPosts_seq db)
       (documentSharing db) (documentSharing_seq db).

Definition set_likes (rows : list Like) (seq : Z) (db : Db) : Db :=
  mkDb (users db) (posts db) (documents db)
       (connections db) (connections_seq db) rows seq
       (savedPosts db) (savedPosts_seq db)
       (documentSharing db) (documentSharing_seq db).

Definition set_savedPosts (rows : list SavedPost) (seq : Z) (db : Db) : Db :=
  mkDb (users db) (posts db) (documents db)
       (connections db) (connections_seq db) (likes db) (likes_seq db)
       rows seq (documentSharing db) (documentSharing_seq db).

Definition set_documentSharing (rows : list DocumentSharing) (seq : Z) (db : Db) : Db :=
  mkDb (users db) (posts db) (documents db)
       (connections db) (connections_seq db) (likes db) (likes_seq db)
       (savedPosts db) (savedPosts_seq db) rows seq.

(** Foreign keys: [references(() => users.id)] and the like. *)
Definition user_exists (db : Db) (uid : Z) : bool :=
  existsb (fun u => u_id u =? uid) (users db).

Definition post_exists (db : Db) (pid : Z) : bool :=
  existsb (Z.eqb pid) (posts db).

Definition document_exists (db : Db) (did : Z) : bool :=
  existsb (Z.eqb did) (documents db).

(* ================================================================= *)
(** ** Exceptions and the storage monad *)

(** What a storage call can throw: a PostgreSQL error with its SQLSTATE
    [code], or (in a handler) a [ZodError] of a failed [safeParse]. *)
Inductive Exn : Type :=
| PgError (code : string)
| ZodError.

Definition fk_violation : Exn := PgError "23503".
Definition unique_violation : Exn := PgError "23505".

(** A computation either returns a value or throws; both leave a store
    behind (a failed [insert] has still drawn from the sequence). *)
Inductive Outcome (A : Type) : Type :=
| Returns (a : A) (db : Db)
| Throws (e : Exn) (db : Db).

Arguments Returns {A} a db.
Arguments Throws {A} e db.

Definition Storage (A : Type) : Type := Db -> Outcome A.

Definition ret {A} (a : A) : Storage A := fun db => Returns a db.

Definition throw {A} (e : Exn) : Storage A := fun db => Throws e db.

Definition bind {A B} (m : Storage A) (k : A -> Storage B) : Storage B :=
  fun db =>
    match m db with
    | Returns a db' => k a db'
    | Throws e db' => Throws e db'
    end.

Definition query {A} (f : Db -> A) : Storage A := fun db => Returns (f db) db.

Definition execute (f : Db -> Db) : Storage unit := fun db => Returns tt (f db).

Notation "x <- m ;; k" := (bind m (fun x => k))
  (at level 61, m at next level, right associativity).
Notation "m ;;; k" := (bind m (fun _ => k))
  (at level 61, right associativity).

Definition store_after {A} (o : Outcome A) : Db :=
  match o with
  | Returns _ db => db
  | Throws _ db => db
  end.

(* ================================================================= *)
(** ** HTTP responses *)

Inductive Body : Type :=
| NoBody                                       (* res.sendStatus(n) *)
| Message (message : string)                   (* { message } *)
| ErrorMessage (e : Exn)                       (* { message: err.message } *)
| ConnectionJson (c : option Connection)
| LikeJson (message : string) (liked : bool) (like : option LikeResult) (likesCount : nat)
| Success.                                     (* { success: true } *)

Record Response : Type := mkResponse {
  res_status : Z;
  res_body : Body
}.

(** [handleErrors] of [registerRoutes]. *)
Definition handleErrors (err : Exn) : Response :=
  match err with
  | ZodError => mkResponse 400 (ErrorMessage ZodError)
  | _ => mkResponse 500 (ErrorMessage err)
  end.

(** [try { body } catch (err) { handleErrors(err as Error, res) }]. *)
Definition handler (body : Storage Response) (db : Db) : Db * Response :=
  match body db with
  | Returns r db' => (db', r)
  | Throws e db' => (db', handleErrors e)
  end.

(** [req.user], the verified token payload. *)
Record AuthUser : Type := mkAuthUser {
  au_id : Z;
  au_username : string;
  au_role : string
}.

(* ================================================================= *)
(** ** Connections: storage methods *)

(** [DrizzleStorage.createConnection]: one [insert] with status "pending".
    The row's id comes from the sequence; both user ids are foreign keys. *)
Definition createConnection (now : Z) (userId connectedUserId : Z) : Storage Connection :=
  fun db =>
    let id := connections_seq db in
    let row := mkConnection id userId connectedUserId pending now now in
    if user_exists db userId && user_exists db connectedUserId
    then Returns row (set_connections (connections db ++ [row]) (id + 1) db)
    else Throws fk_violation (set_connections (connections db) (id + 1) db).

(** [DrizzleStorage.getConnectionById]: [findFirst] on the id. *)
Definition getConnectionById (connectionId : Z) : Storage (option Connection) :=
  query (fun db => find (fun c => c_id c =? connectionId) (connections db)).

Definition set_status (now : Z) (status : ConnectionStatus) (c : Connection) : Connection :=
  mkConnection (c_id c) (c_userId c) (c_connectedUserId c) status (c_createdAt c) now.

(** [DrizzleStorage.updateConnectionStatus]: [update ... set status,
    updatedAt where id = connectionId returning], then [result[0]]. *)
Definition updateConnectionStatus (now : Z) (connectionId : Z) (status : ConnectionStatus)
  : Storage (option Connection) :=
  fun db =>
    let hit := fun c => c_id c =? connectionId in
    let rows := map (fun c => if hit c then set_status now status c else c) (connections db) in
    let result := map (set_status now status) (filter hit (connections db)) in
    Returns (hd_error result) (set_connections rows (connections_seq db) db).

(* ================================================================= *)
(** ** Connections: route handlers

    [connectionId] is the value of [parseInt(req.params.connectionId)],
    with [None] for [NaN]; [user] is [req.user]. *)

Definition json (status : Z) (b : Body) : Storage Response :=
  ret (mkResponse status b).

(** [POST /api/connections/connect].  [target] is [req.body.userId] when it
    passes [insertConnectionSchema] (an integer), [None] when it does not. *)
Definition connect_handler (now : Z) (user : option AuthUser) (target : option Z)
  : Db -> Db * Response :=
  handler
    match user with
    | None => json 401 (Message "User not authenticated")
    | Some u =>
        match target with
        | None => throw ZodError
        | Some t =>
            connection <- createConnection now (au_id u) t ;;
            json 201 (ConnectionJson (Some connection))
        end
    end.

(** [POST /api/connections/:connectionId/accept]. *)
Definition accept_handler (now : Z) (user : option AuthUser) (connectionId : option Z)
  : Db -> Db * Response :=
  handler
    match user with
    | None => json 401 (Message "User not authenticated")
    | Some u =>
        match connectionId with
        | None => json 400 (Message "Invalid connection ID")
        | Some cid =>
            found <- getConnectionById cid ;;
            match found with
            | None => json 404 (Message "Connection not found")
            | Some connection =>
                if negb (c_connectedUserId connection =? au_id u) then
                  json 403 (Message "Forbidden: You cannot accept this connection request.")
                else if negb (status_eqb (c_status connection) pending) then
                  json 400 (Message ("Connection is already "
                                       ++ status_text (c_status connection) ++ "."))
                else
                  updatedConnection <- updateConnectionStatus now cid accepted ;;
                  json 200 (ConnectionJson updatedConnection)
            end
        end
    end.

(** [POST /api/connections/:connectionId/reject]. *)
Definition reject_handler (now : Z) (user : option AuthUser) (connectionId : option Z)
  : Db -> Db * Response :=
  handler
    match user with
    | None => json 401 (Message "User not authenticated")
    | Some u =>
        match connectionId with
        | None => json 400 (Message "Invalid connection ID")
        | Some cid =>
            found <- getConnectionById cid ;;
            match found with
            | None => json 404 (Message "Connection not found")
            | Some connection =>
                if negb (c_connectedUserId connection =? au_id u)
                   && negb ((c_userId connection =? au_id u)
                            && status_eqb (c_status connection) pending) then
                  json 403 (Message "Forbidden: You cannot reject this connection request.")
                else if negb (status_eqb (c_status connection) pending) then
                  json 400 (Message ("Connection is already "
                                       ++ status_text (c_status connection) ++ "."))
                else
                  updatedConnection <- updateConnectionStatus now cid rejected ;;
                  json 200 (ConnectionJson updatedConnection)
            end
        end
    end.

(** The documented operations of the connection subsystem, as requests. *)
Inductive Op : Type :=
| Request (user : option AuthUser) (target : option Z)
| Accept (user : option AuthUser) (connectionId : option Z)
| Reject (user : option AuthUser) (connectionId : option Z).

Definition step (now : Z) (op : Op) : Db -> Db * Response :=
  match op with
  | Request user target => connect_handler now user target
  | Accept user connectionId => accept_handler now user connectionId
  | Reject user connectionId => reject_handler now user connectionId
  end.

(** A sequence of requests served one after another, each to its end
    before the next begins, each with the clock reading it is served at. *)
Fixpoint run (ops : list (Z * Op)) (db : Db) : Db :=
  match ops with
  | [] => db
  | (now, op) :: rest => run rest (fst (step now op db))
  end.

(* ================================================================= *)
(** ** Connections: requests that overlap

    The accept and the reject handler await twice: first
    [storage.getConnectionById], on whose result they run their checks,
    then [storage.updateConnectionStatus].  The update is [where id =
    connectionId] alone and the two statements share no transaction, so
    another request can be served between them. *)

(** The accept handler up to its second [await]: the response it returns
    early, or the id it goes on to update. *)
Definition accept_checks (user : option AuthUser) (connectionId : option Z) (db : Db)
  : Response + Z :=
  match user with
  | None => inl (mkResponse 401 (Message "User not authenticated"))
  | Some u =>
      match connectionId with
      | None => inl (mkResponse 400 (Message "Invalid connection ID"))
      | Some cid =>
          match getConnectionById cid db with
          | Throws e _ => inl (handleErrors e)
          | Returns None _ => inl (mkResponse 404 (Message "Connection not found"))
          | Returns (Some connection) _ =>
              if negb (c_connectedUserId connection =? au_id u) then
                inl (mkResponse 403
                       (Message "Forbidden: You cannot accept this connection request."))
              else if negb (status_eqb (c_status connection) pending) then
                inl (mkResponse 400
                       (Message ("Connection is already "
                                   ++ status_text (c_status connection) ++ ".")))
              else inr cid
          end
      end
  end.

(** The reject handler up to its second [await]. *)
Definition reject_checks (user : option AuthUser) (connectionId : option Z) (db : Db)
  : Response + Z :=
  match user with
  | None => inl (mkResponse 401 (Message "User not authenticated"))
  | Some u =>
      match connectionId with
      | None => inl (mkResponse 400 (Message "Invalid connection ID"))
      | Some cid =>
          match getConnectionById cid db with
          | Throws e _ => inl (handleErrors e)
          | Returns None _ => inl (mkResponse 404 (Message "Connection not found"))
          | Returns (Some connection) _ =>
              if negb (c_connectedUserId connection =? au_id u)
                 && negb ((c_userId connection =? au_id u)
                          && status_eqb (c_status connection) pending) then
                inl (mkResponse 403
                       (Message "Forbidden: You cannot reject this connection request."))
              else if negb (status_eqb (c_status connection) pending) then
                inl (mkResponse 400
                       (Message ("Connection is already "
                                   ++ status_text (c_status connection) ++ ".")))
              else inr cid
          end
      end
  end.

(** A request that has passed its checks and has its update still to run. *)
Record Awaited : Type := mkAwaited {
  aw_connectionId : Z;
  aw_status : ConnectionStatus
}.

(** The store together with the requests in flight, oldest first. *)
Definition Server : Type := (Db * list Awaited)%type.

(** A request begins and runs up to its second [await] (a Request has one
    statement only and runs to its end), or the update of the [k]-th
    request in flight runs. *)
Inductive Event : Type :=
| Begins (now : Z) (op : Op)
| Resumes (now : Z) (k : nat).

Definition begins (now : Z) (op : Op) (sv : Server) : Server :=
  match op with
  | Request user target => (fst (connect_handler now user target (fst sv)), snd sv)
  | Accept user connectionId =>
      match accept_checks user connectionId (fst sv) with
      | inl _ => sv
      | inr cid => (fst sv, snd sv ++ [mkAwaited cid accepted])
      end
  | Reject user connectionId =>
      match reject_checks user connectionId (fst sv) with
      | inl _ => sv
      | inr cid => (fst sv, snd sv ++ [mkAwaited cid rejected])
      end
  end.

Definition resumes (now : Z) (k : nat) (sv : Server) : Server :=
  match nth_error (snd sv) k with
  | None => sv
  | Some w =>
      (store_after (updateConnectionStatus now (aw_connectionId w) (aw_status w) (fst sv)),
       firstn k (snd sv) ++ skipn (S k) (snd sv))
  end.

Definition occurs (e : Event) : Server -> Server :=
  match e with
  | Begins now op => begins now op
  | Resumes now k => resumes now k
  end.

Fixpoint interleaved (events : list Event) (sv : Server) : Server :=
  match events with
  | [] => sv
  | e :: rest => interleaved rest (occurs e sv)
  end.

(** The events of requests served one after another. *)
Definition one_by_one (ops : list (Z * Op)) : list Event :=
  flat_map (fun o => [Begins (fst o) (snd o); Resumes (fst o) 0]) ops.

(** A request for a connection to oneself. *)
Definition self_request (op : Op) : bool :=
  match op with
  | Request (Some u) (Some t) => au_id u =? t
  | _ => false
  end.

(** The primary key of [connections]: ids are pairwise distinct and all
    were drawn from the sequence. *)
Definition connections_wf (db : Db) : Prop :=
  NoDup (map c_id (connections db)) /\
  forall c, In c (connections db) -> c_id c < connections_seq db.

(** The only status changes the specification allows. *)
Definition status_moves (s s' : ConnectionStatus) : Prop :=
  s = s' \/ (s = pending /\ (s' = accepted \/ s' = rejected)).

(* ================================================================= *)
(** ** JavaScript [Set<number>]: insertion-ordered, no repetitions *)

Definition JsSet : Type := list Z.

Definition Set_has (s : JsSet) (x : Z) : bool := existsb (Z.eqb x) s.

Definition Set_add (s : JsSet) (x : Z) : JsSet :=
  if Set_has s x then s else s ++ [x].

(** [new Set(iterable)]. *)
Definition new_Set (xs : list Z) : JsSet := fold_left Set_add xs [].

(* ================================================================= *)
(** ** Mutual connections and suggestions *)

(** The [where] clause of both queries of [getMutualConnections]. *)
Definition accepted_involving (userId : Z) (c : Connection) : bool :=
  ((c_userId c =? userId) || (c_connectedUserId c =? userId))
  && status_eqb (c_status c) accepted.

(** [c => c.userId === userId ? c.connectedUserId : c.userId]. *)
Definition counterpart (userId : Z) (c : Connection) : Z :=
  if c_userId c =? userId then c_connectedUserId c else c_userId c.

Definition connectedIds (userId : Z) (db : Db) : JsSet :=
  new_Set (map (counterpart userId) (filter (accepted_involving userId) (connections db))).

(** [DrizzleStorage.getMutualConnections]. *)
Definition getMutualConnections (userId1 userId2 : Z) : Storage (list User) :=
  query (fun db =>
    let connectedIds1 := connectedIds userId1 db in
    let connectedIds2 := connectedIds userId2 db in
    let mutualIds := filter (Set_has connectedIds2) connectedIds1 in
    if (List.length mutualIds =? 0)%nat then []
    else filter (fun u => existsb (Z.eqb (u_id u)) mutualIds) (users db)).

(** [DrizzleStorage.getUserSuggestions]. *)
Definition getUserSuggestions (userId : Z) : Storage (list User) :=
  query (fun db =>
    let existingConnections :=
      filter (fun c => (c_userId c =? userId) || (c_connectedUserId c =? userId))
             (connections db) in
    let connectedUserIds :=
      Set_add (new_Set (flat_map (fun c => [c_userId c; c_connectedUserId c])
                                 existingConnections))
              userId in
    filter (fun u => negb (Set_has connectedUserIds (u_id u))) (users db)).

(** What a query returns (queries never throw). *)
Definition result_of {A} (dflt : A) (o : Outcome A) : A :=
  match o with
  | Returns a _ => a
  | Throws _ _ => dflt
  end.

(** The specification's wording of the two operations, as predicates on
    user ids: [x] is an accepted counterpart of [a], and [x] is an endpoint
    of some connection row involving [a]. *)
Definition accepted_counterpart (db : Db) (a x : Z) : Prop :=
  exists c, In c (connections db) /\ c_status c = accepted /\
    ((c_userId c = a /\ x = c_connectedUserId c) \/
     (c_connectedUserId c = a /\ c_userId c <> a /\ x = c_userId c)).

Definition endpoint_of_row_involving (db : Db) (a x : Z) : Prop :=
  exists c, In c (connections db) /\
    (c_userId c = a \/ c_connectedUserId c = a) /\
    (x = c_userId c \/ x = c_connectedUserId c).

(* ================================================================= *)
(** ** The auth gate *)

(** [s.split(' ')]. *)
Fixpoint split_space (s : string) : list string :=
  match s with
  | EmptyString => [EmptyString]
  | String ch rest =>
      let parts := split_space rest in
      if Ascii.eqb ch " "%char then EmptyString :: parts
      else match parts with
           | [] => [String ch EmptyString]
           | p :: ps => String ch p :: ps
           end
  end.

(** A middleware either calls [next()] (with the [req.user] it leaves
    behind) or answers the request itself. *)
Inductive Middleware : Type :=
| Next (user : option AuthUser)
| Respond (r : Response).

Definition sendStatus (code : Z) : Middleware := Respond (mkResponse code NoBody).

Section AuthGate.

(** [jwt.verify(token, JWT_SECRET, callback)] of the jsonwebtoken
    library: [None] when the callback receives an error (a token that is
    absent, malformed, wrongly signed or expired), the decoded payload
    otherwise. *)
Variable jwt_verify : option string -> option AuthUser.

(** [authenticateJWT]; [authorization] is [req.headers.authorization]. *)
Definition authenticateJWT (authorization : option string) : Middleware :=
  match authorization with
  | None => sendStatus 401
  | Some authHeader =>
      if String.eqb authHeader "" then sendStatus 401
      else
        let token := nth_error (split_space authHeader) 1 in
        match jwt_verify token with
        | None => sendStatus 403
        | Some user => Next (Some user)
        end
  end.

(** [authorizeRoles(...allowedRoles)]. *)
Definition authorizeRoles (allowedRoles : list string) (user : option AuthUser)
  : Middleware :=
  match user with
  | None => sendStatus 401
  | Some u =>
      if String.eqb (au_role u) "" then sendStatus 401
      else if negb (existsb (String.eqb (au_role u)) allowedRoles) then sendStatus 403
      else Next (Some u)
  end.

(** A role-gated route: [app.post(path, authenticateJWT,
    authorizeRoles(...), handler)]. *)
Definition gate (allowedRoles : list string) (authorization : option string)
  : Middleware :=
  match authenticateJWT authorization with
  | Next user => authorizeRoles allowedRoles user
  | Respond r => Respond r
  end.

End AuthGate.

(** The two kinds of authentication failure at the gate. *)
Definition missing_token (authorization : option string) : Prop :=
  authorization = None \/ authorization = Some EmptyString.

Definition rejected_token (jwt_verify : option string -> option AuthUser)
           (authorization : option string) : Prop :=
  exists authHeader, authorization = Some authHeader /\ authHeader <> EmptyString /\
    jwt_verify (nth_error (split_space authHeader) 1) = None.

Definition gate_status (m : Middleware) : option Z :=
  match m with
  | Next _ => None
  | Respond r => Some (res_status r)
  end.

(* ================================================================= *)
(** ** Likes *)

Definition like_of (postId userId : Z) (l : Like) : bool :=
  (l_postId l =? postId) && (l_userId l =? userId).

(** [db.insert(schema.likes).values({ postId, userId }).returning()]:
    the unique index [likes_post_user_unique_idx] is checked when the row
    enters the index, the foreign keys when the statement ends. *)
Definition insert_like (now : Z) (postId userId : Z) : Storage Like :=
  fun db =>
    let id := likes_seq db in
    let row := mkLike id postId userId now in
    if existsb (like_of postId userId) (likes db) then
      Throws unique_violation (set_likes (likes db) (id + 1) db)
    else if post_exists db postId && user_exists db userId then
      Returns row (set_likes (likes db ++ [row]) (id + 1) db)
    else
      Throws fk_violation (set_likes (likes db) (id + 1) db).

(** [DrizzleStorage.createLike]: the [try]/[catch] around the insert. *)
Definition createLike (now : Z) (postId userId : Z) : Storage LikeResult :=
  fun db =>
    match insert_like now postId userId db with
    | Returns row db' => Returns (LikeRow row) db'
    | Throws (PgError code) db' =>
        if String.eqb code "23505"
        then Returns (LikeFailure "User has already liked this post." true) db'
        else Returns (LikeFailure "Failed to create like." false) db'
    | Throws _ db' => Returns (LikeFailure "Failed to create like." false) db'
    end.

(** [DrizzleStorage.deleteLike]: [{ success: result.length > 0 }]. *)
Definition deleteLike (postId userId : Z) : Storage bool :=
  fun db =>
    let result := filter (like_of postId userId) (likes db) in
    Returns (0 <? List.length result)%nat
            (set_likes (filter (fun l => negb (like_of postId userId l)) (likes db))
                       (likes_seq db) db).

(** [DrizzleStorage.getLikesForPost]. *)
Definition getLikesForPost (postId : Z) : Storage (list Like) :=
  query (fun db => filter (fun l => l_postId l =? postId) (likes db)).

(** [POST /api/posts/:postId/like]; [postId] is [parseInt(req.params.postId)]. *)
Definition like_handler (now : Z) (user : option AuthUser) (postId : option Z)
  : Db -> Db * Response :=
  handler
    match user with
    | None => json 401 (Message "User not authenticated")
    | Some u =>
        match postId with
        | None => json 400 (Message "Invalid post ID")
        | Some pid =>
            let userId := au_id u in
            likeResult <- createLike now pid userId ;;
            match likeResult with
            | LikeFailure _ true =>
                deleteLike pid userId ;;;
                likes <- getLikesForPost pid ;;
                json 200 (LikeJson "Post unliked successfully." false None (List.length likes))
            | LikeFailure error false =>
                if negb (String.eqb error "") then json 500 (Message error)
                else
                  likes <- getLikesForPost pid ;;
                  json 200 (LikeJson "Post liked successfully." true (Some likeResult)
                                     (List.length likes))
            | LikeRow _ =>
                likes <- getLikesForPost pid ;;
                json 200 (LikeJson "Post liked successfully." true (Some likeResult)
                                   (List.length likes))
            end
        end
    end.

(** The [liked] flag of a like response. *)
Definition liked_flag (r : Response) : option bool :=
  match res_body r with
  | LikeJson _ liked _ _ => Some liked
  | _ => None
  end.

Definition has_like (db : Db) (postId userId : Z) : bool :=
  existsb (like_of postId userId) (likes db).

(* ================================================================= *)
(** ** Saved posts *)

Definition saved_of (postId userId : Z) (sp : SavedPost) : bool :=
  (sp_postId sp =? postId) && (sp_userId sp =? userId).

(** [db.insert(schema.savedPosts).values({ postId, userId })]. *)
Definition insert_savedPost (postId userId : Z) : Storage unit :=
  fun db =>
    let id := savedPosts_seq db in
    if post_exists db postId && user_exists db userId then
      Returns tt (set_savedPosts (savedPosts db ++ [mkSavedPost id postId userId]) (id + 1) db)
    else
      Throws fk_violation (set_savedPosts (savedPosts db) (id + 1) db).

(** [db.delete(schema.savedPosts).where(eq(schema.savedPosts.id, id))]. *)
Definition delete_savedPost (id : Z) : Storage unit :=
  execute (fun db =>
    set_savedPosts (filter (fun sp => negb (sp_id sp =? id)) (savedPosts db))
                   (savedPosts_seq db) db).

(** [DrizzleStorage.savePost]. *)
Definition savePost (currentUserId postId : Z) (isSaved : bool) : Storage unit :=
  existingSavedPost <-
    query (fun db => find (saved_of postId currentUserId) (savedPosts db)) ;;
  if isSaved then
    match existingSavedPost with
    | None => insert_savedPost postId currentUserId
    | Some _ => ret tt
    end
  else
    match existingSavedPost with
    | Some existing => delete_savedPost (sp_id existing)
    | None => ret tt
    end.

Definition saved_key (sp : SavedPost) : Z * Z := (sp_postId sp, sp_userId sp).

Definition has_saved (db : Db) (postId userId : Z) : bool :=
  existsb (saved_of postId userId) (savedPosts db).


(** Primary key and one-row-per-pair, the invariant of those stores. *)
Definition savedPosts_wf (db : Db) : Prop :=
  NoDup (map sp_id (savedPosts db)) /\
  (forall sp, In sp (savedPosts db) -> sp_id sp < savedPosts_seq db) /\
  NoDup (map saved_key (savedPosts db)).

(* ================================================================= *)
(** ** Document sharing *)

(** The rows of a multi-row insert, numbered from the sequence. *)
Fixpoint sharing_rows (now : Z) (id : Z) (values : list (Z * Z)) : list DocumentSharing :=
  match values with
  | [] => []
  | (documentId, userId) :: rest =>
      mkDocumentSharing id documentId userId now :: sharing_rows now (id + 1) rest
  end.

(** [db.insert(schema.documentSharing).values(newShares)]: one statement,
    all rows or none. *)
Definition insert_documentSharing (now : Z) (values : list (Z * Z)) : Storage unit :=
  fun db =>
    let id := documentSharing_seq db in
    let seq' := id + Z.of_nat (List.length values) in
    if forallb (fun v => document_exists db (fst v) && user_exists db (snd v)) values then
      Returns tt (set_documentSharing (documentSharing db ++ sharing_rows now id values) seq' db)
    else
      Throws fk_violation (set_documentSharing (documentSharing db) seq' db).

(** [DrizzleStorage.shareDocument]. *)
Definition shareDocument (now : Z) (documentId : Z) (userIds : list Z) : Storage unit :=
  existingShares <-
    query (fun db =>
      filter (fun s => (ds_documentId s =? documentId)
                       && existsb (Z.eqb (ds_userId s)) userIds)
             (documentSharing db)) ;;
  let alreadySharedUserIds := new_Set (map ds_userId existingShares) in
  let newShares :=
    map (fun userId => (documentId, userId))
        (filter (fun uid => negb (Set_has alreadySharedUserIds uid)) userIds) in
  if (0 <? List.length newShares)%nat then insert_documentSharing now newShares
  else ret tt.

Definition sharing_key (s : DocumentSharing) : Z * Z := (ds_documentId s, ds_userId s).

Definition has_share (db : Db) (documentId userId : Z) : bool :=
  existsb (fun s => (ds_documentId s =? documentId) && (ds_userId s =? userId))
          (documentSharing db).

(** [POST /api/documents/:id/share]: [userIds] must be a non-empty array. *)
Definition share_handler (now : Z) (documentId : Z) (userIds : list Z)
  : Db -> Db * Response :=
  handler
    (if (List.length userIds =? 0)%nat then json 400 (Message "UserIds array is required")
     else shareDocument now documentId userIds ;;; json 200 Success).

(* ================================================================= *)
(** ** Related rows and the remaining connection queries *)

(** The row a foreign key to [users.id] points at: what the relational
    query loads for [with: { user: true }] or [with: { connectedUser:
    true }].  It is [None] (JavaScript [null]) only where the foreign key
    does not hold. *)
Definition related_user (db : Db) (id : Z) : option User :=
  find (fun u => u_id u =? id) (users db).

(** Every connection row points at two users of the store. *)
Definition connections_fk (db : Db) : Prop :=
  forall c, In c (connections db) ->
    user_exists db (c_userId c) = true /\ user_exists db (c_connectedUserId c) = true.

(** Reading a property of every element of a list: [None] as soon as one
    element is [null] (the [TypeError] of [c.id] on [null]). *)
Fixpoint all_some {A} (xs : list (option A)) : option (list A) :=
  match xs with
  | [] => Some []
  | None :: _ => None
  | Some x :: rest =>
      match all_some rest with
      | Some ys => Some (x :: ys)
      | None => None
      end
  end.

(** [DrizzleStorage.getUserColleagues].  The result is [None] when the
    method throws on a [null] related user. *)
Definition getUserColleagues (userId : Z) (db : Db) : option (list User) :=
  let userConnections :=
    filter (fun c => (c_userId c =? userId) && status_eqb (c_status c) accepted)
           (connections db) in
  let inverseUserConnections :=
    filter (fun c => (c_connectedUserId c =? userId) && status_eqb (c_status c) accepted)
           (connections db) in
  let colleagues :=
    map (fun conn => related_user db (c_connectedUserId conn)) userConnections
    ++ map (fun conn => related_user db (c_userId conn)) inverseUserConnections in
  match all_some colleagues with
  | None => None
  | Some cs =>
      match all_some (map (fun id => find (fun c => u_id c =? id) cs)
                          (new_Set (map u_id cs))) with
      | None => None
      | Some found => Some (filter (fun c => negb (u_id c =? userId)) found)
      end
  end.

(** [DrizzleStorage.getConnectionRequests]: the initiators of the pending
    rows addressed to [userId]. *)
Definition getConnectionRequests (userId : Z) : Storage (list (option User)) :=
  query (fun db =>
    map (fun r => related_user db (c_userId r))
        (filter (fun c => (c_connectedUserId c =? userId) && status_eqb (c_status c) pending)
                (connections db))).

(** A connection row with both related users loaded. *)
Record ConnectionWithUsers : Type := mkConnectionWithUsers {
  cw_connection : Connection;
  cw_user : option User;
  cw_connectedUser : option User
}.

(** [DrizzleStorage.getConnectionsForUser]; [status] is the optional
    filter, tested for truth before it is used (the empty string is no
    filter). *)
Definition getConnectionsForUser (userId : Z) (status : option string)
  : Storage (list ConnectionWithUsers) :=
  query (fun db =>
    let involved := fun c => (c_userId c =? userId) || (c_connectedUserId c =? userId) in
    let conditions := fun c =>
      match status with
      | None => involved c
      | Some s =>
          if String.eqb s "" then involved c
          else involved c && String.eqb (status_text (c_status c)) s
      end in
    map (fun c => mkConnectionWithUsers c (related_user db (c_userId c))
                                        (related_user db (c_connectedUserId c)))
        (filter conditions (connections db))).

(** What a handler that lists rows sends: the rows (status 200), or one of
    the error responses. *)
Inductive Listing (A : Type) : Type :=
| Rows (rows : list A)
| Refused (r : Response).

Arguments Rows {A} rows.
Arguments Refused {A} r.

(** [GET /api/connections]; [status] is [req.query.status]. *)
Definition connections_handler (user : option AuthUser) (status : option string) (db : Db)
  : Listing ConnectionWithUsers :=
  match user with
  | None => Refused (mkResponse 401 (Message "User not authenticated"))
  | Some u =>
      let invalid :=
        match status with
        | None => false
        | Some s =>
            negb (String.eqb s "")
            && negb (existsb (String.eqb s) ["pending"; "accepted"; "rejected"]%string)
        end in
      if invalid then Refused (mkResponse 400 (Message "Invalid status filter."))
      else Rows (result_of [] (getConnectionsForUser (au_id u) status db))
  end.

(** The values of an [integer] column ([serial] ids and the columns that
    reference them). *)
Definition int4 (k : Z) : bool := (-2147483648 <=? k) && (k <=? 2147483647).

(** A number bound to a query parameter that is compared with, or
    inserted into, an [integer] column travels as its decimal text, and
    the statement fails unless that text is such an integer: [NaN] and a
    number written with an exponent (from 1e21 on) are no integer syntax
    (SQLSTATE 22P02), any other number outside the column type is out of
    range (22003). *)
Definition integer_parameter (k : option Z) : Exn + Z :=
  match k with
  | None => inl (PgError "22P02")
  | Some z =>
      if int4 z then inr z
      else if Z.abs z <? 10 ^ 21 then inl (PgError "22003")
      else inl (PgError "22P02")
  end.

(** [DrizzleStorage.getDocumentSharedUsers]. *)
Definition getDocumentSharedUsers (documentId : Z) : Storage (list (option User)) :=
  query (fun db =>
    map (fun sr => related_user db (ds_userId sr))
        (filter (fun s => ds_documentId s =? documentId) (documentSharing db))).

(** The unique index [likes_post_user_unique_idx], as a property of a
    store. *)
Definition like_key (l : Like) : Z * Z := (l_postId l, l_userId l).

Definition likes_unique (db : Db) : Prop := NoDup (map like_key (likes db)).

(** The [likesCount] field of a like response. *)
Definition likes_count (r : Response) : option nat :=
  match res_body r with
  | LikeJson _ _ _ n => Some n
  | _ => None
  end.

(** [POST /api/posts/:id/save]; [postId] is [parseInt(req.params.id)],
    [None] for [NaN], and [saved] the truth value of [req.body.saved].  The
    handler does not test [postId]: whatever it is goes to
    [storage.savePost], whose first statement binds it to [post_id] and
    throws if it is no [integer]. *)
Definition save_handler (user : option AuthUser) (postId : option Z) (saved : bool)
  : Db -> Db * Response :=
  handler
    match user with
    | None => json 401 (Message "User not authenticated")
    | Some u =>
        match integer_parameter postId with
        | inl e => throw e
        | inr p => savePost (au_id u) p saved ;;; json 200 Success
        end
    end.

(** A string without a space. *)
Fixpoint no_space (s : string) : bool :=
  match s with
  | EmptyString => true
  | String ch rest => negb (Ascii.eqb ch " "%char) && no_space rest
  end.

(** A run of connection requests [(now, (user, target))], and the rows
    it appends when none is refused: one pending row per request, numbered
    from the sequence. *)
Definition as_requests (reqs : list (Z * (AuthUser * Z))) : list (Z * Op) :=
  map (fun r => (fst r, Request (Some (fst (snd r))) (Some (snd (snd r))))) reqs.

Fixpoint requested_rows (id : Z) (reqs : list (Z * (AuthUser * Z))) : list Connection :=
  match reqs with
  | [] => []
  | r :: rest =>
      mkConnection id (au_id (fst (snd r))) (snd (snd r)) pending (fst r) (fst r)
      :: requested_rows (id + 1) rest
  end.

(* ================================================================= *)
(** ** Comments *)

(** A row of [comments]; [parentId] is the nullable self-reference. *)
Record Comment : Type := mkComment {
  cm_id : Z;
  cm_postId : Z;
  cm_userId : Z;
  cm_content : string;
  cm_parentId : option Z;
  cm_createdAt : Z;
  cm_updatedAt : Z
}.

(** The store together with its [comments] table. *)
Record CommentsDb : Type := mkCommentsDb {
  cdb_base : Db;
  comments : list Comment;
  comments_seq : Z
}.

Inductive CommentOutcome (A : Type) : Type :=
| CReturns (a : A) (s : CommentsDb)
| CThrows (e : Exn) (s : CommentsDb).

Arguments CReturns {A} a s.
Arguments CThrows {A} e s.

Definition comment_exists (s : CommentsDb) (id : Z) : bool :=
  existsb (fun c => cm_id c =? id) (comments s).

(** [DrizzleStorage.createComment]: one insert; [postId], [userId] and a
    given [parentId] are foreign keys. *)
Definition createComment (now : Z) (postId userId : Z) (content : string)
           (parentId : option Z) (s : CommentsDb) : CommentOutcome Comment :=
  let id := comments_seq s in
  let row := mkComment id postId userId content parentId now now in
  let parent_ok := match parentId with
                   | Some parent => comment_exists s parent
                   | None => true
                   end in
  if post_exists (cdb_base s) postId && user_exists (cdb_base s) userId && parent_ok
  then CReturns row (mkCommentsDb (cdb_base s) (comments s ++ [row]) (id + 1))
  else CThrows fk_violation (mkCommentsDb (cdb_base s) (comments s) (id + 1)).

(** A comment with its author loaded ([with: { user: true }]). *)
Record CommentWithUser : Type := mkCommentWithUser {
  cu_comment : Comment;
  cu_user : option User
}.

Definition with_user (s : CommentsDb) (c : Comment) : CommentWithUser :=
  mkCommentWithUser c (related_user (cdb_base s) (cm_userId c)).

(** [DrizzleStorage.getCommentById]. *)
Definition getCommentById (commentId : Z) (s : CommentsDb) : option CommentWithUser :=
  option_map (with_user s) (find (fun c => cm_id c =? commentId) (comments s)).

(** [orderBy: [asc(schema.comments.createdAt)]]: rows of equal time stay
    in table order (the database leaves their order open). *)
Fixpoint insert_by_time (c : Comment) (sorted : list Comment) : list Comment :=
  match sorted with
  | [] => [c]
  | d :: rest =>
      if cm_createdAt c <? cm_createdAt d then c :: d :: rest
      else d :: insert_by_time c rest
  end.

Definition order_by_time (rows : list Comment) : list Comment :=
  fold_right insert_by_time [] rows.

(** [DrizzleStorage.getCommentsForPost]. *)
Definition getCommentsForPost (postId : Z) (s : CommentsDb) : list CommentWithUser :=
  map (with_user s)
      (order_by_time (filter (fun c => cm_postId c =? postId) (comments s))).

(** The [parentId] field of a request body: absent, [null], an integer,
    or anything else (a fraction, a string, ...). *)
Inductive ParentIdField : Type :=
| ParentAbsent
| ParentNull
| ParentInteger (id : Z)
| ParentOther.

(** The request body of a new comment; [body_content] is [None] when the
    field is absent or not a string. *)
Record CommentBody : Type := mkCommentBody {
  body_content : option string;
  body_parentId : ParentIdField
}.

(** [createCommentSchema.safeParse]: a non-empty string, and an optional,
    nullable positive integer.  The result is the parsed [content] and
    [parentId ?? undefined]. *)
Definition parse_comment (body : CommentBody) : option (string * option Z) :=
  match body_content body with
  | None => None
  | Some content =>
      if String.eqb content "" then None
      else match body_parentId body with
           | ParentAbsent | ParentNull => Some (content, None)
           | ParentInteger id => if 0 <? id then Some (content, Some id) else None
           | ParentOther => None
           end
  end.

(** What the comment handler sends: the created comment (status 201), as
    read back with its author or, failing that, as inserted; or an error
    response. *)
Inductive CommentReply : Type :=
| CreatedWithDetails (c : CommentWithUser)
| CreatedBare (c : Comment)
| CommentRefused (r : Response).

(** [POST /api/posts/:postId/comments].  Of the 400 body for invalid data
    only the message is modelled. *)
Definition comment_handler (now : Z) (user : option AuthUser) (postId : option Z)
           (body : CommentBody) (s : CommentsDb) : CommentsDb * CommentReply :=
  match user with
  | None => (s, CommentRefused (mkResponse 401 (Message "User not authenticated")))
  | Some u =>
      match postId with
      | None => (s, CommentRefused (mkResponse 400 (Message "Invalid post ID")))
      | Some pid =>
          match parse_comment body with
          | None => (s, CommentRefused (mkResponse 400 (Message "Invalid comment data.")))
          | Some (content, parentId) =>
              match createComment now pid (au_id u) content parentId s with
              | CThrows e s' => (s', CommentRefused (handleErrors e))
              | CReturns comment s' =>
                  match getCommentById (cm_id comment) s' with
                  | Some newCommentWithDetails =>
                      (s', CreatedWithDetails newCommentWithDetails)
                  | None => (s', CreatedBare comment)
                  end
              end
          end
      end
  end.

(** [GET /api/posts/:postId/comments]; [postId] is
    [parseInt(req.params.postId)], [None] for [NaN].  The query of
    [storage.getCommentsForPost] binds the id to [post_id] and throws if
    it is no [integer]; [handleErrors] answers for it. *)
Definition comments_handler (postId : option Z) (s : CommentsDb) : Listing CommentWithUser :=
  match postId with
  | None => Refused (mkResponse 400 (Message "Invalid post ID"))
  | Some pid =>
      match integer_parameter (Some pid) with
      | inl e => Refused (handleErrors e)
      | inr p => Rows (getCommentsForPost p s)
      end
  end.

(** Times in ascending order. *)
Fixpoint ascending (times : list Z) : Prop :=
  match times with
  | [] => True
  | t :: rest => (forall t', In t' rest -> t <= t') /\ ascending rest
  end.

(** The primary key of [comments]. *)
Definition comments_wf (s : CommentsDb) : Prop :=
  forall c, In c (comments s) -> cm_id c < comments_seq s.

(* ================================================================= *)
(** ** Sample stores and users *)

Definition sample_users : list User :=
  [mkUser 1 "johnwilson" "Dr. John Wilson" "Doctor";
   mkUser 2 "janedavis" "Dr. Jane Davis" "Doctor";
   mkUser 3 "michaelsmith" "Dr. Michael Smith" "Patient"].

Definition sample_db (rows : list Connection) : Db :=
  mkDb sample_users [10; 11] [20] rows 5 [] 1 [] 1 [] 1.

Definition jane : AuthUser := mkAuthUser 2 "janedavis" "Doctor".
Definition john : AuthUser := mkAuthUser 1 "johnwilson" "Doctor".
Definition michael : AuthUser := mkAuthUser 3 "michaelsmith" "Patient".

Definition pending_row : Connection := mkConnection 1 1 2 pending 100 100.

Definition accept_then_reject : list (Z * Op) :=
  [(200, Accept (Some jane) (Some 1)); (300, Reject (Some jane) (Some 1));
   (400, Request (Some michael) (Some 1))].

Definition request_then_accept : list (Z * Op) :=
  [(100, Request (Some john) (Some 2)); (200, Accept (Some jane) (Some 5))].

(** A verifier that knows two tokens. *)
Definition sample_verify (token : option string) : option AuthUser :=
  match token with
  | Some t =>
      if String.eqb t "tok-john" then Some john
      else if String.eqb t "tok-michael" then Some michael
      else None
  | None => None
  end.

(** A saved-posts table no sequence of [savePost] calls builds: two rows
    for one pair. *)
Definition doubly_saved_db : Db :=
  mkDb sample_users [10; 11] [20] [] 5 [] 1
       [mkSavedPost 1 10 2; mkSavedPost 2 10 2] 3 [] 1.

Definition jane_row : User := mkUser 2 "janedavis" "Dr. Jane Davis" "Doctor".
Definition john_row : User := mkUser 1 "johnwilson" "Dr. John Wilson" "Doctor".
Definition michael_row : User := mkUser 3 "michaelsmith" "Dr. Michael Smith" "Patient".

Definition accepted_row : Connection := mkConnection 1 1 2 accepted 100 150.

(** A store in which John has liked post 10. *)
Definition liked_by_john : Db :=
  mkDb sample_users [10; 11] [20] [] 5 [mkLike 1 10 1 50] 2 [] 1 [] 1.

(** A store in which John has saved post 10. *)
Definition saved_by_john : Db :=
  mkDb sample_users [10; 11] [20] [] 5 [] 1 [mkSavedPost 1 10 1] 2 [] 1.

(** A store in which document 20 is shared with Jane. *)
Definition shared_with_jane : Db :=
  mkDb sample_users [10; 11] [20] [] 5 [] 1 [] 1 [mkDocumentSharing 1 20 2 50] 2.

(** A store in which Michael is connected to both John and Jane. *)
Definition triangle_db : Db :=
  sample_db [mkConnection 1 1 3 accepted 100 150; mkConnection 2 3 2 accepted 110 160].

(** Two comments on post 10, the second a reply to the first. *)
Definition thread_db : CommentsDb :=
  mkCommentsDb (sample_db [])
    [mkComment 1 10 1 "First" None 500 500; mkComment 2 10 2 "Reply" (Some 1) 400 400]
    3.

(** Jane's accept and reject of the same pending request, both begun
    before either update has run. *)
Definition accept_overlaps_reject : list Event :=
  [Begins 200 (Accept (Some jane) (Some 1)); Begins 250 (Reject (Some jane) (Some 1));
   Resumes 300 0].

(* ================================================================= *)
(** * Properties *)

(** ** Small facts about the model *)

Lemma status_eqb_eq (a b : ConnectionStatus) : status_eqb a b = true <-> a = b.
Proof. destruct a, b; simpl; split; intro H; try reflexivity; discriminate H. Qed.

Lemma status_eqb_neq (a b : ConnectionStatus) : status_eqb a b = false <-> a <> b.
Proof.
  split.
  - intros H E. apply status_eqb_eq in E. congruence.
  - intro N. destruct (status_eqb a b) eqn:E; [apply status_eqb_eq in E; contradiction|reflexivity].
Qed.

(** A key column without repetitions determines its row. *)
Lemma NoDup_map_same {A B} (f : A -> B) (l : list A) a b :
  NoDup (map f l) -> In a l -> In b l -> f a = f b -> a = b.
Proof.
  induction l as [|r l IH]; simpl; [contradiction|].
  intros ND Ha Hb E. inversion ND as [|x xs Hnotin ND']; subst.
  destruct Ha as [->|Ha], Hb as [->|Hb]; auto.
  - exfalso. apply Hnotin. rewrite E. now apply in_map.
  - exfalso. apply Hnotin. rewrite <- E. now apply in_map.
Qed.

Lemma find_update now st cid rows :
  find (fun c => c_id c =? cid)
       (map (fun c => if c_id c =? cid then set_status now st c else c) rows)
  = option_map (set_status now st) (find (fun c => c_id c =? cid) rows).
Proof.
  induction rows as [|r rows IH]; simpl; [reflexivity|].
  destruct (c_id r =? cid) eqn:E; simpl; rewrite E; [reflexivity|exact IH].
Qed.

Lemma returning_first now st cid rows :
  hd_error (map (set_status now st) (filter (fun c => c_id c =? cid) rows))
  = option_map (set_status now st) (find (fun c => c_id c =? cid) rows).
Proof.
  induction rows as [|r rows IH]; simpl; [reflexivity|].
  destruct (c_id r =? cid); simpl; [reflexivity|exact IH].
Qed.

(** What the accept and reject handlers do to the store: nothing, or the
    one status update on a row they found pending. *)
Lemma accept_handler_cases now user connectionId db :
  fst (accept_handler now user connectionId db) = db \/
  exists u cid c0,
    user = Some u /\ connectionId = Some cid /\
    find (fun c => c_id c =? cid) (connections db) = Some c0 /\
    c_connectedUserId c0 = au_id u /\ c_status c0 = pending /\
    fst (accept_handler now user connectionId db)
    = store_after (updateConnectionStatus now cid accepted db).
Proof.
  unfold accept_handler, handler.
  destruct user as [u|]; [|left; reflexivity].
  destruct connectionId as [cid|]; [|left; reflexivity].
  unfold bind, getConnectionById, query.
  destruct (find (fun c => c_id c =? cid) (connections db)) as [c0|] eqn:F; [|left; reflexivity].
  destruct (c_connectedUserId c0 =? au_id u) eqn:R; simpl; [|left; reflexivity].
  destruct (status_eqb (c_status c0) pending) eqn:P; simpl; [|left; reflexivity].
  right. exists u, cid, c0. repeat split; try assumption.
  - now apply Z.eqb_eq.
  - now apply status_eqb_eq.
Qed.

Lemma reject_handler_cases now user connectionId db :
  fst (reject_handler now user connectionId db) = db \/
  exists u cid c0,
    user = Some u /\ connectionId = Some cid /\
    find (fun c => c_id c =? cid) (connections db) = Some c0 /\
    (c_connectedUserId c0 = au_id u \/ c_userId c0 = au_id u) /\ c_status c0 = pending /\
    fst (reject_handler now user connectionId db)
    = store_after (updateConnectionStatus now cid rejected db).
Proof.
  unfold reject_handler, handler.
  destruct user as [u|]; [|left; reflexivity].
  destruct connectionId as [cid|]; [|left; reflexivity].
  unfold bind, getConnectionById, query.
  destruct (find (fun c => c_id c =? cid) (connections db)) as [c0|] eqn:F; [|left; reflexivity].
  destruct (status_eqb (c_status c0) pending) eqn:P.
  - destruct (c_connectedUserId c0 =? au_id u) eqn:R; simpl.
    + right. exists u, cid, c0. repeat split; try assumption.
      * left. now apply Z.eqb_eq.
      * now apply status_eqb_eq.
    + destruct (c_userId c0 =? au_id u) eqn:I; simpl; [|left; reflexivity].
      right. exists u, cid, c0. repeat split; try assumption.
      * right. now apply Z.eqb_eq.
      * now apply status_eqb_eq.
  - rewrite andb_false_r. simpl.
    destruct (c_connectedUserId c0 =? au_id u); simpl; left; reflexivity.
Qed.

(* ----------------------------------------------------------------- *)
(** ** C1: Accept *)

(** C1.  For every connection row [c] (the row its id resolves to) and
    every acting user [u], the accept handler answers 200 exactly when
    [u] is the row's recipient and the row is pending, and then the row
    has become [accepted] (and is what the response carries).  A user who
    is not the recipient gets 403 (this check comes first, whatever the
    status); the recipient of a row that is not pending gets 400; in both
    cases the store is left as it was. *)
Theorem accept_iff_recipient_and_pending :
  forall now db u c,
    getConnectionById (c_id c) db = Returns (Some c) db ->
    let out := accept_handler now (Some u) (Some (c_id c)) db in
    (res_status (snd out) = 200
       <-> c_connectedUserId c = au_id u /\ c_status c = pending) /\
    (c_connectedUserId c = au_id u -> c_status c = pending ->
       getConnectionById (c_id c) (fst out)
       = Returns (Some (set_status now accepted c)) (fst out) /\
       res_body (snd out) = ConnectionJson (Some (set_status now accepted c))) /\
    (c_connectedUserId c <> au_id u ->
       res_status (snd out) = 403 /\ fst out = db) /\
    (c_connectedUserId c = au_id u -> c_status c <> pending ->
       res_status (snd out) = 400 /\ fst out = db).
Proof.
  intros now db u c H out.
  unfold getConnectionById, query in H.
  injection H as F.
  assert (E : out = accept_handler now (Some u) (Some (c_id c)) db) by reflexivity.
  unfold accept_handler, handler, bind, getConnectionById, query in E.
  rewrite F in E.
  destruct (c_connectedUserId c =? au_id u) eqn:R; simpl in E.
  - apply Z.eqb_eq in R.
    destruct (status_eqb (c_status c) pending) eqn:P; simpl in E.
    + apply status_eqb_eq in P. rewrite E. simpl.
      split; [tauto|]. split; [|split; intros; contradiction].
      intros _ _. split.
      * unfold getConnectionById, query. simpl.
        rewrite find_update, F. reflexivity.
      * rewrite returning_first, F. reflexivity.
    + apply status_eqb_neq in P. rewrite E. simpl.
      split; [split; [discriminate|tauto]|].
      split; [intros; contradiction|]. split; [intros; contradiction|].
      intros; split; reflexivity.
  - apply Z.eqb_neq in R. rewrite E. simpl.
    split; [split; [discriminate|tauto]|].
    split; [intros; contradiction|]. split; [|intros; contradiction].
    intros; split; reflexivity.
Qed.

Lemma accept_iff_recipient_and_pending_witness :
  getConnectionById 1 (sample_db [pending_row]) = Returns (Some pending_row) (sample_db [pending_row]) /\
  res_status (snd (accept_handler 200 (Some jane) (Some 1) (sample_db [pending_row]))) = 200 /\
  connections (fst (accept_handler 200 (Some jane) (Some 1) (sample_db [pending_row])))
  = [mkConnection 1 1 2 accepted 100 200].
Proof.
  split; [reflexivity|].
  pose proof (accept_iff_recipient_and_pending 200 (sample_db [pending_row]) jane
                pending_row eq_refl) as [[_ S] _].
  split; [apply S; split; reflexivity | reflexivity].
Defined.

(* ----------------------------------------------------------------- *)
(** ** C2: Reject *)

(** C2 as written fails: the recipient of a row that is already accepted
    asks to reject it; the handler answers 400 and the row stays accepted. *)
Lemma reject_by_recipient_not_always :
  ~ (forall now db u c,
        getConnectionById (c_id c) db = Returns (Some c) db ->
        c_connectedUserId c = au_id u \/ (c_userId c = au_id u /\ c_status c = pending) ->
        let out := reject_handler now (Some u) (Some (c_id c)) db in
        res_status (snd out) = 200 /\
        getConnectionById (c_id c) (fst out)
        = Returns (Some (set_status now rejected c)) (fst out)).
Proof.
  intro H.
  specialize (H 200 (sample_db [mkConnection 1 1 2 accepted 100 150]) jane
                (mkConnection 1 1 2 accepted 100 150) eq_refl (or_introl eq_refl)).
  destruct H as [H _]. vm_compute in H. discriminate H.
Qed.

(** C2, amended.  The reject handler answers 200 exactly when the row is
    pending and the acting user is its recipient or its initiator, and
    then the row has become [rejected].  In every other case the store is
    left as it was: 403 for a user who is neither the recipient nor the
    initiator of a pending row, 400 for the recipient of a row that is no
    longer pending. *)
Theorem reject_iff_pending_and_party :
  forall now db u c,
    getConnectionById (c_id c) db = Returns (Some c) db ->
    let out := reject_handler now (Some u) (Some (c_id c)) db in
    (res_status (snd out) = 200
       <-> c_status c = pending /\
           (c_connectedUserId c = au_id u \/ c_userId c = au_id u)) /\
    (c_status c = pending ->
     c_connectedUserId c = au_id u \/ c_userId c = au_id u ->
       getConnectionById (c_id c) (fst out)
       = Returns (Some (set_status now rejected c)) (fst out) /\
       res_body (snd out) = ConnectionJson (Some (set_status now rejected c))) /\
    (res_status (snd out) <> 200 -> fst out = db) /\
    (c_connectedUserId c <> au_id u ->
     ~ (c_userId c = au_id u /\ c_status c = pending) ->
       res_status (snd out) = 403) /\
    (c_connectedUserId c = au_id u -> c_status c <> pending ->
       res_status (snd out) = 400).
Proof.
  intros now db u c H out.
  unfold getConnectionById, query in H.
  injection H as F.
  assert (E : out = reject_handler now (Some u) (Some (c_id c)) db) by reflexivity.
  unfold reject_handler, handler, bind, getConnectionById, query in E.
  rewrite F in E.
  destruct (status_eqb (c_status c) pending) eqn:P.
  - apply status_eqb_eq in P.
    assert (OK : c_connectedUserId c = au_id u \/ c_userId c = au_id u ->
                 out = (store_after (updateConnectionStatus now (c_id c) rejected db),
                        mkResponse 200
                          (ConnectionJson (Some (set_status now rejected c))))).
    { intros D. rewrite E.
      assert (G : negb (c_connectedUserId c =? au_id u)
                  && negb ((c_userId c =? au_id u) && true) = false).
      { destruct D as [D|D]; rewrite <- D, Z.eqb_refl; simpl;
          [reflexivity | apply andb_false_r]. }
      rewrite G. simpl. rewrite returning_first, F. reflexivity. }
    destruct (c_connectedUserId c =? au_id u) eqn:R;
      [apply Z.eqb_eq in R | apply Z.eqb_neq in R;
       destruct (c_userId c =? au_id u) eqn:I;
       [apply Z.eqb_eq in I | apply Z.eqb_neq in I]].
    + rewrite (OK (or_introl R)). simpl.
      split; [tauto|]. split.
      { intros _ _. split; [|reflexivity].
        unfold getConnectionById, query. simpl. rewrite find_update, F. reflexivity. }
      split; [congruence|]. split; [contradiction|congruence].
    + rewrite (OK (or_intror I)). simpl.
      split; [tauto|]. split.
      { intros _ _. split; [|reflexivity].
        unfold getConnectionById, query. simpl. rewrite find_update, F. reflexivity. }
      split; [congruence|]. split; [tauto|congruence].
    + rewrite E. simpl.
      split; [split; [discriminate|tauto]|].
      split; [tauto|]. split; [reflexivity|]. split; [reflexivity|contradiction].
  - apply status_eqb_neq in P. rewrite andb_false_r in E. simpl in E.
    destruct (c_connectedUserId c =? au_id u) eqn:R;
      [apply Z.eqb_eq in R | apply Z.eqb_neq in R];
      simpl in E; rewrite E; simpl.
    + split; [split; [discriminate|tauto]|].
      split; [contradiction|]. split; [reflexivity|]. split; [contradiction|reflexivity].
    + split; [split; [discriminate|tauto]|].
      split; [contradiction|]. split; [reflexivity|]. split; [reflexivity|contradiction].
Qed.

Lemma reject_iff_pending_and_party_witness :
  getConnectionById 1 (sample_db [pending_row]) = Returns (Some pending_row) (sample_db [pending_row]) /\
  res_status (snd (reject_handler 200 (Some john) (Some 1) (sample_db [pending_row]))) = 200 /\
  connections (fst (reject_handler 200 (Some john) (Some 1) (sample_db [pending_row])))
  = [mkConnection 1 1 2 rejected 100 200].
Proof.
  split; [reflexivity|].
  pose proof (reject_iff_pending_and_party 200 (sample_db [pending_row]) john
                pending_row eq_refl) as [[_ S] _].
  split; [apply S; split; [reflexivity | right; reflexivity] | reflexivity].
Defined.

(* ----------------------------------------------------------------- *)
(** ** C3: the status of a row only moves out of pending *)

Lemma status_moves_refl s : status_moves s s.
Proof. left; reflexivity. Qed.

Lemma status_moves_trans s1 s2 s3 :
  status_moves s1 s2 -> status_moves s2 s3 -> status_moves s1 s3.
Proof.
  unfold status_moves.
  intros [->|[-> H12]] [->|[E H23]]; auto.
Qed.

Lemma update_keeps_ids now st cid rows :
  map c_id (map (fun c => if c_id c =? cid then set_status now st c else c) rows)
  = map c_id rows.
Proof.
  rewrite map_map. apply map_ext. intro c. destruct (c_id c =? cid); reflexivity.
Qed.

(** One status update on a row found pending: every row keeps its id and
    its endpoints, and its status either stays or leaves pending. *)
Lemma update_evolves now st cid db c0 :
  connections_wf db ->
  find (fun c => c_id c =? cid) (connections db) = Some c0 ->
  c_status c0 = pending ->
  st = accepted \/ st = rejected ->
  let db' := store_after (updateConnectionStatus now cid st db) in
  connections_wf db' /\
  forall c, In c (connections db) ->
    exists c', In c' (connections db') /\ c_id c' = c_id c /\
      c_userId c' = c_userId c /\ c_connectedUserId c' = c_connectedUserId c /\
      status_moves (c_status c) (c_status c').
Proof.
  intros [ND LT] F P ST db'. simpl in db'.
  apply find_some in F as [In0 Id0]. apply Z.eqb_eq in Id0.
  split.
  - split; simpl.
    + rewrite update_keeps_ids. exact ND.
    + intros c Hc. apply in_map_iff in Hc as [c1 [<- Hc1]].
      destruct (c_id c1 =? cid); simpl; now apply LT.
  - intros c Hc.
    exists (if c_id c =? cid then set_status now st c else c).
    split; [simpl; apply in_map_iff; exists c; split; [reflexivity|exact Hc]|].
    destruct (c_id c =? cid) eqn:E; simpl.
    + apply Z.eqb_eq in E.
      assert (c = c0) as -> by (apply (NoDup_map_same c_id (connections db)); congruence).
      repeat split; try reflexivity. right. split; assumption.
    + repeat split; try reflexivity. apply status_moves_refl.
Qed.

Lemma connect_handler_cases now user target db :
  let db' := fst (connect_handler now user target db) in
  connections_seq db <= connections_seq db' /\
  (connections db' = connections db \/
   exists u t, user = Some u /\ target = Some t /\
     connections_seq db' = connections_seq db + 1 /\
     connections db'
     = connections db ++ [mkConnection (connections_seq db) (au_id u) t pending now now]).
Proof.
  unfold connect_handler, handler.
  destruct user as [u|]; [|simpl; split; [lia|left; reflexivity]].
  destruct target as [t|]; [|simpl; split; [lia|left; reflexivity]].
  unfold bind, createConnection.
  destruct (user_exists db (au_id u) && user_exists db t); simpl.
  - split; [lia|]. right. exists u, t. repeat split; reflexivity.
  - split; [lia|]. left. reflexivity.
Qed.

(** Every documented operation keeps the primary key and moves statuses
    only out of pending. *)
Lemma step_evolves now op db :
  connections_wf db ->
  let db' := fst (step now op db) in
  connections_wf db' /\
  forall c, In c (connections db) ->
    exists c', In c' (connections db') /\ c_id c' = c_id c /\
      c_userId c' = c_userId c /\ c_connectedUserId c' = c_connectedUserId c /\
      status_moves (c_status c) (c_status c').
Proof.
  intros WF db'.
  assert (Same : db' = db ->
    connections_wf db' /\
    forall c, In c (connections db) ->
      exists c', In c' (connections db') /\ c_id c' = c_id c /\
        c_userId c' = c_userId c /\ c_connectedUserId c' = c_connectedUserId c /\
        status_moves (c_status c) (c_status c')).
  { intros ->. split; [exact WF|]. intros c Hc. exists c.
    repeat split; try assumption. apply status_moves_refl. }
  destruct op as [user target | user cid | user cid]; unfold step in db'.
  - destruct (connect_handler_cases now user target db) as [LE Rows].
    fold db' in LE, Rows. destruct WF as [ND LT].
    assert (Keep : forall c, In c (connections db') ->
              exists c', In c' (connections db') /\ c_id c' = c_id c /\
                c_userId c' = c_userId c /\ c_connectedUserId c' = c_connectedUserId c /\
                status_moves (c_status c) (c_status c')).
    { intros c Hc. exists c. repeat split; try assumption. apply status_moves_refl. }
    unfold connections_wf.
    destruct Rows as [Eq | [u [t [_ [_ [Seq Eq]]]]]].
    + split; [split|].
      * rewrite Eq. exact ND.
      * rewrite Eq. intros c Hc. specialize (LT c Hc). lia.
      * intros c Hc. apply Keep. rewrite Eq. exact Hc.
    + split; [split|].
      * rewrite Eq, map_app. simpl. apply NoDup_app.
        -- exact ND.
        -- constructor; [intros []|constructor].
        -- intros x Hx [<-|[]]. apply in_map_iff in Hx as [c [Ec Hc]].
           specialize (LT c Hc). lia.
      * rewrite Eq. intros c Hc. apply in_app_or in Hc as [Hc|[<-|[]]].
        -- specialize (LT c Hc). lia.
        -- simpl. lia.
      * intros c Hc. apply Keep. rewrite Eq. apply in_or_app. left. exact Hc.
  - destruct (accept_handler_cases now user cid db)
      as [E | [u [k [c0 [_ [_ [F [_ [P E]]]]]]]]]; fold db' in E.
    + now apply Same.
    + rewrite E. apply (update_evolves now accepted k db c0); auto.
  - destruct (reject_handler_cases now user cid db)
      as [E | [u [k [c0 [_ [_ [F [_ [P E]]]]]]]]]; fold db' in E.
    + now apply Same.
    + rewrite E. apply (update_evolves now rejected k db c0); auto.
Qed.

(** C3, for requests that do not overlap.  From any store that respects
    the primary key of [connections], after any sequence of Request,
    Accept and Reject requests served one after another every row is
    still there under its id, with the same endpoints, and its status
    either is what it was or has moved from pending to accepted or from
    pending to rejected.  So no row leaves accepted or rejected, and none
    returns to pending. *)
Theorem status_only_leaves_pending :
  forall ops db,
    connections_wf db ->
    forall c, In c (connections db) ->
      (exists c', In c' (connections (run ops db)) /\ c_id c' = c_id c) /\
      (forall c', In c' (connections (run ops db)) -> c_id c' = c_id c ->
         c_userId c' = c_userId c /\ c_connectedUserId c' = c_connectedUserId c /\
         status_moves (c_status c) (c_status c')).
Proof.
  intros ops db WF c Hc.
  assert (G : connections_wf (run ops db) /\
              exists c', In c' (connections (run ops db)) /\ c_id c' = c_id c /\
                c_userId c' = c_userId c /\ c_connectedUserId c' = c_connectedUserId c /\
                status_moves (c_status c) (c_status c')).
  { revert db WF c Hc.
    induction ops as [|[now op] ops IH]; intros db WF c Hc; simpl.
    - split; [exact WF|]. exists c. repeat split; try assumption. apply status_moves_refl.
    - destruct (step_evolves now op db WF) as [WF1 Ev].
      destruct (Ev c Hc) as [c1 [Hc1 [I1 [U1 [R1 M1]]]]].
      destruct (IH _ WF1 c1 Hc1) as [WF2 [c2 [Hc2 [I2 [U2 [R2 M2]]]]]].
      split; [exact WF2|]. exists c2.
      repeat split; try congruence.
      eapply status_moves_trans; eassumption. }
  destruct G as [[ND _] [c1 [Hc1 [I1 [U1 [R1 M1]]]]]].
  split; [exists c1; split; assumption|].
  intros c' Hc' I'.
  assert (c' = c1) as -> by (apply (NoDup_map_same c_id (connections (run ops db))); congruence).
  repeat split; assumption.
Qed.

Lemma status_only_leaves_pending_witness :
  connections_wf (sample_db [pending_row]) /\
  In pending_row (connections (sample_db [pending_row])) /\
  In (mkConnection 1 1 2 accepted 100 200)
     (connections (run accept_then_reject (sample_db [pending_row]))) /\
  status_moves pending accepted.
Proof.
  assert (WF : connections_wf (sample_db [pending_row])).
  { split; simpl.
    - constructor; [intros []|constructor].
    - intros x [<-|[]]. simpl. lia. }
  split; [exact WF|]. split; [left; reflexivity|]. split; [left; reflexivity|].
  destruct (status_only_leaves_pending accept_then_reject (sample_db [pending_row]) WF
              pending_row (or_introl eq_refl)) as [_ H].
  apply (H (mkConnection 1 1 2 accepted 100 200) (or_introl eq_refl) eq_refl).
Defined.

(* ----------------------------------------------------------------- *)
(** ** C3: requests that overlap *)

Lemma accept_handler_in_two_steps now user connectionId db :
  accept_handler now user connectionId db
  = match accept_checks user connectionId db with
    | inl r => (db, r)
    | inr cid =>
        (store_after (updateConnectionStatus now cid accepted db),
         mkResponse 200
           (ConnectionJson (result_of None (updateConnectionStatus now cid accepted db))))
    end.
Proof.
  destruct user as [u|]; [|reflexivity]. destruct connectionId as [k|]; [|reflexivity].
  unfold accept_handler, accept_checks, handler, bind, getConnectionById, query.
  destruct (find (fun c => c_id c =? k) (connections db)) as [c0|]; [|reflexivity].
  destruct (negb (c_connectedUserId c0 =? au_id u)); [reflexivity|].
  destruct (negb (status_eqb (c_status c0) pending)); reflexivity.
Qed.

Lemma reject_handler_in_two_steps now user connectionId db :
  reject_handler now user connectionId db
  = match reject_checks user connectionId db with
    | inl r => (db, r)
    | inr cid =>
        (store_after (updateConnectionStatus now cid rejected db),
         mkResponse 200
           (ConnectionJson (result_of None (updateConnectionStatus now cid rejected db))))
    end.
Proof.
  destruct user as [u|]; [|reflexivity]. destruct connectionId as [k|]; [|reflexivity].
  unfold reject_handler, reject_checks, handler, bind, getConnectionById, query.
  destruct (find (fun c => c_id c =? k) (connections db)) as [c0|]; [|reflexivity].
  destruct (negb (c_connectedUserId c0 =? au_id u)
            && negb ((c_userId c0 =? au_id u) && status_eqb (c_status c0) pending));
    [reflexivity|].
  destruct (negb (status_eqb (c_status c0) pending)); reflexivity.
Qed.

(** Served one after another, the requests leave the store [run] gives,
    and nothing in flight. *)
Lemma one_by_one_is_run ops :
  forall db, interleaved (one_by_one ops) (db, []) = (run ops db, []).
Proof.
  induction ops as [|[now op] rest IH]; intro db; [reflexivity|].
  change (interleaved (one_by_one ((now, op) :: rest)) (db, []))
    with (interleaved (one_by_one rest) (resumes now 0 (begins now op (db, [])))).
  assert (E : resumes now 0 (begins now op (db, [])) = (fst (step now op db), [])).
  { destruct op as [user target | user cid | user cid]; simpl.
    - reflexivity.
    - rewrite accept_handler_in_two_steps.
      destruct (accept_checks user cid db); reflexivity.
    - rewrite reject_handler_in_two_steps.
      destruct (reject_checks user cid db); reflexivity. }
  rewrite E. apply IH.
Qed.

(** C3 as written fails for requests that overlap.  Jane's accept and her
    reject of John's pending request both pass their checks on the store
    as it is before either update; the accept's update then makes the
    row accepted, and the reject's update, which tests no status, moves
    the same row from accepted to rejected. *)
Lemma overlapping_accept_and_reject_leave_accepted :
  accept_checks (Some jane) (Some 1) (sample_db [pending_row]) = inr 1 /\
  reject_checks (Some jane) (Some 1) (sample_db [pending_row]) = inr 1 /\
  connections (fst (interleaved accept_overlaps_reject (sample_db [pending_row], [])))
  = [mkConnection 1 1 2 accepted 100 300] /\
  connections (fst (interleaved (accept_overlaps_reject ++ [Resumes 400 0])
                      (sample_db [pending_row], [])))
  = [mkConnection 1 1 2 rejected 100 400] /\
  ~ status_moves accepted rejected.
Proof.
  split; [reflexivity|]. split; [reflexivity|]. split; [reflexivity|].
  split; [reflexivity|].
  intros [E | [E _]]; discriminate E.
Qed.

(** What no overlap undoes: an update only ever writes accepted or
    rejected, so in every interleaving a row stays at its place with its
    id and its endpoints, and a row that is pending was pending all
    along. *)
Lemma overlapping_requests_never_reopen events :
  forall sv,
    Forall (fun w => aw_status w <> pending) (snd sv) ->
    forall i c, nth_error (connections (fst sv)) i = Some c ->
      exists c', nth_error (connections (fst (interleaved events sv))) i = Some c' /\
        c_id c' = c_id c /\ c_userId c' = c_userId c /\
        c_connectedUserId c' = c_connectedUserId c /\
        (c_status c' = pending -> c_status c = pending).
Proof.
  induction events as [|e rest IH]; intros sv Aw i c Hc.
  - exists c. simpl. repeat split; auto.
  - assert (Step : Forall (fun w => aw_status w <> pending) (snd (occurs e sv)) /\
                   exists c1, nth_error (connections (fst (occurs e sv))) i = Some c1 /\
                     c_id c1 = c_id c /\ c_userId c1 = c_userId c /\
                     c_connectedUserId c1 = c_connectedUserId c /\
                     (c_status c1 = pending -> c_status c = pending)).
    { destruct sv as [db aw]. simpl in Aw, Hc.
      destruct e as [now op | now k]; simpl.
      - destruct op as [user target | user cid | user cid]; simpl.
        + split; [exact Aw|].
          exists c. split; [|repeat split; auto].
          destruct user as [u|]; [|exact Hc]. destruct target as [t|]; [|exact Hc].
          unfold connect_handler, handler, bind, createConnection.
          destruct (user_exists db (au_id u) && user_exists db t); simpl; [|exact Hc].
          rewrite nth_error_app1; [exact Hc|].
          apply nth_error_Some. congruence.
        + destruct (accept_checks user cid db) as [r|k]; simpl.
          * split; [exact Aw|]. exists c. repeat split; auto.
          * split.
            -- apply Forall_app. split; [exact Aw|].
               constructor; [discriminate|constructor].
            -- exists c. repeat split; auto.
        + destruct (reject_checks user cid db) as [r|k]; simpl.
          * split; [exact Aw|]. exists c. repeat split; auto.
          * split.
            -- apply Forall_app. split; [exact Aw|].
               constructor; [discriminate|constructor].
            -- exists c. repeat split; auto.
      - unfold resumes. simpl.
        destruct (nth_error aw k) as [w|] eqn:W; simpl.
        + assert (Pw : aw_status w <> pending).
          { apply nth_error_In in W. rewrite Forall_forall in Aw. now apply Aw. }
          split.
          * apply Forall_app. rewrite Forall_forall in Aw. split; apply Forall_forall;
              intros x Hx; apply Aw.
            -- rewrite <- (firstn_skipn k aw). apply in_or_app. left. exact Hx.
            -- rewrite <- (firstn_skipn (S k) aw). apply in_or_app. right. exact Hx.
          * rewrite nth_error_map, Hc. simpl.
            destruct (c_id c =? aw_connectionId w).
            -- exists (set_status now (aw_status w) c). split; [reflexivity|].
               simpl. repeat split; auto. intro P. contradiction.
            -- exists c. repeat split; auto.
        + split; [exact Aw|]. exists c. repeat split; auto. }
    destruct Step as [Aw1 [c1 [H1 [I1 [U1 [V1 P1]]]]]].
    destruct (IH (occurs e sv) Aw1 i c1 H1) as [c' [H' [I' [U' [V' P']]]]].
    exists c'. split; [exact H'|]. repeat split; try congruence. auto.
Qed.

(* ----------------------------------------------------------------- *)
(** ** C6: accepted self-connections *)

(** C6 as written fails: John requests a connection to himself, which
    nothing rejects, and then accepts it as its recipient. *)
Lemma accepted_self_connection_producible :
  exists c,
    In c (connections (run [(100, Request (Some john) (Some 1));
                            (200, Accept (Some john) (Some 5))]
                           (sample_db []))) /\
    c_status c = accepted /\ c_userId c = c_connectedUserId c.
Proof.
  exists (mkConnection 5 1 1 accepted 100 200).
  split; [left; reflexivity | split; reflexivity].
Qed.

Lemma step_keeps_distinct_endpoints now op db :
  self_request op = false ->
  (forall c, In c (connections db) -> c_userId c <> c_connectedUserId c) ->
  forall c, In c (connections (fst (step now op db))) ->
    c_userId c <> c_connectedUserId c.
Proof.
  intros NS Inv.
  assert (Upd : forall st cid c,
            In c (connections (store_after (updateConnectionStatus now cid st db))) ->
            c_userId c <> c_connectedUserId c).
  { intros st cid c Hc. simpl in Hc. apply in_map_iff in Hc as [c1 [<- Hc1]].
    destruct (c_id c1 =? cid); simpl; now apply Inv. }
  destruct op as [user target | user cid | user cid]; unfold step.
  - destruct (connect_handler_cases now user target db)
      as [_ [Eq | [u [t [-> [-> [_ Eq]]]]]]]; rewrite Eq.
    + exact Inv.
    + intros c Hc. apply in_app_or in Hc as [Hc|[<-|[]]]; [now apply Inv|].
      simpl in *. now apply Z.eqb_neq.
  - destruct (accept_handler_cases now user cid db)
      as [E | [u [k [c0 [_ [_ [_ [_ [_ E]]]]]]]]]; rewrite E; [exact Inv | apply Upd].
  - destruct (reject_handler_cases now user cid db)
      as [E | [u [k [c0 [_ [_ [_ [_ [_ E]]]]]]]]]; rewrite E; [exact Inv | apply Upd].
Qed.

(** C6, amended.  From a store with no connection row from a user to
    that same user, every sequence of Request, Accept and Reject requests
    in which no Request names the requesting user as its own target leads
    to a store with no such row either, of any status; in particular with
    no accepted one. *)
Theorem no_self_connection_without_self_request :
  forall ops db,
    (forall c, In c (connections db) -> c_userId c <> c_connectedUserId c) ->
    (forall now op, In (now, op) ops -> self_request op = false) ->
    forall c, In c (connections (run ops db)) ->
      c_userId c <> c_connectedUserId c /\
      ~ (c_status c = accepted /\ c_userId c = c_connectedUserId c).
Proof.
  intros ops db Inv NS c Hc.
  assert (G : c_userId c <> c_connectedUserId c); [|split; [exact G|tauto]].
  revert db Inv c Hc.
  induction ops as [|[now op] ops IH]; intros db Inv c Hc; simpl in Hc.
  - now apply Inv.
  - apply (IH (fun n o H => NS n o (or_intror H)) (fst (step now op db))); [|exact Hc].
    apply step_keeps_distinct_endpoints; [|exact Inv].
    apply (NS now). left. reflexivity.
Qed.

Lemma no_self_connection_without_self_request_witness :
  In (mkConnection 5 1 2 accepted 100 200)
     (connections (run request_then_accept (sample_db []))) /\
  c_userId (mkConnection 5 1 2 accepted 100 200)
  <> c_connectedUserId (mkConnection 5 1 2 accepted 100 200).
Proof.
  split; [left; reflexivity|].
  apply (no_self_connection_without_self_request request_then_accept (sample_db [])).
  - intros x [].
  - intros now op [E|[E|[]]]; inversion E; reflexivity.
  - left. reflexivity.
Defined.

(* ----------------------------------------------------------------- *)
(** ** JavaScript sets *)

Lemma filter_none {A} (p : A -> bool) (l : list A) :
  (forall x, p x = false) -> filter p l = [].
Proof.
  intro H. induction l as [|x l IH]; simpl; [reflexivity|]. now rewrite H.
Qed.

Lemma Set_has_In s x : Set_has s x = true <-> In x s.
Proof.
  unfold Set_has. rewrite existsb_exists. split.
  - intros [y [Hy E]]. apply Z.eqb_eq in E. now subst.
  - intro H. exists x. split; [exact H|apply Z.eqb_refl].
Qed.

Lemma Set_has_not_In s x : Set_has s x = false <-> ~ In x s.
Proof.
  rewrite <- Set_has_In. destruct (Set_has s x); split; congruence.
Qed.

Lemma In_Set_add s x y : In y (Set_add s x) <-> In y s \/ y = x.
Proof.
  unfold Set_add. destruct (Set_has s x) eqn:E.
  - apply Set_has_In in E. split; [tauto|]. intros [H| ->]; assumption.
  - rewrite in_app_iff. simpl. intuition congruence.
Qed.

Lemma In_fold_Set_add xs : forall acc y,
  In y (fold_left Set_add xs acc) <-> In y acc \/ In y xs.
Proof.
  induction xs as [|x xs IH]; intros acc y; simpl.
  - tauto.
  - rewrite IH, In_Set_add. intuition congruence.
Qed.

Lemma In_new_Set xs y : In y (new_Set xs) <-> In y xs.
Proof. unfold new_Set. rewrite In_fold_Set_add. simpl. tauto. Qed.

Lemma NoDup_fold_Set_add xs : forall acc,
  NoDup acc -> NoDup (fold_left Set_add xs acc).
Proof.
  induction xs as [|x xs IH]; intros acc ND; simpl; [exact ND|].
  apply IH. unfold Set_add. destruct (Set_has acc x) eqn:E; [exact ND|].
  apply Set_has_not_In in E. apply NoDup_app; [exact ND| |].
  - constructor; [intros []|constructor].
  - intros y Hy [<-|[]]. contradiction.
Qed.

Lemma NoDup_new_Set xs : NoDup (new_Set xs).
Proof. apply NoDup_fold_Set_add. constructor. Qed.

(* ----------------------------------------------------------------- *)
(** ** C5: mutual connections *)

(** The id set the code collects for a user is the set of that user's
    accepted counterparts, rows of either direction counted. *)
Lemma In_connectedIds db a x :
  In x (connectedIds a db) <-> accepted_counterpart db a x.
Proof.
  unfold connectedIds, accepted_counterpart.
  rewrite In_new_Set, in_map_iff. split.
  - intros [c [E Hc]]. apply filter_In in Hc as [Hc A].
    unfold accepted_involving in A. apply andb_true_iff in A as [D S].
    apply status_eqb_eq in S. exists c. split; [exact Hc|]. split; [exact S|].
    unfold counterpart in E. destruct (c_userId c =? a) eqn:U.
    + apply Z.eqb_eq in U. left. split; congruence.
    + apply Z.eqb_neq in U. simpl in D. apply Z.eqb_eq in D. right.
      repeat split; congruence.
  - intros [c [Hc [S D]]]. exists c. split.
    + unfold counterpart. destruct D as [[U ->]|[R [U ->]]].
      * apply Z.eqb_eq in U. rewrite U. reflexivity.
      * apply Z.eqb_neq in U. rewrite U. reflexivity.
    + apply filter_In. split; [exact Hc|]. unfold accepted_involving.
      apply andb_true_iff. split; [|now apply status_eqb_eq].
      apply orb_true_iff. destruct D as [[U _]|[R _]]; [left|right]; now apply Z.eqb_eq.
Qed.

Lemma In_getMutualConnections db a b u :
  In u (result_of [] (getMutualConnections a b db)) <->
  In u (users db) /\ In (u_id u) (connectedIds a db) /\ In (u_id u) (connectedIds b db).
Proof.
  unfold getMutualConnections, query, result_of.
  set (mutualIds := filter (Set_has (connectedIds b db)) (connectedIds a db)).
  assert (M : forall x, In x mutualIds <->
                        In x (connectedIds a db) /\ In x (connectedIds b db)).
  { intro x. unfold mutualIds. rewrite filter_In, Set_has_In. tauto. }
  assert (F : In u (filter (fun u => existsb (Z.eqb (u_id u)) mutualIds) (users db)) <->
              In u (users db) /\ In (u_id u) mutualIds).
  { rewrite filter_In. fold (Set_has mutualIds (u_id u)). now rewrite Set_has_In. }
  destruct (Nat.eqb_spec (List.length mutualIds) 0) as [L|L].
  - apply length_zero_iff_nil in L. split; [intros []|].
    intros [_ H]. apply M in H. rewrite L in H. destruct H.
  - rewrite F, M. tauto.
Qed.

(** C5.  [getMutualConnections a b] and [getMutualConnections b a] return
    the same set of users, for every store: a user row is returned exactly
    when its id is an accepted counterpart of [a] and an accepted
    counterpart of [b] (a row of either direction counts), which does not
    depend on the order of the two arguments. *)
Theorem mutual_connections_symmetric :
  forall db a b u,
    (In u (result_of [] (getMutualConnections a b db)) <->
     In u (result_of [] (getMutualConnections b a db))) /\
    (In u (result_of [] (getMutualConnections a b db)) <->
     In u (users db) /\
     accepted_counterpart db a (u_id u) /\ accepted_counterpart db b (u_id u)).
Proof.
  intros db a b u. rewrite !In_getMutualConnections, !In_connectedIds. tauto.
Qed.

(** In the model a query returns its rows in table order, so the two
    calls even return the same list. *)
Lemma mutual_connections_same_list db a b :
  result_of [] (getMutualConnections a b db) = result_of [] (getMutualConnections b a db).
Proof.
  assert (G : forall x y,
    result_of [] (getMutualConnections x y db)
    = filter (fun u => Set_has (connectedIds x db) (u_id u)
                       && Set_has (connectedIds y db) (u_id u)) (users db)).
  { intros x y. unfold getMutualConnections, query, result_of.
    set (mutualIds := filter (Set_has (connectedIds y db)) (connectedIds x db)).
    assert (M : forall v, existsb (Z.eqb v) mutualIds
                          = Set_has (connectedIds x db) v && Set_has (connectedIds y db) v).
    { intro v. fold (Set_has mutualIds v).
      apply eq_true_iff_eq. rewrite andb_true_iff, !Set_has_In.
      unfold mutualIds. rewrite filter_In, Set_has_In. tauto. }
    destruct (Nat.eqb_spec (List.length mutualIds) 0) as [L|L].
    - apply length_zero_iff_nil in L. symmetry. apply filter_none.
      intro v. rewrite <- M, L. reflexivity.
    - apply filter_ext. intro v. apply M. }
  rewrite !G. apply filter_ext. intro v. apply andb_comm.
Qed.

(* ----------------------------------------------------------------- *)
(** ** C7: suggestions *)

(** C7.  [getUserSuggestions a] returns exactly the user rows that are not
    [a] itself and are not an endpoint (initiator or recipient) of any
    connection row involving [a]; the status of that row plays no part,
    so a pending or rejected connection excludes a user as well. *)
Theorem suggestions_exclude_every_connection :
  forall db a u,
    In u (result_of [] (getUserSuggestions a db)) <->
    In u (users db) /\ u_id u <> a /\ ~ endpoint_of_row_involving db a (u_id u).
Proof.
  intros db a u. unfold getUserSuggestions, query, result_of.
  rewrite filter_In, negb_true_iff, Set_has_not_In, In_Set_add, In_new_Set, in_flat_map.
  assert (E : (exists c, In c (filter (fun c => (c_userId c =? a) || (c_connectedUserId c =? a))
                                      (connections db)) /\
                         In (u_id u) [c_userId c; c_connectedUserId c])
              <-> endpoint_of_row_involving db a (u_id u)).
  { unfold endpoint_of_row_involving. split; intros [c [H1 H2]]; exists c.
    - apply filter_In in H1 as [Hc D]. apply orb_true_iff in D.
      rewrite !Z.eqb_eq in D. simpl in H2. intuition congruence.
    - destruct H2 as [D X]. split.
      + apply filter_In. split; [exact H1|]. apply orb_true_iff. rewrite !Z.eqb_eq. exact D.
      + simpl. intuition congruence. }
  rewrite E. tauto.
Qed.

(** A user with nothing but a rejected (or a pending) connection to [a]
    is not suggested to [a]. *)
Lemma suggestions_skip_rejected_and_pending db a u c :
  In c (connections db) ->
  (c_userId c = a /\ c_connectedUserId c = u_id u) \/
  (c_connectedUserId c = a /\ c_userId c = u_id u) ->
  ~ In u (result_of [] (getUserSuggestions a db)).
Proof.
  intros Hc D H. unfold getUserSuggestions, query, result_of in H.
  apply filter_In in H as [_ N]. apply negb_true_iff, Set_has_not_In in N.
  apply N. apply In_Set_add. left. apply In_new_Set, in_flat_map.
  exists c. split.
  - apply filter_In. split; [exact Hc|]. apply orb_true_iff.
    rewrite !Z.eqb_eq. tauto.
  - simpl. intuition congruence.
Qed.

(* ----------------------------------------------------------------- *)
(** ** C8: status codes of the auth gate *)

(** C8 as written fails: a token that is present but does not verify
    (invalid or expired) is answered with 403, not 401. *)
Lemma rejected_token_is_not_401 :
  ~ (forall jwt_verify authorization,
        missing_token authorization \/ rejected_token jwt_verify authorization ->
        gate_status (authenticateJWT jwt_verify authorization) = Some 401).
Proof.
  intro H.
  specialize (H (fun _ => None) (Some "Bearer expired"%string)).
  assert (R : rejected_token (fun _ => None) (Some "Bearer expired"%string)).
  { exists "Bearer expired"%string. repeat split. discriminate. }
  specialize (H (or_intror R)). vm_compute in H. discriminate H.
Qed.

(** C8, amended.  At a token-protected endpoint a request without an
    [Authorization] header is answered 401; a request whose bearer token
    does not verify (invalid or expired) is answered 403; a request whose
    token verifies but whose role is not among the allowed ones is
    answered 403 (and 401 if the token carries no role at all). *)
Theorem auth_gate_status_codes :
  forall jwt_verify allowedRoles authorization,
    (missing_token authorization ->
       gate_status (gate jwt_verify allowedRoles authorization) = Some 401) /\
    (rejected_token jwt_verify authorization ->
       gate_status (gate jwt_verify allowedRoles authorization) = Some 403) /\
    (forall u,
       ~ missing_token authorization ->
       jwt_verify
         (nth_error (split_space (match authorization with Some h => h | None => EmptyString end)) 1)
       = Some u ->
       (au_role u <> EmptyString ->
        ~ In (au_role u) allowedRoles ->
          gate_status (gate jwt_verify allowedRoles authorization) = Some 403) /\
       (au_role u = EmptyString ->
          gate_status (gate jwt_verify allowedRoles authorization) = Some 401) /\
       (au_role u <> EmptyString ->
        In (au_role u) allowedRoles ->
          gate jwt_verify allowedRoles authorization = Next (Some u))).
Proof.
  intros jwt_verify allowedRoles authorization. unfold gate, authenticateJWT.
  split; [|split].
  - intros [-> | ->]; reflexivity.
  - intros [h [-> [NE V]]].
    destruct (String.eqb_spec h ""); [contradiction|]. rewrite V. reflexivity.
  - intros u NM V. destruct authorization as [h|]; [|exfalso; apply NM; now left].
    destruct (String.eqb_spec h "") as [->|NE]; [exfalso; apply NM; now right|].
    rewrite V. unfold authorizeRoles.
    assert (X : existsb (String.eqb (au_role u)) allowedRoles = true
                <-> In (au_role u) allowedRoles).
    { rewrite existsb_exists. split.
      - intros [r [Hr E]]. apply String.eqb_eq in E. now subst.
      - intro Hr. exists (au_role u). split; [exact Hr|apply String.eqb_refl]. }
    destruct (String.eqb_spec (au_role u) "") as [Z0|NZ].
    + repeat split; try reflexivity; intros; contradiction.
    + destruct (in_dec string_dec (au_role u) allowedRoles) as [I|NI].
      * rewrite (proj2 X I). simpl.
        repeat split; try reflexivity; intros; contradiction.
      * assert (Ex : existsb (String.eqb (au_role u)) allowedRoles = false)
          by (apply not_true_is_false; intro Q; apply NI, X, Q).
        rewrite Ex. simpl.
        repeat split; try reflexivity; intros; contradiction.
Qed.

Lemma auth_gate_status_codes_witness :
  rejected_token sample_verify (Some "Bearer expired"%string) /\
  gate_status (gate sample_verify ["Doctor"%string] (Some "Bearer expired"%string)) = Some 403.
Proof.
  assert (R : rejected_token sample_verify (Some "Bearer expired"%string)).
  { exists "Bearer expired"%string. repeat split. discriminate. }
  split; [exact R|].
  apply (proj1 (proj2 (auth_gate_status_codes sample_verify ["Doctor"%string]
                                              (Some "Bearer expired"%string)))).
  exact R.
Defined.

(* ----------------------------------------------------------------- *)
(** ** C4: the like toggle *)

Lemma existsb_filter_negb {A} (p : A -> bool) (l : list A) :
  existsb p (filter (fun x => negb (p x)) l) = false.
Proof.
  induction l as [|x l IH]; simpl; [reflexivity|].
  destruct (p x) eqn:E; simpl; [exact IH|]. now rewrite E.
Qed.

(** No like row for the pair: the insert goes through, the answer is
    [liked: true], and the row is there afterwards. *)
Lemma like_when_absent now db u p :
  post_exists db p = true -> user_exists db (au_id u) = true ->
  has_like db p (au_id u) = false ->
  let out := like_handler now (Some u) (Some p) db in
  res_status (snd out) = 200 /\ liked_flag (snd out) = Some true /\
  has_like (fst out) p (au_id u) = true /\
  likes (fst out) = likes db ++ [mkLike (likes_seq db) p (au_id u) now] /\
  posts (fst out) = posts db /\ users (fst out) = users db.
Proof.
  intros HP HU HL out. subst out.
  unfold like_handler, handler, bind, createLike, insert_like.
  unfold has_like in HL. rewrite HL.
  unfold post_exists, user_exists in *. rewrite HP, HU. simpl.
  repeat split.
  unfold has_like. simpl. rewrite existsb_app. simpl.
  unfold like_of at 2. simpl. rewrite !Z.eqb_refl. simpl. apply orb_true_r.
Qed.

(** A like row for the pair exists: the insert violates the unique index,
    [createLike] reports [alreadyExists], and the handler deletes the row
    and answers [liked: false]. *)
Lemma like_when_present now db u p :
  has_like db p (au_id u) = true ->
  let out := like_handler now (Some u) (Some p) db in
  result_of (LikeFailure "" false) (createLike now p (au_id u) db)
  = LikeFailure "User has already liked this post." true /\
  res_status (snd out) = 200 /\ liked_flag (snd out) = Some false /\
  has_like (fst out) p (au_id u) = false /\
  likes (fst out) = filter (fun l => negb (like_of p (au_id u) l)) (likes db) /\
  posts (fst out) = posts db /\ users (fst out) = users db.
Proof.
  intros HL out. subst out.
  unfold like_handler, handler, bind, createLike, insert_like.
  unfold has_like in HL. rewrite HL. simpl.
  repeat split.
  unfold has_like. simpl. apply existsb_filter_negb.
Qed.

(** C4.  For a post and a user that exist and have no like row between
    them, three calls of the like endpoint in a row answer [liked: true],
    [liked: false], [liked: true], and the like row is present, absent,
    present after them.  Whenever the row is already there, the insert's
    uniqueness violation is turned into [alreadyExists], and the handler
    then deletes the row and reports [liked: false]. *)
Theorem like_toggles :
  forall now1 now2 now3 db u p,
    post_exists db p = true ->
    user_exists db (au_id u) = true ->
    has_like db p (au_id u) = false ->
    let s1 := like_handler now1 (Some u) (Some p) db in
    let s2 := like_handler now2 (Some u) (Some p) (fst s1) in
    let s3 := like_handler now3 (Some u) (Some p) (fst s2) in
    (liked_flag (snd s1) = Some true /\ has_like (fst s1) p (au_id u) = true) /\
    (liked_flag (snd s2) = Some false /\ has_like (fst s2) p (au_id u) = false) /\
    (liked_flag (snd s3) = Some true /\ has_like (fst s3) p (au_id u) = true) /\
    (forall now db',
       has_like db' p (au_id u) = true ->
       result_of (LikeFailure "" false) (createLike now p (au_id u) db')
       = LikeFailure "User has already liked this post." true /\
       liked_flag (snd (like_handler now (Some u) (Some p) db')) = Some false /\
       has_like (fst (like_handler now (Some u) (Some p) db')) p (au_id u) = false).
Proof.
  intros now1 now2 now3 db u p HP HU HL s1 s2 s3.
  destruct (like_when_absent now1 db u p HP HU HL) as [_ [F1 [L1 [_ [P1 U1]]]]].
  fold s1 in F1, L1, P1, U1.
  destruct (like_when_present now2 (fst s1) u p L1) as [_ [_ [F2 [L2 [_ [P2 U2]]]]]].
  fold s2 in F2, L2, P2, U2.
  assert (HP2 : post_exists (fst s2) p = true)
    by (unfold post_exists in *; rewrite P2, P1; exact HP).
  assert (HU2 : user_exists (fst s2) (au_id u) = true)
    by (unfold user_exists in *; rewrite U2, U1; exact HU).
  destruct (like_when_absent now3 (fst s2) u p HP2 HU2 L2) as [_ [F3 [L3 _]]].
  fold s3 in F3, L3.
  repeat split; try assumption;
    destruct (like_when_present now db' u p H) as [C [_ [F [L _]]]]; assumption.
Qed.

Lemma like_toggles_witness :
  post_exists (sample_db []) 10 = true /\
  user_exists (sample_db []) (au_id jane) = true /\
  has_like (sample_db []) 10 (au_id jane) = false /\
  liked_flag (snd (like_handler 100 (Some jane) (Some 10) (sample_db []))) = Some true /\
  likes (fst (like_handler 100 (Some jane) (Some 10) (sample_db []))) = [mkLike 1 10 2 100].
Proof.
  split; [reflexivity|]. split; [reflexivity|]. split; [reflexivity|].
  split; [|reflexivity].
  apply (like_toggles 100 200 300 (sample_db []) jane 10 eq_refl eq_refl eq_refl).
Defined.

(* ----------------------------------------------------------------- *)
(** ** C9: savePost *)

Lemma NoDup_map_filter {A B} (f : A -> B) (q : A -> bool) (l : list A) :
  NoDup (map f l) -> NoDup (map f (filter q l)).
Proof.
  induction l as [|x l IH]; simpl; intro ND; [constructor|].
  inversion ND as [|y ys Hnotin ND']; subst.
  destruct (q x); simpl; [|now apply IH].
  constructor; [|now apply IH].
  intro H. apply Hnotin. apply in_map_iff in H as [z [E Hz]].
  apply filter_In in Hz as [Hz _]. rewrite <- E. now apply in_map.
Qed.

Lemma saved_of_key p u sp : saved_of p u sp = true <-> saved_key sp = (p, u).
Proof.
  unfold saved_of, saved_key. rewrite andb_true_iff, !Z.eqb_eq.
  split; [intros [-> ->]; reflexivity | intro E; inversion E; auto].
Qed.


(** With ids and pairs both unique, deleting the found row by its id
    removes exactly the rows of the pair. *)
Lemma delete_found_is_delete_pair db u p e :
  savedPosts_wf db ->
  find (saved_of p u) (savedPosts db) = Some e ->
  filter (fun sp => negb (sp_id sp =? sp_id e)) (savedPosts db)
  = filter (fun sp => negb (saved_of p u sp)) (savedPosts db).
Proof.
  intros [NDi [_ NDk]] F. apply find_some in F as [He Ke].
  apply saved_of_key in Ke.
  assert (G : forall l, (forall sp, In sp l -> In sp (savedPosts db)) ->
    filter (fun sp => negb (sp_id sp =? sp_id e)) l
    = filter (fun sp => negb (saved_of p u sp)) l).
  { induction l as [|x l IH]; intro Sub; simpl; [reflexivity|].
    rewrite IH by (intros sp Hs; apply Sub; now right).
    assert (Hx : In x (savedPosts db)) by (apply Sub; now left).
    assert (Q : (sp_id x =? sp_id e) = saved_of p u x); [|now rewrite Q].
    apply eq_true_iff_eq. rewrite Z.eqb_eq, saved_of_key. split; intro E.
    - assert (x = e) as -> by (apply (NoDup_map_same sp_id (savedPosts db)); assumption).
      exact Ke.
    - assert (x = e) as -> by (apply (NoDup_map_same saved_key (savedPosts db));
                               congruence).
      reflexivity. }
  apply G. auto.
Qed.



Lemma find_app_new {A} (q : A -> bool) (l : list A) (x : A) :
  find q l = None -> q x = true -> find q (l ++ [x]) = Some x.
Proof.
  induction l as [|y l IH]; simpl; intros F Q; [now rewrite Q|].
  destruct (q y); [discriminate F|now apply IH].
Qed.




(** Outside those stores the un-save is not idempotent: with two rows for
    the pair, each call deletes one of them. *)
Remark unsave_twice_on_doubly_saved :
  savedPosts (store_after (savePost 2 10 false doubly_saved_db)) = [mkSavedPost 2 10 2] /\
  savedPosts (store_after (savePost 2 10 false
                             (store_after (savePost 2 10 false doubly_saved_db)))) = [].
Proof. split; reflexivity. Qed.

(* ----------------------------------------------------------------- *)
(** ** C10: shareDocument *)

(** C10 at the failing input: a share request that names user 3 twice,
    for a document not yet shared with user 3.  The handler accepts the
    list, neither copy is filtered out (the filter looks only at rows
    already stored), and two rows for the pair (20, 3) are inserted. *)
Theorem shareDocument_repeated_id_inserts_twice :
  share_handler 100 20 [3; 3] (sample_db [])
  = (set_documentSharing [mkDocumentSharing 1 20 3 100; mkDocumentSharing 2 20 3 100] 3
                         (sample_db []),
     mkResponse 200 Success) /\
  ~ NoDup (map sharing_key
               (documentSharing (fst (share_handler 100 20 [3; 3] (sample_db []))))).
Proof.
  split; [reflexivity|].
  intro ND. vm_compute in ND. inversion ND as [|x xs Hnotin _]; subst.
  apply Hnotin. left. reflexivity.
Qed.

(** What does hold of [shareDocument]. *)

Lemma filter_none_in {A} (p : A -> bool) (l : list A) :
  (forall x, In x l -> p x = false) -> filter p l = [].
Proof.
  induction l as [|x l IH]; simpl; intro H; [reflexivity|].
  rewrite (H x (or_introl eq_refl)). apply IH. intros y Hy. apply H. now right.
Qed.

Lemma NoDup_map_pair (d : Z) (ids : list Z) :
  NoDup ids -> NoDup (map (fun userId => (d, userId)) ids).
Proof.
  induction 1 as [|x ids Hnotin ND IH]; simpl; constructor; [|exact IH].
  intro H. apply in_map_iff in H as [y [E Hy]]. inversion E. now subst.
Qed.

Lemma has_share_In db d uid :
  has_share db d uid = true <->
  exists s, In s (documentSharing db) /\ sharing_key s = (d, uid).
Proof.
  unfold has_share, sharing_key. rewrite existsb_exists.
  split; intros [s [Hs E]]; exists s; split; try assumption.
  - apply andb_true_iff in E as [E1 E2]. apply Z.eqb_eq in E1, E2. congruence.
  - inversion E. rewrite !Z.eqb_refl. reflexivity.
Qed.

(** The ids that survive the filter are those of the request that have
    no sharing row for the document yet. *)
Lemma newShares_ids db d userIds :
  filter (fun uid =>
            negb (Set_has
                    (new_Set (map ds_userId
                       (filter (fun s => (ds_documentId s =? d)
                                         && existsb (Z.eqb (ds_userId s)) userIds)
                               (documentSharing db))))
                    uid))
         userIds
  = filter (fun uid => negb (has_share db d uid)) userIds.
Proof.
  apply filter_ext_in. intros uid Hu. f_equal.
  apply eq_true_iff_eq. rewrite Set_has_In, In_new_Set, in_map_iff, has_share_In.
  split; intros [s [H1 H2]]; exists s.
  - apply filter_In in H2 as [Hs E]. apply andb_true_iff in E as [E1 _].
    apply Z.eqb_eq in E1. split; [exact Hs|]. unfold sharing_key. congruence.
  - unfold sharing_key in H2. inversion H2; subst. split; [reflexivity|].
    apply filter_In. split; [exact H1|]. rewrite Z.eqb_refl. simpl.
    apply existsb_exists. exists (ds_userId s). split; [exact Hu|apply Z.eqb_refl].
Qed.

Lemma sharing_rows_keys now d : forall ids id,
  map sharing_key (sharing_rows now id (map (fun userId => (d, userId)) ids))
  = map (fun userId => (d, userId)) ids.
Proof.
  induction ids as [|x ids IH]; intro id; simpl; [reflexivity|]. now rewrite IH.
Qed.

(** The rows [shareDocument] leaves behind: the old ones, followed (if
    the insert goes through) by one row per surviving id. *)
Lemma shareDocument_rows now d userIds db :
  let fresh := filter (fun uid => negb (has_share db d uid)) userIds in
  let db' := store_after (shareDocument now d userIds db) in
  users db' = users db /\ documents db' = documents db /\
  documentSharing db'
  = if forallb (fun v => document_exists db (fst v) && user_exists db (snd v))
               (map (fun userId => (d, userId)) fresh)
    then documentSharing db
           ++ sharing_rows now (documentSharing_seq db) (map (fun userId => (d, userId)) fresh)
    else documentSharing db.
Proof.
  intros fresh db'. subst db'.
  unfold shareDocument, bind, query. rewrite newShares_ids. fold fresh.
  destruct fresh as [|x xs] eqn:E.
  - simpl. rewrite app_nil_r. repeat split.
  - unfold insert_documentSharing.
    set (values := map (fun userId => (d, userId)) (x :: xs)).
    replace (0 <? List.length values)%nat with true by reflexivity.
    destruct (forallb _ values); repeat split.
Qed.

(** X19.  Sharing is idempotent on the rows: a second [shareDocument]
    call with the same document and the same list of user ids, whatever
    the list and whenever it is made, leaves exactly the sharing rows the
    first call left, whether the first insert went through or failed. *)
Lemma shareDocument_idempotent now now' d userIds db :
  documentSharing
    (store_after (shareDocument now' d userIds (store_after (shareDocument now d userIds db))))
  = documentSharing (store_after (shareDocument now d userIds db)).
Proof.
  destruct (shareDocument_rows now d userIds db) as [U [D R1]].
  set (db1 := store_after (shareDocument now d userIds db)) in *.
  destruct (shareDocument_rows now' d userIds db1) as [_ [_ R2]].
  rewrite R2. clear R2.
  set (fresh := filter (fun uid => negb (has_share db d uid)) userIds) in *.
  destruct (forallb (fun v => document_exists db (fst v) && user_exists db (snd v))
                    (map (fun userId => (d, userId)) fresh)) eqn:FK.
  - (* the surviving ids are all shared now: the second call finds none *)
    assert (F : filter (fun uid => negb (has_share db1 d uid)) userIds = []).
    { apply filter_none_in. intros uid Hu. apply negb_false_iff.
      destruct (has_share db d uid) eqn:Old.
      - apply has_share_In in Old as [s [Hs K]]. apply has_share_In.
        exists s. split; [|exact K]. rewrite R1. apply in_or_app. now left.
      - assert (K : In (d, uid)
                       (map sharing_key
                            (sharing_rows now (documentSharing_seq db)
                               (map (fun userId => (d, userId)) fresh)))).
        { rewrite sharing_rows_keys. apply in_map. apply filter_In.
          split; [exact Hu|]. now rewrite Old. }
        apply in_map_iff in K as [s [K Hs]]. apply has_share_In.
        exists s. split; [|exact K]. rewrite R1. apply in_or_app. now right. }
    rewrite F. simpl. apply app_nil_r.
  - (* the insert failed: the same insert fails again *)
    assert (F : filter (fun uid => negb (has_share db1 d uid)) userIds = fresh).
    { apply filter_ext. intro uid. unfold has_share. now rewrite R1. }
    rewrite F. unfold document_exists, user_exists in *. rewrite U, D, FK. reflexivity.
Qed.

(** X20.  If the list of user ids names no user twice and the table has
    no two rows for one (document, user) pair, [shareDocument] leaves a
    table without such a pair. *)
Lemma shareDocument_no_duplicate_pair now d userIds db :
  NoDup userIds ->
  NoDup (map sharing_key (documentSharing db)) ->
  NoDup (map sharing_key (documentSharing (store_after (shareDocument now d userIds db)))).
Proof.
  intros NU ND.
  destruct (shareDocument_rows now d userIds db) as [_ [_ R]]. rewrite R.
  destruct (forallb _ _); [|exact ND].
  - rewrite map_app, sharing_rows_keys. apply NoDup_app; [exact ND| |].
    + apply NoDup_map_pair. now apply NoDup_filter.
    + intros k Hk Hn. apply in_map_iff in Hn as [uid [<- Hu]].
      apply filter_In in Hu as [_ Fresh]. apply negb_true_iff in Fresh.
      apply in_map_iff in Hk as [s [K Hs]].
      assert (has_share db d uid = true) by (apply has_share_In; now exists s).
      congruence.
Qed.

(* ================================================================= *)
(** * Further properties of the storage methods and handlers *)

(** ** Related users *)

Lemma related_user_Some db id u :
  related_user db id = Some u -> In u (users db) /\ u_id u = id.
Proof.
  unfold related_user. intro F. apply find_some in F as [H E].
  apply Z.eqb_eq in E. split; assumption.
Qed.

Lemma related_user_exists db id :
  user_exists db id = true -> exists u, related_user db id = Some u.
Proof.
  unfold user_exists, related_user. intro E.
  apply existsb_exists in E as [u [Hu Q]].
  destruct (find (fun u => u_id u =? id) (users db)) as [v|] eqn:F; [now exists v|].
  rewrite (find_none _ _ F u Hu) in Q. discriminate Q.
Qed.

Lemma related_user_self db id u :
  related_user db id = Some u -> related_user db (u_id u) = Some u.
Proof.
  intro F. destruct (related_user_Some db id u F) as [_ ->]. exact F.
Qed.

Lemma all_some_spec {A} (xs : list (option A)) (ys : list A) :
  all_some xs = Some ys <-> xs = map Some ys.
Proof.
  revert ys. induction xs as [|x xs IH]; intro ys; simpl.
  - split; intro H.
    + injection H as <-. reflexivity.
    + destruct ys; [reflexivity|discriminate H].
  - destruct x as [x|].
    + destruct (all_some xs) as [zs|] eqn:E.
      * split; intro H.
        -- injection H as <-. simpl. f_equal. now apply IH.
        -- destruct ys as [|y ys]; [discriminate H|]. simpl in H.
           injection H as -> H. apply IH in H. injection H as ->. reflexivity.
      * split; [discriminate|]. intro H.
        destruct ys as [|y ys]; [discriminate H|]. simpl in H.
        injection H as _ H. apply IH in H. discriminate H.
    + split; [discriminate|]. intro H. destruct ys; discriminate H.
Qed.

Lemma all_some_total {A} (xs : list (option A)) :
  (forall x, In x xs -> x <> None) -> exists ys, all_some xs = Some ys.
Proof.
  induction xs as [|x xs IH]; intro H; simpl; [now exists []|].
  destruct x as [x|]; [|exfalso; apply (H None); [now left|reflexivity]].
  destruct IH as [ys E]; [intros y Hy; apply H; now right|].
  rewrite E. now exists (x :: ys).
Qed.

Lemma all_some_In {A} (xs : list (option A)) (ys : list A) y :
  all_some xs = Some ys -> (In y ys <-> In (Some y) xs).
Proof.
  intro E. apply all_some_spec in E. subst xs. rewrite in_map_iff. split.
  - intro H. now exists y.
  - intros [z [Q H]]. now injection Q as <-.
Qed.

(** ** Colleagues *)

(** Where the foreign keys of [connections] hold, [getUserColleagues]
    returns, and what it returns is a list [found] of distinct users, one
    per counterpart of an accepted row, with the user itself filtered
    out. *)
Lemma getUserColleagues_found db a :
  connections_fk db ->
  exists found,
    getUserColleagues a db = Some (filter (fun c => negb (u_id c =? a)) found) /\
    NoDup (map u_id found) /\
    forall u, In u found <->
      related_user db (u_id u) = Some u /\
      exists c, In c (connections db) /\ c_status c = accepted /\
        ((c_userId c = a /\ u_id u = c_connectedUserId c) \/
         (c_connectedUserId c = a /\ u_id u = c_userId c)).
Proof.
  intro FK. unfold getUserColleagues.
  set (colleagues :=
         map (fun conn => related_user db (c_connectedUserId conn))
             (filter (fun c => (c_userId c =? a) && status_eqb (c_status c) accepted)
                     (connections db))
         ++ map (fun conn => related_user db (c_userId conn))
                (filter (fun c => (c_connectedUserId c =? a) && status_eqb (c_status c) accepted)
                        (connections db))).
  assert (Mem : forall o, In o colleagues <->
            exists c, In c (connections db) /\ c_status c = accepted /\
              ((c_userId c = a /\ o = related_user db (c_connectedUserId c)) \/
               (c_connectedUserId c = a /\ o = related_user db (c_userId c)))).
  { intro o. unfold colleagues. rewrite in_app_iff, !in_map_iff. split.
    - intros [[c [E H]]|[c [E H]]]; apply filter_In in H as [Hc Q];
        apply andb_true_iff in Q as [Q1 Q2]; apply Z.eqb_eq in Q1;
        apply status_eqb_eq in Q2; exists c; auto.
    - intros [c [Hc [S [[U ->]|[U ->]]]]]; [left|right]; exists c;
        (split; [reflexivity|]); apply filter_In; (split; [exact Hc|]);
        apply andb_true_iff; split; try (now apply Z.eqb_eq); now apply status_eqb_eq. }
  destruct (all_some_total colleagues) as [cs Ecs].
  { intros o Ho N. subst o. apply Mem in Ho as [c [Hc [_ D]]].
    destruct (FK c Hc) as [F1 F2].
    apply related_user_exists in F1 as [u1 F1], F2 as [u2 F2].
    destruct D as [[_ D]|[_ D]]; congruence. }
  rewrite Ecs.
  assert (Self : forall u, In u cs -> related_user db (u_id u) = Some u).
  { intros u Hu. apply (all_some_In _ _ u Ecs) in Hu. apply Mem in Hu as [c [_ [_ D]]].
    destruct D as [[_ D]|[_ D]]; symmetry in D; now apply related_user_self in D. }
  set (ids := new_Set (map u_id cs)).
  destruct (all_some_total (map (fun id => find (fun c => u_id c =? id) cs) ids))
    as [found Ef].
  { intros o Ho N. subst o. apply in_map_iff in Ho as [id [F Hid]].
    unfold ids in Hid. apply In_new_Set, in_map_iff in Hid as [u [E Hu]].
    pose proof (find_none _ _ F u Hu) as N. simpl in N.
    rewrite E, Z.eqb_refl in N. discriminate N. }
  rewrite Ef. exists found. split; [reflexivity|].
  pose proof Ef as Shape. apply all_some_spec in Shape.
  assert (Ids : map u_id found = ids).
  { clear Ef. revert found Shape. generalize ids as l.
    induction l as [|id l IH]; intros found Shape; destruct found as [|f found];
      simpl in Shape; try discriminate Shape; [reflexivity|].
    injection Shape as F Shape. simpl. f_equal; [|now apply IH].
    assert (F' : find (fun c => u_id c =? id) cs = Some f) by congruence.
    apply find_some in F' as [_ F']. now apply Z.eqb_eq in F'. }
  split; [rewrite Ids; apply NoDup_new_Set|].
  assert (Same : forall u, In u found <-> In u cs).
  { intro u. rewrite (all_some_In _ _ u Ef), in_map_iff. split.
    - intros [id [F _]]. now apply find_some in F as [H _].
    - intro Hu. exists (u_id u). split.
      + destruct (find (fun c => u_id c =? u_id u) cs) as [v|] eqn:F.
        * apply find_some in F as [Hv E]. apply Z.eqb_eq in E.
          pose proof (Self v Hv) as Sv. rewrite E, (Self u Hu) in Sv. congruence.
        * pose proof (find_none _ _ F u Hu) as N. simpl in N.
          rewrite Z.eqb_refl in N. discriminate N.
      + unfold ids. apply In_new_Set. now apply in_map. }
  intro u. rewrite Same. split.
  - intro Hu. split; [now apply Self|].
    apply (all_some_In _ _ u Ecs) in Hu. apply Mem in Hu as [c [Hc [S D]]].
    exists c. split; [exact Hc|]. split; [exact S|].
    destruct D as [[U D]|[U D]]; symmetry in D; apply related_user_Some in D as [_ D]; auto.
  - intros [R [c [Hc [S D]]]]. apply (all_some_In _ _ u Ecs). apply Mem.
    exists c. split; [exact Hc|]. split; [exact S|].
    destruct D as [[U D]|[U D]]; rewrite <- D, R; auto.
Qed.

Lemma counterpart_either_direction db a x :
  x <> a ->
  (accepted_counterpart db a x <->
   exists c, In c (connections db) /\ c_status c = accepted /\
     ((c_userId c = a /\ x = c_connectedUserId c) \/
      (c_connectedUserId c = a /\ x = c_userId c))).
Proof.
  intro N. unfold accepted_counterpart.
  split; intros [c [Hc [S D]]]; exists c; (split; [exact Hc|]); (split; [exact S|]).
  - tauto.
  - destruct D as [D|[R X]]; [now left|]. right. repeat split; congruence.
Qed.

(** X1.  Where every connection row points at existing users,
    [getUserColleagues a] does not throw; no two users it returns share an
    id; and it returns exactly the user rows, other than [a]'s own, that
    are the counterpart of an accepted connection row of [a], in either
    direction. *)
Theorem colleagues_are_accepted_counterparts :
  forall db a,
    connections_fk db ->
    exists l,
      getUserColleagues a db = Some l /\
      NoDup (map u_id l) /\
      forall u, In u l <->
        u_id u <> a /\ related_user db (u_id u) = Some u /\
        accepted_counterpart db a (u_id u).
Proof.
  intros db a FK.
  destruct (getUserColleagues_found db a FK) as [found [E [ND Mem]]].
  exists (filter (fun c => negb (u_id c =? a)) found).
  split; [exact E|]. split; [now apply NoDup_map_filter|].
  intro u. rewrite filter_In, negb_true_iff, Z.eqb_neq, Mem. split.
  - intros [[R X] N]. repeat split; try assumption.
    now apply counterpart_either_direction.
  - intros [N [R X]]. repeat split; try assumption.
    now apply counterpart_either_direction.
Qed.

Lemma colleagues_are_accepted_counterparts_witness :
  connections_fk (sample_db [accepted_row]) /\
  getUserColleagues 1 (sample_db [accepted_row]) = Some [jane_row] /\
  getUserColleagues 2 (sample_db [accepted_row]) = Some [john_row] /\
  exists l, getUserColleagues 1 (sample_db [accepted_row]) = Some l /\ NoDup (map u_id l).
Proof.
  assert (FK : connections_fk (sample_db [accepted_row])).
  { intros c [<-|[]]. split; reflexivity. }
  split; [exact FK|]. split; [reflexivity|]. split; [reflexivity|].
  destruct (colleagues_are_accepted_counterparts (sample_db [accepted_row]) 1 FK)
    as [l [E [ND _]]].
  exists l. split; assumption.
Defined.

(** The connect handler between two users that exist: the row appended
    and the answer. *)
Lemma connect_handler_result now u t db :
  connect_handler now (Some u) (Some t) db
  = if user_exists db (au_id u) && user_exists db t
    then (set_connections
            (connections db ++ [mkConnection (connections_seq db) (au_id u) t pending now now])
            (connections_seq db + 1) db,
          mkResponse 201
            (ConnectionJson
               (Some (mkConnection (connections_seq db) (au_id u) t pending now now))))
    else (set_connections (connections db) (connections_seq db + 1) db,
          mkResponse 500 (ErrorMessage fk_violation)).
Proof.
  unfold connect_handler, handler, bind, createConnection.
  destruct (user_exists db (au_id u) && user_exists db t); reflexivity.
Qed.

Lemma related_user_gives_exists db id u :
  related_user db id = Some u -> user_exists db id = true.
Proof.
  intro F. apply related_user_Some in F as [H E].
  unfold user_exists. apply existsb_exists. exists u. split; [exact H|].
  now apply Z.eqb_eq.
Qed.

Lemma find_fresh_id (rows : list Connection) (row : Connection) :
  (forall c, In c rows -> c_id c < c_id row) ->
  find (fun c => c_id c =? c_id row) (rows ++ [row]) = Some row.
Proof.
  intro LT. apply find_app_new; [|apply Z.eqb_refl].
  destruct (find (fun c => c_id c =? c_id row) rows) as [c|] eqn:F; [|reflexivity].
  apply find_some in F as [Hc E]. apply Z.eqb_eq in E. specialize (LT c Hc). lia.
Qed.

(** The accept and reject handlers on a row they find pending, asked by
    a user entitled to the change. *)
Lemma accept_handler_success now u cid db c0 :
  find (fun c => c_id c =? cid) (connections db) = Some c0 ->
  c_connectedUserId c0 = au_id u ->
  c_status c0 = pending ->
  accept_handler now (Some u) (Some cid) db
  = (store_after (updateConnectionStatus now cid accepted db),
     mkResponse 200 (ConnectionJson (Some (set_status now accepted c0)))).
Proof.
  intros F R P. unfold accept_handler, handler, bind, getConnectionById, query.
  rewrite F, R, P, Z.eqb_refl. simpl. rewrite returning_first, F. reflexivity.
Qed.

Lemma reject_handler_success now u cid db c0 :
  find (fun c => c_id c =? cid) (connections db) = Some c0 ->
  c_connectedUserId c0 = au_id u \/ c_userId c0 = au_id u ->
  c_status c0 = pending ->
  reject_handler now (Some u) (Some cid) db
  = (store_after (updateConnectionStatus now cid rejected db),
     mkResponse 200 (ConnectionJson (Some (set_status now rejected c0)))).
Proof.
  intros F D P. unfold reject_handler, handler, bind, getConnectionById, query.
  rewrite F, P.
  assert (G : negb (c_connectedUserId c0 =? au_id u)
              && negb ((c_userId c0 =? au_id u) && status_eqb pending pending) = false).
  { destruct D as [D|D]; rewrite D, Z.eqb_refl; simpl;
      [reflexivity | apply andb_false_r]. }
  rewrite G. simpl. rewrite returning_first, F. reflexivity.
Qed.

(** X2.  A request followed by its acceptance makes colleagues: if [a]
    asks [b] (another user, both existing) for a connection and [b]
    accepts the row that was created, the two requests are answered 201
    and 200, and afterwards [b] is among the colleagues of [a] and [a]
    among the colleagues of [b]. *)
Theorem request_then_accept_makes_colleagues :
  forall t1 t2 db ua ub a_row b_row,
    connections_wf db ->
    connections_fk db ->
    related_user db (au_id ua) = Some a_row ->
    related_user db (au_id ub) = Some b_row ->
    au_id ua <> au_id ub ->
    let requested := connect_handler t1 (Some ua) (Some (au_id ub)) db in
    let accepted := accept_handler t2 (Some ub) (Some (connections_seq db)) (fst requested) in
    res_status (snd requested) = 201 /\
    res_status (snd accepted) = 200 /\
    (exists l, getUserColleagues (au_id ua) (fst accepted) = Some l /\ In b_row l) /\
    (exists l, getUserColleagues (au_id ub) (fst accepted) = Some l /\ In a_row l).
Proof.
  intros t1 t2 db ua ub a_row b_row [_ LT] FK Ra Rb Diff requested accepted'.
  pose proof (related_user_gives_exists _ _ _ Ra) as Ea.
  pose proof (related_user_gives_exists _ _ _ Rb) as Eb.
  set (row := mkConnection (connections_seq db) (au_id ua) (au_id ub) pending t1 t1).
  assert (Q1 : requested
               = (set_connections (connections db ++ [row]) (connections_seq db + 1) db,
                  mkResponse 201 (ConnectionJson (Some row)))).
  { unfold requested. rewrite connect_handler_result, Ea, Eb. reflexivity. }
  assert (F : find (fun c => c_id c =? connections_seq db) (connections db ++ [row])
              = Some row) by (apply (find_fresh_id (connections db) row); exact LT).
  assert (Q2 : accepted'
               = (store_after (updateConnectionStatus t2 (connections_seq db) accepted
                                                      (fst requested)),
                  mkResponse 200 (ConnectionJson (Some (set_status t2 accepted row))))).
  { unfold accepted'. apply accept_handler_success; [|reflexivity|reflexivity].
    rewrite Q1. exact F. }
  rewrite Q1 in Q2. simpl in Q2.
  split; [rewrite Q1; reflexivity|]. split; [rewrite Q2; reflexivity|].
  set (db2 := fst accepted') in *.
  assert (Rows : forall c, In c (connections db2) ->
            c = set_status t2 accepted row \/
            exists c0, In c0 (connections db) /\ c_userId c = c_userId c0 /\
                       c_connectedUserId c = c_connectedUserId c0).
  { intros c Hc. unfold db2 in Hc. rewrite Q2 in Hc. simpl in Hc.
    apply in_map_iff in Hc as [c0 [<- H0]]. apply in_app_or in H0 as [H0|[<-|[]]].
    - right. exists c0. split; [exact H0|].
      destruct (c_id c0 =? connections_seq db); split; reflexivity.
    - left. simpl. rewrite Z.eqb_refl. reflexivity. }
  assert (New : In (set_status t2 accepted row) (connections db2)).
  { unfold db2. rewrite Q2. simpl. apply in_map_iff. exists row.
    split; [simpl; now rewrite Z.eqb_refl|]. apply in_or_app. right. now left. }
  assert (Us : users db2 = users db) by (unfold db2; rewrite Q2; reflexivity).
  assert (FK2 : connections_fk db2).
  { intros c Hc. unfold user_exists. rewrite Us.
    destruct (Rows c Hc) as [->|[c0 [H0 [-> ->]]]]; [split; assumption|now apply FK]. }
  assert (Rel : forall id, related_user db2 id = related_user db id)
    by (intro id; unfold related_user; now rewrite Us).
  split.
  - destruct (getUserColleagues_found db2 (au_id ua) FK2) as [found [E [_ Mem]]].
    eexists. split; [exact E|]. apply filter_In. split.
    + apply Mem. destruct (related_user_Some _ _ _ Rb) as [_ Ib].
      rewrite Ib, Rel. split; [exact Rb|].
      exists (set_status t2 accepted row). split; [exact New|]. split; [reflexivity|].
      left. split; reflexivity.
    + destruct (related_user_Some _ _ _ Rb) as [_ ->].
      apply negb_true_iff, Z.eqb_neq. congruence.
  - destruct (getUserColleagues_found db2 (au_id ub) FK2) as [found [E [_ Mem]]].
    eexists. split; [exact E|]. apply filter_In. split.
    + apply Mem. destruct (related_user_Some _ _ _ Ra) as [_ Ia].
      rewrite Ia, Rel. split; [exact Ra|].
      exists (set_status t2 accepted row). split; [exact New|]. split; [reflexivity|].
      right. split; reflexivity.
    + destruct (related_user_Some _ _ _ Ra) as [_ ->].
      apply negb_true_iff, Z.eqb_neq. congruence.
Qed.

Lemma request_then_accept_makes_colleagues_witness :
  connections_wf (sample_db []) /\
  connections_fk (sample_db []) /\
  related_user (sample_db []) (au_id john) = Some john_row /\
  related_user (sample_db []) (au_id jane) = Some jane_row /\
  au_id john <> au_id jane /\
  exists l,
    getUserColleagues (au_id john)
      (fst (accept_handler 200 (Some jane) (Some (connections_seq (sample_db [])))
              (fst (connect_handler 100 (Some john) (Some (au_id jane)) (sample_db [])))))
    = Some l /\ In jane_row l.
Proof.
  assert (WF : connections_wf (sample_db [])).
  { split; simpl; [constructor | intros c []]. }
  assert (FK : connections_fk (sample_db [])) by (intros c []).
  assert (N : au_id john <> au_id jane) by discriminate.
  split; [exact WF|]. split; [exact FK|]. split; [reflexivity|].
  split; [reflexivity|]. split; [exact N|].
  exact (proj1 (proj2 (proj2
           (request_then_accept_makes_colleagues 100 200 (sample_db []) john jane
              john_row jane_row WF FK eq_refl eq_refl N)))).
Defined.

(** ** Suggestions against the other lists *)

(** A suggested user has no connection row with the user at all. *)
Lemma suggested_has_no_row db a u :
  In u (result_of [] (getUserSuggestions a db)) ->
  u_id u <> a /\
  forall c, In c (connections db) ->
    c_userId c = a \/ c_connectedUserId c = a ->
    u_id u <> c_userId c /\ u_id u <> c_connectedUserId c.
Proof.
  unfold getUserSuggestions, query, result_of. intro H.
  apply filter_In in H as [_ N]. apply negb_true_iff, Set_has_not_In in N.
  rewrite In_Set_add, In_new_Set, in_flat_map in N.
  split; [tauto|]. intros c Hc D.
  assert (X : forall x, x = c_userId c \/ x = c_connectedUserId c -> u_id u <> x).
  { intros x Hx E. apply N. left. exists c. split.
    - apply filter_In. split; [exact Hc|]. apply orb_true_iff.
      rewrite !Z.eqb_eq. exact D.
    - simpl. intuition congruence. }
  split; apply X; auto.
Qed.

(** X3.  The lists do not overlap: a user who is a colleague of [a], and a
    user whose pending request [a] has received, is never among the
    suggestions made to [a]. *)
Theorem colleagues_and_requesters_are_not_suggested :
  forall db a u,
    connections_fk db ->
    (exists l, getUserColleagues a db = Some l /\ In u l) \/
    In (Some u) (result_of [] (getConnectionRequests a db)) ->
    ~ In u (result_of [] (getUserSuggestions a db)).
Proof.
  intros db a u FK D S. apply suggested_has_no_row in S as [_ S].
  destruct D as [[l [E Hu]]|R].
  - destruct (getUserColleagues_found db a FK) as [found [E' [_ Mem]]].
    rewrite E in E'. injection E' as ->. apply filter_In in Hu as [Hu _].
    apply Mem in Hu as [_ [c [Hc [_ D]]]].
    destruct D as [[U X]|[U X]].
    + destruct (S c Hc (or_introl U)) as [_ N]. contradiction.
    + destruct (S c Hc (or_intror U)) as [N _]. contradiction.
  - unfold getConnectionRequests, query, result_of in R.
    apply in_map_iff in R as [c [Rel Hc]]. apply filter_In in Hc as [Hc Q].
    apply andb_true_iff in Q as [Q _]. apply Z.eqb_eq in Q.
    apply related_user_Some in Rel as [_ Rel].
    destruct (S c Hc (or_intror Q)) as [N _]. congruence.
Qed.

Lemma colleagues_and_requesters_are_not_suggested_witness :
  connections_fk (sample_db [pending_row]) /\
  In (Some john_row) (result_of [] (getConnectionRequests 2 (sample_db [pending_row]))) /\
  ~ In john_row (result_of [] (getUserSuggestions 2 (sample_db [pending_row]))).
Proof.
  assert (FK : connections_fk (sample_db [pending_row])).
  { intros c [<-|[]]. split; reflexivity. }
  assert (R : In (Some john_row)
                 (result_of [] (getConnectionRequests 2 (sample_db [pending_row]))))
    by (left; reflexivity).
  split; [exact FK|]. split; [exact R|].
  exact (colleagues_and_requesters_are_not_suggested (sample_db [pending_row]) 2 john_row
           FK (or_intror R)).
Defined.

(** X4.  After a connection request between two existing users has been
    served, the requester is listed among the target's connection
    requests, and neither of the two is suggested to the other any more. *)
Theorem request_is_listed_and_ends_suggestions :
  forall now db ua t a_row,
    related_user db (au_id ua) = Some a_row ->
    user_exists db t = true ->
    let db' := fst (connect_handler now (Some ua) (Some t) db) in
    In (Some a_row) (result_of [] (getConnectionRequests t db')) /\
    (forall u, In u (result_of [] (getUserSuggestions (au_id ua) db')) -> u_id u <> t) /\
    (forall u, In u (result_of [] (getUserSuggestions t db')) -> u_id u <> au_id ua).
Proof.
  intros now db ua t a_row Ra Et db'.
  pose proof (related_user_gives_exists _ _ _ Ra) as Ea.
  set (row := mkConnection (connections_seq db) (au_id ua) t pending now now).
  assert (Q : db' = set_connections (connections db ++ [row]) (connections_seq db + 1) db).
  { unfold db'. rewrite connect_handler_result, Ea, Et. reflexivity. }
  assert (New : In row (connections db'))
    by (rewrite Q; simpl; apply in_or_app; right; now left).
  split; [|split].
  - unfold getConnectionRequests, query, result_of. apply in_map_iff.
    exists row. split.
    + unfold related_user. rewrite Q. exact Ra.
    + apply filter_In. split; [exact New|]. simpl. now rewrite Z.eqb_refl.
  - intros u S. apply suggested_has_no_row in S as [_ S].
    now destruct (S row New (or_introl eq_refl)) as [_ N].
  - intros u S. apply suggested_has_no_row in S as [_ S].
    now destruct (S row New (or_intror eq_refl)) as [N _].
Qed.

Lemma request_is_listed_and_ends_suggestions_witness :
  related_user (sample_db []) (au_id john) = Some john_row /\
  user_exists (sample_db []) 2 = true /\
  In (Some john_row)
     (result_of [] (getConnectionRequests 2
                      (fst (connect_handler 100 (Some john) (Some 2) (sample_db []))))).
Proof.
  split; [reflexivity|]. split; [reflexivity|].
  exact (proj1 (request_is_listed_and_ends_suggestions 100 (sample_db []) john 2 john_row
                  eq_refl eq_refl)).
Defined.

(** ** Connection requests *)

Lemma pending_for_after_update now st cid b rows :
  st <> pending ->
  filter (fun c => (c_connectedUserId c =? b) && status_eqb (c_status c) pending)
         (map (fun c => if c_id c =? cid then set_status now st c else c) rows)
  = filter (fun c => ((c_connectedUserId c =? b) && status_eqb (c_status c) pending)
                     && negb (c_id c =? cid)) rows.
Proof.
  intro N. apply status_eqb_neq in N.
  induction rows as [|r rows IH]; simpl; [reflexivity|].
  destruct (c_id r =? cid) eqn:E; simpl.
  - rewrite N, !andb_false_r. exact IH.
  - rewrite andb_true_r, IH. reflexivity.
Qed.

Lemma filter_without_found (q : Connection -> bool) cid rows c0 :
  NoDup (map c_id rows) ->
  find (fun c => c_id c =? cid) rows = Some c0 ->
  List.length (filter q rows)
  = Nat.add (if q c0 then 1%nat else 0%nat)
            (List.length (filter (fun c => q c && negb (c_id c =? cid)) rows)).
Proof.
  induction rows as [|r rows IH]; simpl; intros ND F; [discriminate F|].
  inversion ND as [|x xs Hnotin ND']; subst.
  destruct (c_id r =? cid) eqn:E.
  - injection F as <-. rewrite andb_false_r. apply Z.eqb_eq in E.
    assert (R : filter (fun c => q c && negb (c_id c =? cid)) rows = filter q rows).
    { apply filter_ext_in. intros c Hc.
      assert (c_id c <> cid) by (intro Q; apply Hnotin; rewrite E, <- Q; now apply in_map).
      apply Z.eqb_neq in H. rewrite H. apply andb_true_r. }
    rewrite R. destruct (q r); reflexivity.
  - rewrite andb_true_r. specialize (IH ND' F).
    destruct (q r); simpl; rewrite IH; lia.
Qed.

(** X5.  Once the recipient has accepted or rejected a pending request,
    the recipient's list of connection requests is one entry shorter,
    and the request lists of all other users are as long as before. *)
Theorem settled_request_leaves_the_list :
  forall now db u cid c0 b,
    connections_wf db ->
    find (fun c => c_id c =? cid) (connections db) = Some c0 ->
    c_connectedUserId c0 = au_id u ->
    c_status c0 = pending ->
    let requests := fun d => List.length (result_of [] (getConnectionRequests b d)) in
    let after_accept := fst (accept_handler now (Some u) (Some cid) db) in
    let after_reject := fst (reject_handler now (Some u) (Some cid) db) in
    (b = au_id u ->
       (requests after_accept + 1 = requests db)%nat /\
       (requests after_reject + 1 = requests db)%nat) /\
    (b <> au_id u ->
       requests after_accept = requests db /\ requests after_reject = requests db).
Proof.
  intros now db u cid c0 b [ND _] F R P requests after_accept after_reject.
  assert (G : forall st, st <> pending ->
            requests (store_after (updateConnectionStatus now cid st db))
            = List.length
                (filter (fun c => ((c_connectedUserId c =? b)
                                   && status_eqb (c_status c) pending)
                                  && negb (c_id c =? cid)) (connections db))).
  { intros st N. unfold requests, getConnectionRequests, query, result_of.
    rewrite length_map. simpl connections. now rewrite pending_for_after_update. }
  assert (Before : requests db
            = Nat.add
                (if (c_connectedUserId c0 =? b) && status_eqb (c_status c0) pending
                 then 1%nat else 0%nat)
                (List.length
                   (filter (fun c => ((c_connectedUserId c =? b)
                                      && status_eqb (c_status c) pending)
                                     && negb (c_id c =? cid)) (connections db)))).
  { unfold requests, getConnectionRequests, query, result_of. rewrite length_map.
    exact (filter_without_found
             (fun c => (c_connectedUserId c =? b) && status_eqb (c_status c) pending)
             cid (connections db) c0 ND F). }
  assert (Ea : after_accept = store_after (updateConnectionStatus now cid accepted db)).
  { unfold after_accept. now rewrite (accept_handler_success now u cid db c0 F R P). }
  assert (Er : after_reject = store_after (updateConnectionStatus now cid rejected db)).
  { unfold after_reject.
    now rewrite (reject_handler_success now u cid db c0 F (or_introl R) P). }
  rewrite Ea, Er, !G, Before by discriminate. rewrite P, R. simpl.
  split; intro Hb.
  - rewrite Hb, Z.eqb_refl. simpl. lia.
  - assert (Q : (au_id u =? b) = false) by (apply Z.eqb_neq; congruence).
    rewrite Q. simpl. lia.
Qed.

Lemma settled_request_leaves_the_list_witness :
  connections_wf (sample_db [pending_row]) /\
  find (fun c => c_id c =? 1) (connections (sample_db [pending_row])) = Some pending_row /\
  c_connectedUserId pending_row = au_id jane /\
  c_status pending_row = pending /\
  Nat.add (List.length (result_of [] (getConnectionRequests 2
             (fst (accept_handler 200 (Some jane) (Some 1) (sample_db [pending_row]))))))
          1%nat
  = List.length (result_of [] (getConnectionRequests 2 (sample_db [pending_row]))).
Proof.
  assert (WF : connections_wf (sample_db [pending_row])).
  { split; simpl.
    - constructor; [intros []|constructor].
    - intros x [<-|[]]. simpl. lia. }
  split; [exact WF|]. split; [reflexivity|]. split; [reflexivity|]. split; [reflexivity|].
  exact (proj1 (proj1 (settled_request_leaves_the_list 200 (sample_db [pending_row]) jane 1
                         pending_row 2 WF eq_refl eq_refl eq_refl) eq_refl)).
Defined.

(** ** Listing connections *)

Lemma status_text_eqb a b : String.eqb (status_text a) (status_text b) = status_eqb a b.
Proof. destruct a, b; reflexivity. Qed.

Lemma status_text_nonempty st : String.eqb (status_text st) "" = false.
Proof. destruct st; reflexivity. Qed.

Lemma status_text_listed st :
  existsb (String.eqb (status_text st)) ["pending"; "accepted"; "rejected"]%string = true.
Proof. destruct st; reflexivity. Qed.

Lemma unlisted_status s :
  (forall st, s <> status_text st) ->
  existsb (String.eqb s) ["pending"; "accepted"; "rejected"]%string = false.
Proof.
  intro N. apply not_true_is_false. intro E.
  apply existsb_exists in E as [x [Hx E]]. apply String.eqb_eq in E. subst x.
  destruct Hx as [<-|[<-|[<-|[]]]];
    [apply (N pending)|apply (N accepted)|apply (N rejected)]; reflexivity.
Qed.

(** X6.  [GET /api/connections] for an authenticated user: with one of
    the three status names as filter it lists, in table order, exactly
    the rows that involve the user (as initiator or recipient) and have
    that status; with no filter or an empty one, all rows that involve the
    user; any other filter is refused with 400.  Each listed row carries
    the two users its ids refer to. *)
Theorem connections_listing_filter :
  forall db u,
    let involved := fun c => (c_userId c =? au_id u) || (c_connectedUserId c =? au_id u) in
    let load := fun c => mkConnectionWithUsers c (related_user db (c_userId c))
                                               (related_user db (c_connectedUserId c)) in
    (forall st,
       connections_handler (Some u) (Some (status_text st)) db
       = Rows (map load (filter (fun c => involved c && status_eqb (c_status c) st)
                                (connections db)))) /\
    connections_handler (Some u) None db = Rows (map load (filter involved (connections db))) /\
    connections_handler (Some u) (Some EmptyString) db
    = Rows (map load (filter involved (connections db))) /\
    (forall s, s <> EmptyString -> (forall st, s <> status_text st) ->
       connections_handler (Some u) (Some s) db
       = Refused (mkResponse 400 (Message "Invalid status filter."))).
Proof.
  intros db u involved load. split; [|split; [|split]].
  - intro st. unfold connections_handler.
    rewrite status_text_nonempty, status_text_listed. simpl.
    unfold getConnectionsForUser, query, result_of.
    rewrite status_text_nonempty. f_equal. f_equal.
    apply filter_ext. intro c. fold (involved c). now rewrite status_text_eqb.
  - reflexivity.
  - reflexivity.
  - intros s NE NS. unfold connections_handler.
    apply String.eqb_neq in NE. rewrite NE, (unlisted_status s NS). reflexivity.
Qed.

(** X7.  The three status filters split a user's connections: every row
    listed without a filter is listed under exactly one of "pending",
    "accepted" and "rejected", and the three filtered lists together are
    as long as the unfiltered one. *)
Theorem connections_listing_partition :
  forall db a,
    let listed := fun status =>
      map cw_connection (result_of [] (getConnectionsForUser a status db)) in
    let by_status := fun st => listed (Some (status_text st)) in
    (forall c, In c (listed None) <-> In c (by_status (c_status c))) /\
    (forall c st, In c (by_status st) -> c_status c = st /\ In c (listed None)) /\
    List.length (listed None)
    = (List.length (by_status pending) + List.length (by_status accepted)
       + List.length (by_status rejected))%nat.
Proof.
  intros db a listed by_status.
  set (involved := fun c => (c_userId c =? a) || (c_connectedUserId c =? a)).
  assert (A : listed None = filter involved (connections db)).
  { unfold listed, getConnectionsForUser, query, result_of.
    rewrite map_map. simpl. apply map_id. }
  assert (B : forall st, by_status st
                = filter (fun c => involved c && status_eqb (c_status c) st)
                         (connections db)).
  { intro st. unfold by_status, listed, getConnectionsForUser, query, result_of.
    rewrite status_text_nonempty, map_map. simpl. rewrite map_id.
    apply filter_ext. intro c. fold (involved c). now rewrite status_text_eqb. }
  rewrite A, !B. split; [|split].
  - intro c. rewrite B, !filter_In, andb_true_iff, status_eqb_eq. tauto.
  - intros c st H. rewrite B in H. apply filter_In in H as [Hc Q].
    apply andb_true_iff in Q as [Q1 Q2]. apply status_eqb_eq in Q2.
    split; [exact Q2|]. apply filter_In. split; assumption.
  - clear A B. induction (connections db) as [|r rows IH]; simpl; [reflexivity|].
    destruct (involved r); simpl; [|exact IH].
    destruct (c_status r); simpl; rewrite IH; lia.
Qed.

Lemma connections_listing_filter_witness :
  "done"%string <> EmptyString /\
  (forall st, "done"%string <> status_text st) /\
  connections_handler (Some jane) (Some "done"%string) (sample_db [pending_row])
  = Refused (mkResponse 400 (Message "Invalid status filter.")).
Proof.
  assert (N1 : "done"%string <> EmptyString) by discriminate.
  assert (N2 : forall st, "done"%string <> status_text st)
    by (intros [| |]; discriminate).
  split; [exact N1|]. split; [exact N2|].
  exact (proj2 (proj2 (proj2 (connections_listing_filter (sample_db [pending_row]) jane)))
           "done"%string N1 N2).
Defined.

Lemma connections_listing_partition_witness :
  In pending_row
     (map cw_connection
          (result_of [] (getConnectionsForUser 2 None (sample_db [pending_row; accepted_row])))) /\
  In pending_row
     (map cw_connection
          (result_of [] (getConnectionsForUser 2 (Some (status_text pending))
                           (sample_db [pending_row; accepted_row])))).
Proof.
  assert (H : In pending_row
                 (map cw_connection
                      (result_of [] (getConnectionsForUser 2 None
                                       (sample_db [pending_row; accepted_row])))))
    by (left; reflexivity).
  split; [exact H|].
  exact (proj1 (proj1 (connections_listing_partition (sample_db [pending_row; accepted_row]) 2)
                  pending_row) H).
Defined.

(** ** Requests are never refused or merged *)

(** X8.  Connection requests between existing users are never refused and
    never merged: whatever rows the table already holds, a run of such
    requests appends one pending row per request, in order, with
    consecutive ids.  Repeating a request, or sending the opposite one,
    therefore adds a further row between the same two users. *)
Theorem requests_are_never_merged :
  forall reqs db,
    (forall r, In r reqs ->
       user_exists db (au_id (fst (snd r))) = true /\ user_exists db (snd (snd r)) = true) ->
    connections (run (as_requests reqs) db)
    = connections db ++ requested_rows (connections_seq db) reqs /\
    connections_seq (run (as_requests reqs) db)
    = connections_seq db + Z.of_nat (List.length reqs).
Proof.
  induction reqs as [|[now [u t]] reqs IH]; intros db Ex; simpl.
  - rewrite app_nil_r. split; [reflexivity|lia].
  - destruct (Ex (now, (u, t)) (or_introl eq_refl)) as [Eu Et]. simpl in Eu, Et.
    rewrite connect_handler_result, Eu, Et. simpl fst.
    set (db1 := set_connections _ _ db).
    destruct (IH db1) as [R S].
    { intros r Hr. apply (Ex r). now right. }
    rewrite R, S. unfold db1. simpl. rewrite <- app_assoc. simpl.
    split; [reflexivity|lia].
Qed.

Lemma requests_are_never_merged_witness :
  (forall r, In r [(100, (john, 2)); (200, (john, 2)); (300, (jane, 1))] ->
     user_exists (sample_db [pending_row]) (au_id (fst (snd r))) = true /\
     user_exists (sample_db [pending_row]) (snd (snd r)) = true) /\
  connections (run (as_requests [(100, (john, 2)); (200, (john, 2)); (300, (jane, 1))])
                   (sample_db [pending_row]))
  = [pending_row; mkConnection 5 1 2 pending 100 100; mkConnection 6 1 2 pending 200 200;
     mkConnection 7 2 1 pending 300 300].
Proof.
  assert (Ex : forall r, In r [(100, (john, 2)); (200, (john, 2)); (300, (jane, 1))] ->
             user_exists (sample_db [pending_row]) (au_id (fst (snd r))) = true /\
             user_exists (sample_db [pending_row]) (snd (snd r)) = true).
  { intros r [<-|[<-|[<-|[]]]]; split; reflexivity. }
  split; [exact Ex|].
  exact (proj1 (requests_are_never_merged
                  [(100, (john, 2)); (200, (john, 2)); (300, (jane, 1))]
                  (sample_db [pending_row]) Ex)).
Defined.

(** ** Status codes of the connection handlers *)

(** X9.  The connect handler answers 201 exactly when the request is
    authenticated, its target is an integer, and both users exist; then
    the new row is pending and is what the response carries.  Otherwise
    no row is added, and the answer is 401 without a user, 400 for a
    missing or non-integer target, and 500 when a user does not exist. *)
Theorem connect_handler_answers :
  forall now user target db,
    let out := connect_handler now user target db in
    (res_status (snd out) = 201 <->
     exists u t, user = Some u /\ target = Some t /\
       user_exists db (au_id u) = true /\ user_exists db t = true) /\
    (forall u t, user = Some u -> target = Some t ->
       user_exists db (au_id u) = true -> user_exists db t = true ->
       res_body (snd out)
       = ConnectionJson
           (Some (mkConnection (connections_seq db) (au_id u) t pending now now)) /\
       connections (fst out)
       = connections db ++ [mkConnection (connections_seq db) (au_id u) t pending now now]) /\
    (res_status (snd out) <> 201 -> connections (fst out) = connections db) /\
    (user = None -> res_status (snd out) = 401) /\
    (user <> None -> target = None -> res_status (snd out) = 400) /\
    (forall u t, user = Some u -> target = Some t ->
       user_exists db (au_id u) = false \/ user_exists db t = false ->
       res_status (snd out) = 500).
Proof.
  intros now user target db out. subst out.
  destruct user as [u|]; [destruct target as [t|]|].
  - rewrite connect_handler_result.
    assert (Refused500 :
      user_exists db (au_id u) && user_exists db t = false ->
      forall out,
        out = (set_connections (connections db) (connections_seq db + 1) db,
               mkResponse 500 (ErrorMessage fk_violation)) ->
        (res_status (snd out) = 201 <->
         exists u' t', Some u = Some u' /\ Some t = Some t' /\
           user_exists db (au_id u') = true /\ user_exists db t' = true) /\
        (forall u' t', Some u = Some u' -> Some t = Some t' ->
           user_exists db (au_id u') = true -> user_exists db t' = true ->
           res_body (snd out)
           = ConnectionJson
               (Some (mkConnection (connections_seq db) (au_id u') t' pending now now)) /\
           connections (fst out)
           = connections db
               ++ [mkConnection (connections_seq db) (au_id u') t' pending now now]) /\
        (res_status (snd out) <> 201 -> connections (fst out) = connections db) /\
        (Some u = None -> res_status (snd out) = 401) /\
        (Some u <> None -> Some t = None -> res_status (snd out) = 400) /\
        (forall u' t', Some u = Some u' -> Some t = Some t' ->
           user_exists db (au_id u') = false \/ user_exists db t' = false ->
           res_status (snd out) = 500)).
    { intros B out ->. simpl. split; [split|].
      - discriminate.
      - intros [u' [t' [Q1 [Q2 [X1 X2]]]]]. injection Q1 as <-. injection Q2 as <-.
        rewrite X1, X2 in B. discriminate B.
      - split.
        + intros u' t' Q1 Q2 X1 X2. injection Q1 as <-. injection Q2 as <-.
          rewrite X1, X2 in B. discriminate B.
        + split; [reflexivity|]. split; [discriminate|].
          split; [intros _ Q; discriminate Q|]. reflexivity. }
    destruct (user_exists db (au_id u) && user_exists db t) eqn:B.
    + apply andb_true_iff in B as [Eu Et]. simpl. split; [split|].
      * intros _. exists u, t. auto.
      * reflexivity.
      * split.
        -- intros u' t' Q1 Q2 _ _. injection Q1 as <-. injection Q2 as <-.
           split; reflexivity.
        -- split; [intro N; exfalso; apply N; reflexivity|]. split; [discriminate|].
           split; [intros _ Q; discriminate Q|].
           intros u' t' Q1 Q2 X. injection Q1 as <-. injection Q2 as <-.
           destruct X; congruence.
    + now apply Refused500.
  - simpl. split; [split; [discriminate|intros [u' [t' [_ [Q _]]]]; discriminate Q]|].
    split; [intros u' t' _ Q; discriminate Q|]. split; [reflexivity|].
    split; [discriminate|]. split; [reflexivity|]. intros u' t' _ Q. discriminate Q.
  - simpl. split; [split; [discriminate|intros [u' [t' [Q _]]]; discriminate Q]|].
    split; [intros u' t' Q; discriminate Q|]. split; [reflexivity|].
    split; [reflexivity|]. split; [intro N; now contradiction N|].
    intros u' t' Q. discriminate Q.
Qed.

Lemma connect_handler_answers_witness :
  user_exists (sample_db []) (au_id john) = true /\
  user_exists (sample_db []) 9 = false /\
  res_status (snd (connect_handler 100 (Some john) (Some 9) (sample_db []))) = 500 /\
  connections (fst (connect_handler 100 (Some john) (Some 9) (sample_db []))) = [].
Proof.
  split; [reflexivity|]. split; [reflexivity|]. split; [|reflexivity].
  exact (proj2 (proj2 (proj2 (proj2 (proj2
           (connect_handler_answers 100 (Some john) (Some 9) (sample_db []))))))
           john 9 eq_refl eq_refl (or_intror eq_refl)).
Defined.

Lemma integer_parameter_int4 p :
  int4 p = true -> integer_parameter (Some p) = inr p.
Proof. intro H. unfold integer_parameter. now rewrite H. Qed.

Lemma integer_parameter_refused k :
  match k with Some z => int4 z = false | None => True end ->
  exists e, integer_parameter k = inl e /\ res_status (handleErrors e) = 500.
Proof.
  destruct k as [z|]; unfold integer_parameter.
  - intros ->. destruct (Z.abs z <? 10 ^ 21); eexists; split; reflexivity.
  - intros _. eexists; split; reflexivity.
Qed.




(** ** The bearer token *)

Lemma split_space_no_space w : no_space w = true -> split_space w = [w].
Proof.
  induction w as [|ch w IH]; simpl; [reflexivity|].
  intro H. apply andb_true_iff in H as [H1 H2]. apply negb_true_iff in H1.
  rewrite H1, (IH H2). reflexivity.
Qed.

Lemma split_space_app w s :
  no_space w = true ->
  split_space (w ++ String " "%char s) = w :: split_space s.
Proof.
  induction w as [|ch w IH]; simpl; [reflexivity|].
  intro H. apply andb_true_iff in H as [H1 H2]. apply negb_true_iff in H1.
  rewrite H1, (IH H2). reflexivity.
Qed.

Lemma with_space_nonempty w s : String.eqb (w ++ String " "%char s) "" = false.
Proof. destruct w; reflexivity. Qed.

(** X11.  [authenticateJWT] looks only at the second space-separated
    word of the [Authorization] header.  Whatever the first word is
    ("Bearer" or anything else, even nothing) and whatever follows a
    second space, the request passes exactly when that second word
    verifies, and is answered 403 otherwise; a non-empty header without
    any space hands no token to the verifier. *)
Theorem only_the_second_word_is_verified :
  forall jwt_verify scheme token,
    no_space scheme = true ->
    no_space token = true ->
    let verdict := fun t =>
      match jwt_verify t with
      | Some user => Next (Some user)
      | None => sendStatus 403
      end in
    authenticateJWT jwt_verify (Some (scheme ++ " " ++ token)%string) = verdict (Some token) /\
    (forall rest,
       authenticateJWT jwt_verify (Some (scheme ++ " " ++ token ++ " " ++ rest)%string)
       = verdict (Some token)) /\
    (scheme <> EmptyString ->
       authenticateJWT jwt_verify (Some scheme) = verdict None).
Proof.
  intros jwt_verify scheme token Hs Ht verdict. unfold authenticateJWT.
  split; [|split].
  - change (scheme ++ " " ++ token)%string with (scheme ++ String " "%char token)%string.
    rewrite with_space_nonempty, (split_space_app _ _ Hs), (split_space_no_space _ Ht).
    reflexivity.
  - intro rest.
    change (scheme ++ " " ++ token ++ " " ++ rest)%string
      with (scheme ++ String " "%char (token ++ String " "%char rest))%string.
    rewrite with_space_nonempty, (split_space_app _ _ Hs), (split_space_app _ _ Ht).
    reflexivity.
  - intro NE. apply String.eqb_neq in NE. rewrite NE, (split_space_no_space _ Hs).
    reflexivity.
Qed.

Lemma only_the_second_word_is_verified_witness :
  no_space "Basic" = true /\
  no_space "tok-john" = true /\
  authenticateJWT sample_verify (Some "Basic tok-john"%string) = Next (Some john).
Proof.
  split; [reflexivity|]. split; [reflexivity|].
  exact (proj1 (only_the_second_word_is_verified sample_verify "Basic" "tok-john"
                  eq_refl eq_refl)).
Defined.

(** X12.  A role-gated route lets a request through only with a verified
    token whose role is allowed: the gate calls [next()] exactly when the
    header is present and not empty, its token verifies, and the role in
    the token is not empty and is one of the allowed roles; [req.user] is
    then the verified payload. *)
Theorem gate_passes_iff :
  forall jwt_verify allowedRoles authorization passed,
    gate jwt_verify allowedRoles authorization = Next passed <->
    exists authHeader user,
      authorization = Some authHeader /\ authHeader <> EmptyString /\
      jwt_verify (nth_error (split_space authHeader) 1) = Some user /\
      au_role user <> EmptyString /\ In (au_role user) allowedRoles /\
      passed = Some user.
Proof.
  intros jwt_verify allowedRoles authorization passed.
  unfold gate, authenticateJWT, authorizeRoles, sendStatus. split.
  - destruct authorization as [h|]; [|discriminate].
    destruct (String.eqb_spec h "") as [->|NE]; [discriminate|].
    destruct (jwt_verify (nth_error (split_space h) 1)) as [user|] eqn:V; [|discriminate].
    destruct (String.eqb_spec (au_role user) "") as [Z0|NZ]; [discriminate|].
    destruct (existsb (String.eqb (au_role user)) allowedRoles) eqn:Ex; [|discriminate].
    simpl. intro H. injection H as <-. exists h, user. repeat split; try assumption.
    apply existsb_exists in Ex as [r [Hr E]]. apply String.eqb_eq in E. now subst r.
  - intros [h [user [-> [NE [V [NZ [Hr ->]]]]]]].
    apply String.eqb_neq in NE, NZ. rewrite NE, V, NZ.
    assert (Ex : existsb (String.eqb (au_role user)) allowedRoles = true).
    { apply existsb_exists. exists (au_role user). split; [exact Hr|apply String.eqb_refl]. }
    rewrite Ex. reflexivity.
Qed.

Lemma gate_passes_iff_witness :
  gate sample_verify ["Doctor"%string] (Some "Bearer tok-john"%string) = Next (Some john) /\
  gate sample_verify ["Doctor"%string] (Some "Bearer tok-michael"%string)
  <> Next (Some michael).
Proof.
  split.
  - apply (proj2 (gate_passes_iff sample_verify ["Doctor"%string]
                    (Some "Bearer tok-john"%string) (Some john))).
    exists "Bearer tok-john"%string, john. repeat split; try discriminate.
    left. reflexivity.
  - discriminate.
Defined.

(** ** Likes *)

Lemma filter_all {A} (q : A -> bool) (l : list A) :
  (forall x, In x l -> q x = true) -> filter q l = l.
Proof.
  induction l as [|x l IH]; simpl; intro H; [reflexivity|].
  rewrite (H x (or_introl eq_refl)). f_equal. apply IH. intros y Hy. apply H. now right.
Qed.

(** The like rows the like handler leaves behind, and its answer. *)
Lemma like_handler_rows now u p db :
  let out := like_handler now (Some u) (Some p) db in
  likes (fst out)
  = (if has_like db p (au_id u)
     then filter (fun l => negb (like_of p (au_id u) l)) (likes db)
     else if post_exists db p && user_exists db (au_id u)
          then likes db ++ [mkLike (likes_seq db) p (au_id u) now]
          else likes db) /\
  snd out
  = (if has_like db p (au_id u)
     then mkResponse 200
            (LikeJson "Post unliked successfully." false None
               (List.length (filter (fun l => l_postId l =? p) (likes (fst out)))))
     else if post_exists db p && user_exists db (au_id u)
          then mkResponse 200
                 (LikeJson "Post liked successfully." true
                    (Some (LikeRow (mkLike (likes_seq db) p (au_id u) now)))
                    (List.length (filter (fun l => l_postId l =? p) (likes (fst out)))))
          else mkResponse 500 (Message "Failed to create like.")).
Proof.
  unfold like_handler, handler, bind, createLike, insert_like, has_like.
  destruct (existsb (like_of p (au_id u)) (likes db)); simpl; [split; reflexivity|].
  destruct (post_exists db p && user_exists db (au_id u)); simpl; split; reflexivity.
Qed.

Lemma like_key_of p u l : like_of p u l = true <-> like_key l = (p, u).
Proof.
  unfold like_of, like_key. rewrite andb_true_iff, !Z.eqb_eq.
  split; [intros [-> ->]; reflexivity | intro E; inversion E; auto].
Qed.

Lemma unlike_removes_one p u rows :
  NoDup (map like_key rows) ->
  existsb (like_of p u) rows = true ->
  List.length (filter (fun l => l_postId l =? p) rows)
  = S (List.length (filter (fun l => l_postId l =? p)
                           (filter (fun l => negb (like_of p u l)) rows))).
Proof.
  induction rows as [|r rows IH]; simpl; intros ND Ex; [discriminate Ex|].
  inversion ND as [|x xs Hnotin ND']; subst.
  destruct (like_of p u r) eqn:E; simpl.
  - assert (P : (l_postId r =? p) = true)
      by (unfold like_of in E; now apply andb_true_iff in E as [E _]).
    assert (R : filter (fun l => negb (like_of p u l)) rows = rows).
    { apply filter_all. intros l Hl. apply negb_true_iff.
      apply not_true_is_false. intro Q. apply Hnotin.
      apply like_key_of in E, Q. rewrite E, <- Q. now apply in_map. }
    rewrite P, R. reflexivity.
  - simpl in Ex. specialize (IH ND' Ex).
    destruct (l_postId r =? p); simpl; rewrite IH; reflexivity.
Qed.

(** X13.  The [likesCount] of a like response is the number of like rows
    of the post after the call.  On a table that respects the unique
    index it is one more than before when the call likes the post and one
    less than before when it unlikes it. *)
Theorem like_count_moves_by_one :
  forall now db u p,
    likes_unique db ->
    let out := like_handler now (Some u) (Some p) db in
    let before := List.length (result_of [] (getLikesForPost p db)) in
    (forall n, likes_count (snd out) = Some n ->
       n = List.length (result_of [] (getLikesForPost p (fst out)))) /\
    (has_like db p (au_id u) = false ->
     post_exists db p = true -> user_exists db (au_id u) = true ->
       likes_count (snd out) = Some (S before)) /\
    (has_like db p (au_id u) = true ->
       S (match likes_count (snd out) with Some n => n | None => 0 end) = before /\
       likes_count (snd out) <> None).
Proof.
  intros now db u p U out before.
  destruct (like_handler_rows now u p db) as [R A]. fold out in R, A.
  unfold getLikesForPost, query, result_of in *.
  split; [|split].
  - intros n H. rewrite A in H.
    destruct (has_like db p (au_id u));
      [|destruct (post_exists db p && user_exists db (au_id u))];
      simpl in H; try discriminate H; now injection H as <-.
  - intros HL HP HU. rewrite A, HL, HP, HU. unfold likes_count. simpl. f_equal.
    rewrite R, HL, HP, HU. simpl. rewrite filter_app, length_app. simpl.
    rewrite Z.eqb_refl. simpl. unfold before. lia.
  - intros HL. rewrite A, HL. unfold likes_count. simpl. split; [|discriminate].
    rewrite R, HL. unfold before. symmetry. now apply unlike_removes_one.
Qed.

Lemma like_count_moves_by_one_witness :
  likes_unique (sample_db []) /\
  has_like (sample_db []) 10 (au_id jane) = false /\
  post_exists (sample_db []) 10 = true /\
  user_exists (sample_db []) (au_id jane) = true /\
  likes_count (snd (like_handler 100 (Some jane) (Some 10) (sample_db []))) = Some 1%nat.
Proof.
  assert (U : likes_unique (sample_db [])) by constructor.
  split; [exact U|]. split; [reflexivity|]. split; [reflexivity|]. split; [reflexivity|].
  exact (proj1 (proj2 (like_count_moves_by_one 100 (sample_db []) jane 10 U))
           eq_refl eq_refl eq_refl).
Defined.

(** X14.  Liking and then unliking is a round trip on the like rows: for
    an existing post and user with no like row between them, two calls of
    the like endpoint leave the [likes] table with exactly the rows it had
    before. *)
Theorem like_then_unlike_restores_rows :
  forall now1 now2 db u p,
    post_exists db p = true ->
    user_exists db (au_id u) = true ->
    has_like db p (au_id u) = false ->
    likes (fst (like_handler now2 (Some u) (Some p)
                  (fst (like_handler now1 (Some u) (Some p) db))))
    = likes db.
Proof.
  intros now1 now2 db u p HP HU HL.
  destruct (like_when_absent now1 db u p HP HU HL) as [_ [_ [L1 [R1 _]]]].
  destruct (like_when_present now2 _ u p L1) as [_ [_ [_ [_ [R2 _]]]]].
  rewrite R2, R1, filter_app. simpl.
  unfold like_of at 2. simpl. rewrite !Z.eqb_refl. simpl. rewrite app_nil_r.
  apply filter_all.
  intros l Hl. apply negb_true_iff, not_true_is_false. intro Q.
  unfold has_like in HL. assert (X : existsb (like_of p (au_id u)) (likes db) = true)
    by (apply existsb_exists; now exists l).
  congruence.
Qed.

Lemma like_then_unlike_restores_rows_witness :
  post_exists (sample_db []) 10 = true /\
  user_exists (sample_db []) (au_id jane) = true /\
  has_like (sample_db []) 10 (au_id jane) = false /\
  likes (fst (like_handler 200 (Some jane) (Some 10)
                (fst (like_handler 100 (Some jane) (Some 10) (sample_db [])))))
  = likes (sample_db []).
Proof.
  split; [reflexivity|]. split; [reflexivity|]. split; [reflexivity|].
  exact (like_then_unlike_restores_rows 100 200 (sample_db []) jane 10
           eq_refl eq_refl eq_refl).
Defined.

(** X15.  A like that cannot be stored fails cleanly: for an
    authenticated user with no like row for the post, if the post or the
    user does not exist the endpoint answers 500 with the message "Failed
    to create like." and the [likes] table keeps its rows. *)
Theorem like_of_missing_post_fails :
  forall now db u p,
    has_like db p (au_id u) = false ->
    post_exists db p = false \/ user_exists db (au_id u) = false ->
    let out := like_handler now (Some u) (Some p) db in
    snd out = mkResponse 500 (Message "Failed to create like.") /\
    likes (fst out) = likes db /\
    has_like (fst out) p (au_id u) = false.
Proof.
  intros now db u p HL Missing out.
  destruct (like_handler_rows now u p db) as [R A]. fold out in R, A.
  assert (FK : post_exists db p && user_exists db (au_id u) = false).
  { destruct Missing as [M|M]; rewrite M; [reflexivity|apply andb_false_r]. }
  rewrite HL, FK in R, A. split; [exact A|]. split; [exact R|].
  unfold has_like in *. now rewrite R.
Qed.

Lemma like_of_missing_post_fails_witness :
  has_like (sample_db []) 99 (au_id jane) = false /\
  post_exists (sample_db []) 99 = false /\
  snd (like_handler 100 (Some jane) (Some 99) (sample_db []))
  = mkResponse 500 (Message "Failed to create like.").
Proof.
  split; [reflexivity|]. split; [reflexivity|].
  exact (proj1 (like_of_missing_post_fails 100 (sample_db []) jane 99 eq_refl
                  (or_introl eq_refl))).
Defined.

Lemma filter_after_removal {A} (q r : A -> bool) (l : list A) :
  (forall x, q x = true -> r x = false) ->
  filter q (filter (fun x => negb (r x)) l) = filter q l.
Proof.
  intro H. induction l as [|x l IH]; simpl; [reflexivity|].
  destruct (r x) eqn:Rx; simpl.
  - destruct (q x) eqn:Qx; [|exact IH]. rewrite (H x Qx) in Rx. discriminate Rx.
  - now rewrite IH.
Qed.

(** X16.  The like endpoint touches the rows of one pair only and keeps
    the unique index: for any other (post, user) pair the like rows are
    the same before and after a call, and a table without two rows for a
    pair stays so. *)
Theorem like_leaves_other_pairs :
  forall now db u p,
    let out := like_handler now (Some u) (Some p) db in
    (forall p' u', (p', u') <> (p, au_id u) ->
       filter (like_of p' u') (likes (fst out)) = filter (like_of p' u') (likes db)) /\
    (likes_unique db -> likes_unique (fst out)).
Proof.
  intros now db u p out.
  destruct (like_handler_rows now u p db) as [R _]. fold out in R.
  split.
  - intros p' u' N. rewrite R.
    destruct (has_like db p (au_id u));
      [|destruct (post_exists db p && user_exists db (au_id u)); [|reflexivity]].
    + apply filter_after_removal. intros l Q. apply not_true_is_false. intro Q'.
      apply like_key_of in Q, Q'. congruence.
    + rewrite filter_app. simpl.
      assert (F : like_of p' u' (mkLike (likes_seq db) p (au_id u) now) = false).
      { apply not_true_is_false. intro Q. apply like_key_of in Q.
        unfold like_key in Q. simpl in Q. congruence. }
      rewrite F. apply app_nil_r.
  - unfold likes_unique. intro U. rewrite R.
    destruct (has_like db p (au_id u)) eqn:HL;
      [|destruct (post_exists db p && user_exists db (au_id u)); [|exact U]].
    + now apply NoDup_map_filter.
    + rewrite map_app. simpl. apply NoDup_app; [exact U| |].
      * constructor; [intros []|constructor].
      * intros k Hk [<-|[]]. apply in_map_iff in Hk as [l [K Hl]].
        assert (Q : like_of p (au_id u) l = true) by (apply like_key_of; exact K).
        unfold has_like in HL.
        assert (X : existsb (like_of p (au_id u)) (likes db) = true)
          by (apply existsb_exists; now exists l).
        congruence.
Qed.

Lemma like_leaves_other_pairs_witness :
  (10, 1) <> (10, au_id jane) /\
  filter (like_of 10 1)
         (likes (fst (like_handler 100 (Some jane) (Some 10) liked_by_john)))
  = filter (like_of 10 1) (likes liked_by_john).
Proof.
  assert (N : (10, 1) <> (10, au_id jane)) by discriminate.
  split; [exact N|].
  exact (proj1 (like_leaves_other_pairs 100 liked_by_john jane 10) 10 1 N).
Defined.

(** ** Saving posts *)

(** What [savePost] does, case by case. *)
Lemma savePost_outcome u p b db :
  savePost u p b db =
  match find (saved_of p u) (savedPosts db), b with
  | Some _, true => Returns tt db
  | None, true =>
      if post_exists db p && user_exists db u
      then Returns tt (set_savedPosts
                         (savedPosts db ++ [mkSavedPost (savedPosts_seq db) p u])
                         (savedPosts_seq db + 1) db)
      else Throws fk_violation
                  (set_savedPosts (savedPosts db) (savedPosts_seq db + 1) db)
  | Some existing, false =>
      Returns tt (set_savedPosts
                    (filter (fun sp => negb (sp_id sp =? sp_id existing)) (savedPosts db))
                    (savedPosts_seq db) db)
  | None, false => Returns tt db
  end.
Proof.
  unfold savePost, bind, query.
  destruct (find (saved_of p u) (savedPosts db)) as [e|], b; reflexivity.
Qed.

Lemma has_saved_find db p u :
  has_saved db p u = match find (saved_of p u) (savedPosts db) with
                     | Some _ => true
                     | None => false
                     end.
Proof.
  unfold has_saved. destruct (find (saved_of p u) (savedPosts db)) as [e|] eqn:F.
  - apply find_some in F as [He Q]. apply existsb_exists. now exists e.
  - apply not_true_is_false. intro X. apply existsb_exists in X as [x [Hx Q]].
    rewrite (find_none _ _ F x Hx) in Q. discriminate Q.
Qed.

(** X17.  Saving and then un-saving is a round trip: on a saved-posts
    table with unique ids drawn from the sequence and at most one row per
    pair, for an existing post and user whose pair has no row, [savePost]
    with the flag set followed by [savePost] with the flag clear leaves
    exactly the rows the table had before. *)
Theorem save_then_unsave_restores_rows :
  forall db u p,
    savedPosts_wf db ->
    has_saved db p u = false ->
    post_exists db p = true ->
    user_exists db u = true ->
    has_saved (store_after (savePost u p true db)) p u = true /\
    savedPosts (store_after (savePost u p false (store_after (savePost u p true db))))
    = savedPosts db.
Proof.
  intros db u p [_ [LT _]] HS HP HU.
  rewrite has_saved_find in HS.
  destruct (find (saved_of p u) (savedPosts db)) as [e|] eqn:F; [discriminate HS|].
  assert (New : saved_of p u (mkSavedPost (savedPosts_seq db) p u) = true)
    by (apply saved_of_key; reflexivity).
  rewrite (savePost_outcome u p true db), F, HP, HU. simpl store_after.
  split.
  - unfold has_saved. simpl. rewrite existsb_app. simpl. rewrite New. apply orb_true_r.
  - rewrite savePost_outcome. simpl savedPosts.
    rewrite (find_app_new _ _ _ F New). simpl.
    rewrite filter_app. simpl. rewrite Z.eqb_refl. simpl. rewrite app_nil_r.
    apply filter_all. intros sp Hs. apply negb_true_iff, Z.eqb_neq.
    specialize (LT sp Hs). lia.
Qed.

Lemma save_then_unsave_restores_rows_witness :
  savedPosts_wf saved_by_john /\
  has_saved saved_by_john 10 2 = false /\
  post_exists saved_by_john 10 = true /\
  user_exists saved_by_john 2 = true /\
  savedPosts (store_after (savePost 2 10 false (store_after (savePost 2 10 true saved_by_john))))
  = savedPosts saved_by_john.
Proof.
  assert (WF : savedPosts_wf saved_by_john).
  { repeat split; simpl.
    - constructor; [intros []|constructor].
    - intros sp [<-|[]]. simpl. lia.
    - constructor; [intros []|constructor]. }
  split; [exact WF|]. split; [reflexivity|]. split; [reflexivity|]. split; [reflexivity|].
  exact (proj2 (save_then_unsave_restores_rows saved_by_john 2 10 WF
                  eq_refl eq_refl eq_refl)).
Defined.

(** X18.  [POST /api/posts/:id/save] for an authenticated user and a post
    id that is an integer of the type of [post_id].  Asked to save a pair
    that has no row, it answers 200 and the pair is saved afterwards if
    the post and the user exist, and answers 500 leaving the rows as they
    were if not; asked to save a pair that is saved already, it answers
    200 and changes no row, whether or not the post still exists.  Asked
    to un-save, it answers 200, and on a table with unique ids and at
    most one row per pair the pair is not saved afterwards.  For an id
    that does not parse, which the handler does not test, or that is
    outside that type, the answer to either request is 500 and the store
    is as before. *)
Theorem save_handler_answers :
  forall db u p,
    int4 p = true ->
    let save := save_handler (Some u) (Some p) true db in
    let unsave := save_handler (Some u) (Some p) false db in
    (has_saved db p (au_id u) = false ->
     post_exists db p && user_exists db (au_id u) = true ->
       snd save = mkResponse 200 Success /\ has_saved (fst save) p (au_id u) = true) /\
    (has_saved db p (au_id u) = false ->
     post_exists db p && user_exists db (au_id u) = false ->
       snd save = mkResponse 500 (ErrorMessage fk_violation) /\
       savedPosts (fst save) = savedPosts db) /\
    (has_saved db p (au_id u) = true ->
       snd save = mkResponse 200 Success /\ fst save = db) /\
    snd unsave = mkResponse 200 Success /\
    (savedPosts_wf db -> has_saved (fst unsave) p (au_id u) = false) /\
    (forall postId saved,
       match postId with Some k => int4 k = false | None => True end ->
       res_status (snd (save_handler (Some u) postId saved db)) = 500 /\
       fst (save_handler (Some u) postId saved db) = db).
Proof.
  intros db u p Hp save unsave.
  assert (Es : save = match savePost (au_id u) p true db with
                      | Returns _ db' => (db', mkResponse 200 Success)
                      | Throws e db' => (db', handleErrors e)
                      end).
  { unfold save, save_handler, handler, bind.
    rewrite (integer_parameter_int4 p Hp).
    destruct (savePost (au_id u) p true db); reflexivity. }
  assert (Eu : unsave = match savePost (au_id u) p false db with
                        | Returns _ db' => (db', mkResponse 200 Success)
                        | Throws e db' => (db', handleErrors e)
                        end).
  { unfold unsave, save_handler, handler, bind.
    rewrite (integer_parameter_int4 p Hp).
    destruct (savePost (au_id u) p false db); reflexivity. }
  assert (Bad : forall postId saved,
             match postId with Some k => int4 k = false | None => True end ->
             res_status (snd (save_handler (Some u) postId saved db)) = 500 /\
             fst (save_handler (Some u) postId saved db) = db).
  { intros postId saved B.
    destruct (integer_parameter_refused postId B) as [e [E S]].
    unfold save_handler, handler, throw. rewrite E. simpl. split; [exact S|reflexivity]. }
  rewrite savePost_outcome in Es, Eu. rewrite has_saved_find.
  destruct (find (saved_of p (au_id u)) (savedPosts db)) as [e|] eqn:F.
  - rewrite Es, Eu. simpl.
    split; [discriminate|]. split; [discriminate|]. split; [split; reflexivity|].
    split; [reflexivity|]. split; [|exact Bad]. intro WF. unfold has_saved. simpl.
    rewrite (delete_found_is_delete_pair db (au_id u) p e WF F).
    apply existsb_filter_negb.
  - rewrite Eu. simpl. split; [|split; [|split; [discriminate|]]].
    + intros _ FK. rewrite Es, FK. simpl. split; [reflexivity|].
      unfold has_saved. simpl. rewrite existsb_app. simpl.
      assert (New : saved_of p (au_id u) (mkSavedPost (savedPosts_seq db) p (au_id u))
                    = true) by (apply saved_of_key; reflexivity).
      rewrite New. apply orb_true_r.
    + intros _ FK. rewrite Es, FK. simpl. split; reflexivity.
    + split; [reflexivity|]. split; [|exact Bad].
      intros _. rewrite has_saved_find, F. reflexivity.
Qed.

Lemma save_handler_answers_witness :
  int4 99 = true /\
  has_saved saved_by_john 99 (au_id jane) = false /\
  post_exists saved_by_john 99 && user_exists saved_by_john (au_id jane) = false /\
  snd (save_handler (Some jane) (Some 99) true saved_by_john)
  = mkResponse 500 (ErrorMessage fk_violation) /\
  res_status (snd (save_handler (Some jane) None false saved_by_john)) = 500 /\
  res_status (snd (save_handler (Some jane) (Some 99999999999) false saved_by_john)) = 500.
Proof.
  split; [reflexivity|]. split; [reflexivity|]. split; [reflexivity|].
  split; [|split].
  - exact (proj1 (proj1 (proj2 (save_handler_answers saved_by_john jane 99 eq_refl))
                    eq_refl eq_refl)).
  - exact (proj1 (proj2 (proj2 (proj2 (proj2 (proj2
             (save_handler_answers saved_by_john jane 99 eq_refl)))))
             None false I)).
  - exact (proj1 (proj2 (proj2 (proj2 (proj2 (proj2
             (save_handler_answers saved_by_john jane 99 eq_refl)))))
             (Some 99999999999) false eq_refl)).
Defined.

(** ** Sharing documents *)

Lemma shareDocument_no_duplicate_pair_witness :
  NoDup [2; 3] /\
  NoDup (map sharing_key (documentSharing shared_with_jane)) /\
  NoDup (map sharing_key
             (documentSharing (store_after (shareDocument 100 20 [2; 3] shared_with_jane)))).
Proof.
  assert (N1 : NoDup [2; 3]).
  { constructor; [intros [E|[]]; discriminate E|]. constructor; [intros []|constructor]. }
  assert (N2 : NoDup (map sharing_key (documentSharing shared_with_jane))).
  { constructor; [intros []|constructor]. }
  split; [exact N1|]. split; [exact N2|].
  exact (shareDocument_no_duplicate_pair 100 20 [2; 3] shared_with_jane N1 N2).
Defined.

(** What [shareDocument] does: nothing when every id is shared already,
    one insert of the remaining ids otherwise. *)
Lemma shareDocument_outcome now d userIds db :
  shareDocument now d userIds db
  = match filter (fun uid => negb (has_share db d uid)) userIds with
    | [] => Returns tt db
    | fresh => insert_documentSharing now (map (fun userId => (d, userId)) fresh) db
    end.
Proof.
  unfold shareDocument, bind, query. rewrite newShares_ids.
  destruct (filter (fun uid => negb (has_share db d uid)) userIds); reflexivity.
Qed.

Lemma share_handler_result now d userIds db :
  userIds <> [] ->
  share_handler now d userIds db
  = match shareDocument now d userIds db with
    | Returns _ db' => (db', mkResponse 200 Success)
    | Throws e db' => (db', handleErrors e)
    end.
Proof.
  intro NE. unfold share_handler, handler, bind.
  destruct userIds; [contradiction|]. simpl.
  destruct (shareDocument now d (z :: userIds) db); reflexivity.
Qed.

Lemma share_fk_all d db ids :
  forallb (fun v => document_exists db (fst v) && user_exists db (snd v))
          (map (fun userId : Z => (d, userId)) ids) = true <->
  ids = [] \/ (document_exists db d = true /\ forall uid, In uid ids -> user_exists db uid = true).
Proof.
  rewrite forallb_forall. split.
  - intro H. destruct ids as [|x ids]; [now left|]. right. split.
    + specialize (H (d, x) (or_introl eq_refl)). now apply andb_true_iff in H as [H _].
    + intros uid Hu.
      assert (I : In (d, uid) (map (fun userId : Z => (d, userId)) (x :: ids)))
        by (apply in_map_iff; now exists uid).
      specialize (H _ I). now apply andb_true_iff in H as [_ H].
  - intros [->|[D U]] v Hv; [destruct Hv|].
    apply in_map_iff in Hv as [uid [<- Hu]]. simpl. now rewrite D, (U uid Hu).
Qed.



(** X22.  A share that goes through can be read back: if the list is not
    empty, the document exists and every user id of the list names a
    user, the share endpoint answers 200, and afterwards every user of
    the list has a sharing row for the document and is among the users
    [getDocumentSharedUsers] returns for it. *)
Theorem shared_users_can_be_read_back :
  forall now d userIds db,
    userIds <> [] ->
    document_exists db d = true ->
    (forall uid, In uid userIds -> user_exists db uid = true) ->
    let out := share_handler now d userIds db in
    snd out = mkResponse 200 Success /\
    forall uid, In uid userIds ->
      has_share (fst out) d uid = true /\
      exists user, related_user db uid = Some user /\
        In (Some user) (result_of [] (getDocumentSharedUsers d (fst out))).
Proof.
  intros now d userIds db NE D U out.
  set (fresh := filter (fun uid => negb (has_share db d uid)) userIds).
  assert (FK : forallb (fun v => document_exists db (fst v) && user_exists db (snd v))
                       (map (fun userId : Z => (d, userId)) fresh) = true).
  { apply share_fk_all. right. split; [exact D|].
    intros uid Hu. apply U. now apply filter_In in Hu as [Hu _]. }
  assert (Q : out = (store_after (shareDocument now d userIds db), mkResponse 200 Success)).
  { unfold out. rewrite (share_handler_result _ _ _ _ NE), shareDocument_outcome.
    fold fresh. destruct fresh as [|x xs] eqn:E; [reflexivity|].
    unfold insert_documentSharing. rewrite FK. reflexivity. }
  destruct (shareDocument_rows now d userIds db) as [Us [_ R]].
  fold fresh in R. rewrite FK in R. rewrite Q. simpl fst. simpl snd.
  split; [reflexivity|]. intros uid Hu.
  assert (Shared : has_share (store_after (shareDocument now d userIds db)) d uid = true).
  { apply has_share_In. destruct (has_share db d uid) eqn:Old.
    - apply has_share_In in Old as [s [Hs K]]. exists s. split; [|exact K].
      rewrite R. apply in_or_app. now left.
    - assert (K : In (d, uid)
                     (map sharing_key
                          (sharing_rows now (documentSharing_seq db)
                             (map (fun userId => (d, userId)) fresh)))).
      { rewrite sharing_rows_keys. apply in_map. apply filter_In.
        split; [exact Hu|]. now rewrite Old. }
      apply in_map_iff in K as [s [K Hs]]. exists s. split; [|exact K].
      rewrite R. apply in_or_app. now right. }
  split; [exact Shared|].
  destruct (related_user_exists db uid (U uid Hu)) as [user Rel].
  exists user. split; [exact Rel|].
  apply has_share_In in Shared as [s [Hs K]].
  unfold getDocumentSharedUsers, query, result_of. apply in_map_iff.
  unfold sharing_key in K. injection K as Kd Ku.
  exists s. split.
  - unfold related_user in *. rewrite Us, Ku. exact Rel.
  - apply filter_In. split; [exact Hs|]. now apply Z.eqb_eq.
Qed.

Lemma shared_users_can_be_read_back_witness :
  [2; 3] <> [] /\
  document_exists (sample_db []) 20 = true /\
  (forall uid, In uid [2; 3] -> user_exists (sample_db []) uid = true) /\
  has_share (fst (share_handler 100 20 [2; 3] (sample_db []))) 20 3 = true /\
  result_of [] (getDocumentSharedUsers 20 (fst (share_handler 100 20 [2; 3] (sample_db []))))
  = [Some jane_row; Some michael_row].
Proof.
  assert (NE : [2; 3] <> []) by discriminate.
  assert (U : forall uid, In uid [2; 3] -> user_exists (sample_db []) uid = true).
  { intros uid [<-|[<-|[]]]; reflexivity. }
  split; [exact NE|]. split; [reflexivity|]. split; [exact U|]. split; [|reflexivity].
  exact (proj1 (proj2 (shared_users_can_be_read_back 100 20 [2; 3] (sample_db [])
                         NE eq_refl U) 3 (or_intror (or_introl eq_refl)))).
Defined.

Lemma sharing_rows_In now : forall values id s,
  In s (sharing_rows now id values) ->
  id <= ds_id s /\ ds_createdAt s = now /\ In (sharing_key s) values.
Proof.
  induction values as [|[d u] values IH]; intros id s H; simpl in H; [destruct H|].
  destruct H as [<-|H].
  - simpl. split; [lia|]. split; [reflexivity|]. now left.
  - destruct (IH (id + 1) s H) as [L [C K]]. split; [lia|]. split; [exact C|]. now right.
Qed.

(** X23.  [shareDocument] only appends.  The sharing rows it leaves are
    the rows it found, unchanged and in the same order, followed by the
    rows it added; every added row is for the given document and for a
    user id of the list that had no sharing row for the document, carries
    the time of the call, and has an id drawn from the sequence.  The
    users and documents tables are not touched. *)
Theorem share_only_appends :
  forall now d userIds db,
    let db' := store_after (shareDocument now d userIds db) in
    users db' = users db /\ documents db' = documents db /\
    exists added,
      documentSharing db' = documentSharing db ++ added /\
      forall s, In s added ->
        ds_documentId s = d /\ In (ds_userId s) userIds /\
        has_share db d (ds_userId s) = false /\
        ds_createdAt s = now /\ documentSharing_seq db <= ds_id s.
Proof.
  intros now d userIds db db'.
  destruct (shareDocument_rows now d userIds db) as [U [D R]]. fold db' in U, D, R.
  split; [exact U|]. split; [exact D|].
  destruct (forallb (fun v => document_exists db (fst v) && user_exists db (snd v))
                    (map (fun userId => (d, userId))
                         (filter (fun uid => negb (has_share db d uid)) userIds))).
  - eexists. split; [exact R|]. intros s Hs.
    apply sharing_rows_In in Hs as [L [C K]].
    apply in_map_iff in K as [uid [K Hu]]. apply filter_In in Hu as [Hu Fresh].
    unfold sharing_key in K. injection K as <- <-.
    apply negb_true_iff in Fresh. repeat split; assumption.
  - exists []. split; [now rewrite app_nil_r|]. intros s [].
Qed.

(** ** Mutual connections and colleagues *)

Lemma related_user_of_row db u :
  NoDup (map u_id (users db)) -> In u (users db) -> related_user db (u_id u) = Some u.
Proof.
  intros ND Hu. unfold related_user.
  destruct (find (fun v => u_id v =? u_id u) (users db)) as [v|] eqn:F.
  - apply find_some in F as [Hv E]. apply Z.eqb_eq in E.
    f_equal. now apply (NoDup_map_same u_id (users db)).
  - pose proof (find_none _ _ F u Hu) as N. simpl in N.
    rewrite Z.eqb_refl in N. discriminate N.
Qed.

(** X24.  Mutual connections are common colleagues: where connection
    rows point at existing users and user ids are unique, a user other
    than [a] and [b] is returned by [getMutualConnections a b] exactly
    when it is returned both by [getUserColleagues a] and by
    [getUserColleagues b]. *)
Theorem mutual_connections_are_common_colleagues :
  forall db a b u,
    connections_fk db ->
    NoDup (map u_id (users db)) ->
    u_id u <> a ->
    u_id u <> b ->
    (In u (result_of [] (getMutualConnections a b db)) <->
     exists la lb,
       getUserColleagues a db = Some la /\ getUserColleagues b db = Some lb /\
       In u la /\ In u lb).
Proof.
  intros db a b u FK ND Na Nb.
  destruct (getUserColleagues_found db a FK) as [fa [Ea [_ Ma]]].
  destruct (getUserColleagues_found db b FK) as [fb [Eb [_ Mb]]].
  rewrite In_getMutualConnections, !In_connectedIds.
  rewrite (counterpart_either_direction db a (u_id u) Na).
  rewrite (counterpart_either_direction db b (u_id u) Nb).
  split.
  - intros [Hu [Ca Cb]]. pose proof (related_user_of_row db u ND Hu) as R.
    exists (filter (fun c => negb (u_id c =? a)) fa),
           (filter (fun c => negb (u_id c =? b)) fb).
    split; [exact Ea|]. split; [exact Eb|].
    split; apply filter_In; (split; [|now apply negb_true_iff, Z.eqb_neq]).
    + apply Ma. split; assumption.
    + apply Mb. split; assumption.
  - intros [la [lb [Ha [Hb [Ia Ib]]]]].
    rewrite Ea in Ha. injection Ha as <-. rewrite Eb in Hb. injection Hb as <-.
    apply filter_In in Ia as [Ia _]. apply filter_In in Ib as [Ib _].
    apply Ma in Ia as [R Ca]. apply Mb in Ib as [_ Cb].
    split; [now apply related_user_Some in R as [H _]|]. split; assumption.
Qed.

Lemma mutual_connections_are_common_colleagues_witness :
  connections_fk triangle_db /\
  NoDup (map u_id (users triangle_db)) /\
  u_id michael_row <> 1 /\ u_id michael_row <> 2 /\
  In michael_row (result_of [] (getMutualConnections 1 2 triangle_db)).
Proof.
  assert (FK : connections_fk triangle_db).
  { intros c [<-|[<-|[]]]; split; reflexivity. }
  assert (ND : NoDup (map u_id (users triangle_db))).
  { simpl. constructor; [intros [E|[E|[]]]; discriminate E|].
    constructor; [intros [E|[]]; discriminate E|].
    constructor; [intros []|constructor]. }
  assert (N1 : u_id michael_row <> 1) by discriminate.
  assert (N2 : u_id michael_row <> 2) by discriminate.
  split; [exact FK|]. split; [exact ND|]. split; [exact N1|]. split; [exact N2|].
  apply (proj2 (mutual_connections_are_common_colleagues triangle_db 1 2 michael_row
                  FK ND N1 N2)).
  exists [michael_row], [michael_row].
  split; [reflexivity|]. split; [reflexivity|]. split; left; reflexivity.
Defined.

(** ** Comments *)

Lemma find_fresh_comment (rows : list Comment) (row : Comment) :
  (forall c, In c rows -> cm_id c < cm_id row) ->
  find (fun c => cm_id c =? cm_id row) (rows ++ [row]) = Some row.
Proof.
  intro LT. apply find_app_new; [|apply Z.eqb_refl].
  destruct (find (fun c => cm_id c =? cm_id row) rows) as [c|] eqn:F; [|reflexivity].
  apply find_some in F as [Hc E]. apply Z.eqb_eq in E. specialize (LT c Hc). lia.
Qed.

Lemma In_insert_by_time c x l : In x (insert_by_time c l) <-> x = c \/ In x l.
Proof.
  induction l as [|d l IH]; simpl; [intuition congruence|].
  destruct (cm_createdAt c <? cm_createdAt d); simpl; [intuition congruence|].
  rewrite IH. intuition congruence.
Qed.

Lemma In_order_by_time x l : In x (order_by_time l) <-> In x l.
Proof.
  induction l as [|c l IH]; simpl; [tauto|].
  rewrite In_insert_by_time, IH. intuition congruence.
Qed.

Lemma length_insert_by_time c l :
  List.length (insert_by_time c l) = S (List.length l).
Proof.
  induction l as [|d l IH]; simpl; [reflexivity|].
  destruct (cm_createdAt c <? cm_createdAt d); simpl; [reflexivity|now rewrite IH].
Qed.

Lemma length_order_by_time l : List.length (order_by_time l) = List.length l.
Proof.
  induction l as [|c l IH]; simpl; [reflexivity|].
  now rewrite length_insert_by_time, IH.
Qed.

Lemma ascending_insert c l :
  ascending (map cm_createdAt l) -> ascending (map cm_createdAt (insert_by_time c l)).
Proof.
  induction l as [|d l IH]; simpl; intro A.
  - split; [intros t []|exact I].
  - destruct A as [Low A]. destruct (cm_createdAt c <? cm_createdAt d) eqn:E; simpl.
    + apply Z.ltb_lt in E. split; [|split; assumption].
      intros t [<-|Ht]; [lia|]. specialize (Low t Ht). lia.
    + apply Z.ltb_ge in E. split; [|now apply IH].
      intros t Ht. apply in_map_iff in Ht as [x [<- Hx]].
      apply In_insert_by_time in Hx as [->|Hx]; [exact E|].
      apply Low. now apply in_map.
Qed.

Lemma ascending_order_by_time l : ascending (map cm_createdAt (order_by_time l)).
Proof.
  induction l as [|c l IH]; simpl; [exact I|]. now apply ascending_insert.
Qed.

(** The comment handler on a body that parses, for rows that exist. *)
Lemma comment_handler_success now u pid body content parentId s :
  comments_wf s ->
  parse_comment body = Some (content, parentId) ->
  post_exists (cdb_base s) pid = true ->
  user_exists (cdb_base s) (au_id u) = true ->
  match parentId with
  | Some parent => comment_exists s parent = true
  | None => True
  end ->
  let row := mkComment (comments_seq s) pid (au_id u) content parentId now now in
  let s' := mkCommentsDb (cdb_base s) (comments s ++ [row]) (comments_seq s + 1) in
  comment_handler now (Some u) (Some pid) body s = (s', CreatedWithDetails (with_user s' row)).
Proof.
  intros WF P HP HU HPar row s'.
  unfold comment_handler. rewrite P. unfold createComment. rewrite HP, HU.
  assert (Ok : match parentId with
               | Some parent => comment_exists s parent
               | None => true
               end = true) by (destruct parentId; [exact HPar|reflexivity]).
  rewrite Ok. pose proof (find_fresh_comment (comments s) row WF) as F.
  unfold getCommentById, s'. unfold row in F |- *. simpl in F |- *. rewrite F.
  reflexivity.
Qed.

(** X25.  A posted comment is stored and listed.  For an authenticated
    user, a post and user that exist and a body that passes validation
    (its parent, if any, being an existing comment), on a comments table
    whose ids were drawn from the sequence, the handler appends one row
    with the given post, author, content and parent, answers with that
    row and its author's user row, and the comment is then among those
    [getCommentsForPost] returns for the post; all earlier comments are
    kept. *)
Theorem posted_comment_is_stored_and_listed :
  forall now u pid body content parentId s,
    comments_wf s ->
    parse_comment body = Some (content, parentId) ->
    post_exists (cdb_base s) pid = true ->
    user_exists (cdb_base s) (au_id u) = true ->
    match parentId with
    | Some parent => comment_exists s parent = true
    | None => True
    end ->
    let out := comment_handler now (Some u) (Some pid) body s in
    let row := mkComment (comments_seq s) pid (au_id u) content parentId now now in
    comments (fst out) = comments s ++ [row] /\
    snd out = CreatedWithDetails
                (mkCommentWithUser row (related_user (cdb_base s) (au_id u))) /\
    In (mkCommentWithUser row (related_user (cdb_base s) (au_id u)))
       (getCommentsForPost pid (fst out)) /\
    comments_wf (fst out).
Proof.
  intros now u pid body content parentId s WF P HP HU HPar out row.
  unfold out. rewrite (comment_handler_success now u pid body content parentId s WF P HP HU HPar).
  fold row. simpl fst. simpl snd. split; [reflexivity|]. split; [reflexivity|]. split.
  - unfold getCommentsForPost. simpl.
    change (mkCommentWithUser row (related_user (cdb_base s) (au_id u)))
      with (with_user (mkCommentsDb (cdb_base s) (comments s ++ [row]) (comments_seq s + 1))
                      row).
    apply in_map. apply In_order_by_time. apply filter_In. split.
    + apply in_or_app. right. now left.
    + simpl. apply Z.eqb_refl.
  - intros c Hc. simpl in *. apply in_app_or in Hc as [Hc|[<-|[]]].
    + specialize (WF c Hc). lia.
    + simpl. lia.
Qed.

Lemma posted_comment_is_stored_and_listed_witness :
  comments_wf thread_db /\
  parse_comment (mkCommentBody (Some "Thanks"%string) (ParentInteger 1))
  = Some ("Thanks"%string, Some 1) /\
  post_exists (cdb_base thread_db) 10 = true /\
  user_exists (cdb_base thread_db) (au_id michael) = true /\
  comment_exists thread_db 1 = true /\
  comments (fst (comment_handler 600 (Some michael) (Some 10)
                   (mkCommentBody (Some "Thanks"%string) (ParentInteger 1)) thread_db))
  = comments thread_db ++ [mkComment 3 10 3 "Thanks" (Some 1) 600 600].
Proof.
  assert (WF : comments_wf thread_db).
  { intros c [<-|[<-|[]]]; simpl; lia. }
  split; [exact WF|]. split; [reflexivity|]. split; [reflexivity|].
  split; [reflexivity|]. split; [reflexivity|].
  exact (proj1 (posted_comment_is_stored_and_listed 600 michael 10
                  (mkCommentBody (Some "Thanks"%string) (ParentInteger 1))
                  "Thanks" (Some 1) thread_db WF eq_refl eq_refl eq_refl eq_refl)).
Defined.

(** X26.  Threads may cross posts: the parent of a reply is only required
    to exist.  If a comment [parent] with a positive id exists on some
    post, a reply naming it is accepted on any other existing post, and
    the table then holds a comment whose parent belongs to a different
    post. *)
Theorem reply_may_name_a_comment_of_another_post :
  forall now u pid content parent s,
    comments_wf s ->
    In parent (comments s) ->
    0 < cm_id parent ->
    cm_postId parent <> pid ->
    content <> EmptyString ->
    post_exists (cdb_base s) pid = true ->
    user_exists (cdb_base s) (au_id u) = true ->
    let out := comment_handler now (Some u) (Some pid)
                 (mkCommentBody (Some content) (ParentInteger (cm_id parent))) s in
    exists reply,
      snd out = CreatedWithDetails (with_user (fst out) reply) /\
      In reply (comments (fst out)) /\ In parent (comments (fst out)) /\
      cm_parentId reply = Some (cm_id parent) /\
      cm_postId reply = pid /\ cm_postId reply <> cm_postId parent.
Proof.
  intros now u pid content parent s WF Hp Pos Other NE HP HU out.
  assert (P : parse_comment (mkCommentBody (Some content) (ParentInteger (cm_id parent)))
              = Some (content, Some (cm_id parent))).
  { unfold parse_comment. simpl. apply String.eqb_neq in NE. rewrite NE.
    apply Z.ltb_lt in Pos. now rewrite Pos. }
  assert (Ex : comment_exists s (cm_id parent) = true).
  { unfold comment_exists. apply existsb_exists. exists parent.
    split; [exact Hp|apply Z.eqb_refl]. }
  unfold out. rewrite (comment_handler_success now u pid _ content (Some (cm_id parent)) s
                         WF P HP HU Ex).
  eexists. simpl fst. simpl snd. split; [reflexivity|]. split.
  - simpl. apply in_or_app. right. left. reflexivity.
  - split; [simpl; apply in_or_app; now left|]. simpl.
    split; [reflexivity|]. split; [reflexivity|congruence].
Qed.

Lemma reply_may_name_a_comment_of_another_post_witness :
  comments_wf thread_db /\
  In (mkComment 1 10 1 "First" None 500 500) (comments thread_db) /\
  In (mkComment 3 11 3 "Elsewhere" (Some 1) 600 600)
     (comments (fst (comment_handler 600 (Some michael) (Some 11)
                       (mkCommentBody (Some "Elsewhere"%string) (ParentInteger 1))
                       thread_db))).
Proof.
  assert (WF : comments_wf thread_db).
  { intros c [<-|[<-|[]]]; simpl; lia. }
  assert (Hp : In (mkComment 1 10 1 "First" None 500 500) (comments thread_db))
    by (left; reflexivity).
  split; [exact WF|]. split; [exact Hp|].
  destruct (reply_may_name_a_comment_of_another_post 600 michael 11 "Elsewhere"
              (mkComment 1 10 1 "First" None 500 500) thread_db WF Hp)
    as [reply [_ [Hr _]]]; try reflexivity; try discriminate.
  right. right. left. reflexivity.
Defined.



(** X28.  [GET /api/posts/:postId/comments] refuses an id that does not
    parse with 400, answers 500 for a parsed id outside the integer type
    of [post_id], on which the query throws, and for every other id lists
    the comments of the post and no others, each once and with its
    author's user row, ordered by creation time, oldest first. *)
Theorem comments_are_listed_oldest_first :
  forall s,
    comments_handler None s = Refused (mkResponse 400 (Message "Invalid post ID")) /\
    (forall pid, int4 pid = false ->
       exists r, comments_handler (Some pid) s = Refused r /\ res_status r = 500) /\
    forall pid, int4 pid = true ->
      exists listed,
        comments_handler (Some pid) s = Rows listed /\
        (forall cw, In cw listed <->
           exists c, In c (comments s) /\ cm_postId c = pid /\
             cw = mkCommentWithUser c (related_user (cdb_base s) (cm_userId c))) /\
        List.length listed
        = List.length (filter (fun c => cm_postId c =? pid) (comments s)) /\
        ascending (map (fun cw => cm_createdAt (cu_comment cw)) listed).
Proof.
  intro s. split; [reflexivity|]. split.
  { intros pid B. destruct (integer_parameter_refused (Some pid) B) as [e [E S]].
    exists (handleErrors e). unfold comments_handler. rewrite E. split; [reflexivity|exact S]. }
  intros pid Hp.
  exists (getCommentsForPost pid s). split.
  { unfold comments_handler. now rewrite (integer_parameter_int4 pid Hp). }
  unfold getCommentsForPost. split; [|split].
  - intro cw. rewrite in_map_iff. split.
    + intros [c [<- Hc]]. apply In_order_by_time, filter_In in Hc as [Hc E].
      apply Z.eqb_eq in E. exists c. repeat split; assumption.
    + intros [c [Hc [E ->]]]. exists c. split; [reflexivity|].
      apply In_order_by_time, filter_In. split; [exact Hc|]. now apply Z.eqb_eq.
  - now rewrite length_map, length_order_by_time.
  - rewrite map_map. simpl. apply ascending_order_by_time.
Qed.

Lemma comments_are_listed_oldest_first_witness :
  int4 10 = true /\
  comments_handler (Some 10) thread_db
  = Rows [mkCommentWithUser (mkComment 2 10 2 "Reply" (Some 1) 400 400) (Some jane_row);
          mkCommentWithUser (mkComment 1 10 1 "First" None 500 500) (Some john_row)] /\
  (exists listed, comments_handler (Some 10) thread_db = Rows listed /\
     ascending (map (fun cw => cm_createdAt (cu_comment cw)) listed)) /\
  int4 99999999999 = false /\
  (exists r, comments_handler (Some 99999999999) thread_db = Refused r /\
     res_status r = 500).
Proof.
  split; [reflexivity|]. split; [reflexivity|]. split; [|split; [reflexivity|]].
  - destruct (proj2 (proj2 (comments_are_listed_oldest_first thread_db)) 10 eq_refl)
      as [listed [E [_ [_ A]]]].
    exists listed. split; assumption.
  - exact (proj1 (proj2 (comments_are_listed_oldest_first thread_db)) 99999999999 eq_refl).
Defined.

(** ** Invariants of the connection requests *)

Lemma step_users now op db : users (fst (step now op db)) = users db.
Proof.
  destruct op as [user target | user cid | user cid]; unfold step.
  - destruct user as [u|]; [|reflexivity]. destruct target as [t|]; [|reflexivity].
    rewrite connect_handler_result.
    destruct (user_exists db (au_id u) && user_exists db t); reflexivity.
  - destruct (accept_handler_cases now user cid db)
      as [E | [u [k [c0 [_ [_ [_ [_ [_ E]]]]]]]]]; rewrite E; reflexivity.
  - destruct (reject_handler_cases now user cid db)
      as [E | [u [k [c0 [_ [_ [_ [_ [_ E]]]]]]]]]; rewrite E; reflexivity.
Qed.

Lemma step_keeps_fk now op db :
  connections_fk db -> connections_fk (fst (step now op db)).
Proof.
  intros FK c Hc. unfold user_exists. rewrite step_users.
  assert (Upd : forall st k c,
            In c (connections (store_after (updateConnectionStatus now k st db))) ->
            exists c0, In c0 (connections db) /\ c_userId c = c_userId c0 /\
                       c_connectedUserId c = c_connectedUserId c0).
  { intros st k x Hx. simpl in Hx. apply in_map_iff in Hx as [c0 [<- H0]].
    exists c0. split; [exact H0|]. destruct (c_id c0 =? k); split; reflexivity. }
  assert (Old : (exists c0, In c0 (connections db) /\ c_userId c = c_userId c0 /\
                            c_connectedUserId c = c_connectedUserId c0) ->
                existsb (fun u => u_id u =? c_userId c) (users db) = true /\
                existsb (fun u => u_id u =? c_connectedUserId c) (users db) = true).
  { intros [c0 [H0 [-> ->]]]. now apply FK. }
  destruct op as [user target | user cid | user cid]; unfold step in Hc.
  - destruct user as [u|]; [|now apply FK]. destruct target as [t|]; [|now apply FK].
    rewrite connect_handler_result in Hc.
    destruct (user_exists db (au_id u)) eqn:Eu, (user_exists db t) eqn:Et;
      simpl in Hc; try (now apply FK).
    apply in_app_or in Hc as [Hc|[<-|[]]]; [now apply FK|]. split; assumption.
  - destruct (accept_handler_cases now user cid db)
      as [E | [u [k [c0 [_ [_ [_ [_ [_ E]]]]]]]]]; rewrite E in Hc;
      [now apply FK | apply Old; now apply (Upd accepted k)].
  - destruct (reject_handler_cases now user cid db)
      as [E | [u [k [c0 [_ [_ [_ [_ [_ E]]]]]]]]]; rewrite E in Hc;
      [now apply FK | apply Old; now apply (Upd rejected k)].
Qed.

(** X29.  The documented operations keep the table sound: from a store
    in which connection ids are unique and below the sequence and every
    connection row points at existing users, any sequence of Request,
    Accept and Reject requests leads to a store with the same properties
    and the same users; so the colleagues of every user can always be
    computed. *)
Theorem operations_keep_connections_sound :
  forall ops db a,
    connections_wf db ->
    connections_fk db ->
    connections_wf (run ops db) /\
    connections_fk (run ops db) /\
    users (run ops db) = users db /\
    exists l, getUserColleagues a (run ops db) = Some l.
Proof.
  intros ops db a WF FK.
  assert (G : connections_wf (run ops db) /\ connections_fk (run ops db) /\
              users (run ops db) = users db).
  { revert db WF FK. induction ops as [|[now op] ops IH]; intros db WF FK; simpl.
    - split; [exact WF|]. split; [exact FK|]. reflexivity.
    - destruct (step_evolves now op db WF) as [WF1 _].
      pose proof (step_keeps_fk now op db FK) as FK1.
      destruct (IH _ WF1 FK1) as [W [F U]].
      split; [exact W|]. split; [exact F|]. rewrite U. apply step_users. }
  destruct G as [W [F U]]. split; [exact W|]. split; [exact F|]. split; [exact U|].
  destruct (getUserColleagues_found (run ops db) a F) as [found [E _]].
  eexists. exact E.
Qed.

Lemma operations_keep_connections_sound_witness :
  connections_wf (sample_db [pending_row]) /\
  connections_fk (sample_db [pending_row]) /\
  connections_fk (run accept_then_reject (sample_db [pending_row])).
Proof.
  assert (WF : connections_wf (sample_db [pending_row])).
  { split; simpl.
    - constructor; [intros []|constructor].
    - intros x [<-|[]]. simpl. lia. }
  assert (FK : connections_fk (sample_db [pending_row])).
  { intros c [<-|[]]. split; reflexivity. }
  split; [exact WF|]. split; [exact FK|].
  exact (proj1 (proj2 (operations_keep_connections_sound accept_then_reject
                         (sample_db [pending_row]) 1 WF FK))).
Defined.

Lemma update_of_fresh_row now st (rows : list Connection) (row : Connection) :
  (forall c, In c rows -> c_id c < c_id row) ->
  map (fun c => if c_id c =? c_id row then set_status now st c else c) (rows ++ [row])
  = rows ++ [set_status now st row].
Proof.
  intro LT. rewrite map_app. simpl. rewrite Z.eqb_refl. f_equal.
  rewrite <- (map_id rows) at 2. apply map_ext_in. intros c Hc.
  specialize (LT c Hc). assert (N : (c_id c =? c_id row) = false) by (apply Z.eqb_neq; lia).
  now rewrite N.
Qed.

(** X30.  A rejected request makes no colleagues but still ends the
    suggestions.  If [a] asks an existing user [b] for a connection and
    the request is then rejected, by [b] or (as a cancellation) by [a],
    the colleagues of every user are exactly what they were before the
    request, and yet neither of the two is suggested to the other any
    more. *)
Theorem rejected_request_changes_no_colleagues :
  forall t1 t2 db ua t rejecter a_row,
    connections_wf db ->
    related_user db (au_id ua) = Some a_row ->
    user_exists db t = true ->
    au_id rejecter = t \/ au_id rejecter = au_id ua ->
    let requested := connect_handler t1 (Some ua) (Some t) db in
    let rejected' :=
      reject_handler t2 (Some rejecter) (Some (connections_seq db)) (fst requested) in
    res_status (snd rejected') = 200 /\
    (forall x, getUserColleagues x (fst rejected') = getUserColleagues x db) /\
    (forall u, In u (result_of [] (getUserSuggestions (au_id ua) (fst rejected'))) ->
       u_id u <> t) /\
    (forall u, In u (result_of [] (getUserSuggestions t (fst rejected'))) ->
       u_id u <> au_id ua).
Proof.
  intros t1 t2 db ua t rejecter a_row [_ LT] Ra Et Who requested rejected'.
  pose proof (related_user_gives_exists _ _ _ Ra) as Ea.
  set (row := mkConnection (connections_seq db) (au_id ua) t pending t1 t1).
  assert (Q1 : requested
               = (set_connections (connections db ++ [row]) (connections_seq db + 1) db,
                  mkResponse 201 (ConnectionJson (Some row)))).
  { unfold requested. rewrite connect_handler_result, Ea, Et. reflexivity. }
  assert (F : find (fun c => c_id c =? connections_seq db) (connections (fst requested))
              = Some row).
  { rewrite Q1. exact (find_fresh_id (connections db) row LT). }
  assert (Q2 : rejected'
               = (store_after (updateConnectionStatus t2 (connections_seq db) rejected
                                                      (fst requested)),
                  mkResponse 200 (ConnectionJson (Some (set_status t2 rejected row))))).
  { unfold rejected'. apply reject_handler_success; [exact F| |reflexivity].
    simpl. destruct Who as [W|W]; [left|right]; now symmetry. }
  assert (Rows : connections (fst rejected')
                 = connections db ++ [set_status t2 rejected row]).
  { rewrite Q2, Q1. simpl. exact (update_of_fresh_row t2 rejected (connections db) row LT). }
  assert (Us : users (fst rejected') = users db) by (rewrite Q2, Q1; reflexivity).
  assert (New : In (set_status t2 rejected row) (connections (fst rejected')))
    by (rewrite Rows; apply in_or_app; right; now left).
  split; [rewrite Q2; reflexivity|]. split; [|split].
  - intro x. unfold getUserColleagues, related_user. rewrite Rows, Us, !filter_app.
    simpl. rewrite !andb_false_r, !app_nil_r. reflexivity.
  - intros u S. apply suggested_has_no_row in S as [_ S].
    now destruct (S _ New (or_introl eq_refl)) as [_ N].
  - intros u S. apply suggested_has_no_row in S as [_ S].
    now destruct (S _ New (or_intror eq_refl)) as [N _].
Qed.

Lemma rejected_request_changes_no_colleagues_witness :
  connections_wf (sample_db [accepted_row]) /\
  related_user (sample_db [accepted_row]) (au_id john) = Some john_row /\
  user_exists (sample_db [accepted_row]) 3 = true /\
  getUserColleagues 1
    (fst (reject_handler 300 (Some john) (Some (connections_seq (sample_db [accepted_row])))
            (fst (connect_handler 200 (Some john) (Some 3) (sample_db [accepted_row])))))
  = getUserColleagues 1 (sample_db [accepted_row]).
Proof.
  assert (WF : connections_wf (sample_db [accepted_row])).
  { split; simpl.
    - constructor; [intros []|constructor].
    - intros x [<-|[]]. simpl. lia. }
  split; [exact WF|]. split; [reflexivity|]. split; [reflexivity|].
  exact (proj1 (proj2 (rejected_request_changes_no_colleagues 200 300
                         (sample_db [accepted_row]) john 3 john john_row
                         WF eq_refl eq_refl (or_intror eq_refl))) 1).
Defined.
